(** * Wallet service: the ledger transaction engine

    A shallow embedding of the double-entry ledger of the wallet service
    (types/wallet.types.ts, errors/index.ts, config/database.ts,
    repositories/wallet.repository.ts, services/ledger.service.ts,
    services/wallet.service.ts and the schema of database/schema.sql),
    followed by the properties of the engine.

    The store is a record of tables; every SQL statement of the repository
    is a function on that record.  Code that runs inside [withTransaction]
    lives in the monad [Tx], which threads the store and a thrown error. *)

From Stdlib Require Import ZArith List String Ascii Bool Lia.
From Stdlib Require Import Permutation Sorted DecimalString.
Import ListNotations.

Local Open Scope string_scope.
Local Open Scope list_scope.
Local Open Scope Z_scope.

(* ================================================================== *)
(** ** Numbers *)

(** PostgreSQL BIGINT. *)
Definition bigint_min : Z := - 2 ^ 63.
Definition bigint_max : Z := 2 ^ 63 - 1.
Definition in_bigint (z : Z) : bool := (bigint_min <=? z) && (z <=? bigint_max).

(** The value of a TypeScript [number] that [parseInt(s, 10)] yields for
    the decimal text of the integer [z]: the nearest IEEE-754 double, ties
    to the even significand.  Integers of at most 53 bits are exact. *)
Definition Number_of_Z (z : Z) : Z :=
  let a := Z.abs z in
  let bits := Z.log2 a + 1 in
  if bits <=? 53 then z
  else
    let sh := bits - 53 in
    let q := Z.shiftr a sh in
    let r := Z.land a (Z.ones sh) in
    let half := Z.shiftl 1 (sh - 1) in
    let q' := if (half <? r) || ((r =? half) && Z.odd q) then q + 1 else q in
    Z.sgn z * Z.shiftl q' sh.

(** The digits of the decimal text of a number above 2^53: among the
    multiples of a power of ten next to [a], from 10^[j] down, the first
    that read back as [a]; of two that do, the nearer one. *)
Fixpoint shortest_digits (j : nat) (a : Z) : Z :=
  match j with
  | O => a
  | S j' =>
      let p := 10 ^ Z.of_nat j in
      let lo := a / p * p in
      let hi := lo + p in
      let lo_reads := Number_of_Z lo =? a in
      let hi_reads := Number_of_Z hi =? a in
      if lo_reads && hi_reads then (if a - lo <=? hi - a then lo else hi)
      else if lo_reads then lo
      else if hi_reads then hi
      else shortest_digits j' a
  end.

(** The integer that the decimal text of an integer-valued [number]
    denotes, as [n.toString()] writes it and as the store's driver sends a
    [number] parameter: an integer of at most 53 bits is written in full;
    above, the text has the fewest significant digits that read back as the
    same number, followed by zeros (2^60 is written 1152921504606847000).
    From 10^21 on the text is in exponent form and denotes no integer. *)
Definition Number_text (z : Z) : option Z :=
  let a := Z.abs z in
  if 10 ^ 21 <=? a then None
  else if Z.log2 a + 1 <=? 53 then Some z
  else Some (Z.sgn z * shortest_digits 20 a).

(** What the text of a number below 10^21 reads as. *)
Definition written (z : Z) : Z :=
  match Number_text z with
  | Some t => t
  | None => z
  end.

(** [n.toString()] of an integer-valued number below 10^21. *)
Definition toString (z : Z) : string := NilZero.string_of_int (Z.to_int (written z)).

(* ================================================================== *)
(** ** types/wallet.types.ts *)

Inductive EntryType := DEBIT | CREDIT.

Definition EntryType_eqb (a b : EntryType) : bool :=
  match a, b with
  | DEBIT, DEBIT | CREDIT, CREDIT => true
  | _, _ => false
  end.

Inductive TransactionType :=
  TOPUP | BONUS | SPEND | TRANSFER | INITIAL_BALANCE | REFUND.

Inductive AccountType := USER | SYSTEM.

(** [Record<string, unknown>]: the engine only ever adds the key
    [counterpartyWalletId] (a number) to what the caller gave. *)
Inductive Json := JNum (z : Z) | JStr (s : string).
Definition Metadata := list (string * Json).

(** The object literal [{ ...m, k: v }]; spreading [undefined] adds nothing. *)
Definition spread_with (m : option Metadata) (k : string) (v : Json) : Metadata :=
  let m := match m with Some m => m | None => [] end in
  if existsb (fun kv => String.eqb (fst kv) k) m
  then map (fun kv => if String.eqb (fst kv) k then (k, v) else kv) m
  else m ++ [(k, v)].

Module AssetType.
Record t := {
  id : Z;
  code : string;
  name : string;
  description : option string;
  decimal_places : Z;
  is_active : bool;
}.
End AssetType.

Module Wallet.
Record t := {
  id : Z;
  account_type : AccountType;
  user_id : option string;
  display_name : string;
  is_active : bool;
}.
End Wallet.

Module LedgerEntry.
Record t := {
  id : Z;
  transaction_id : string;
  wallet_id : Z;
  asset_type_id : Z;
  entry_type : EntryType;
  amount : Z;
  transaction_type : TransactionType;
  reference_id : string;
  description : option string;
  metadata : Metadata;
  created_at : Z;
}.
End LedgerEntry.

Module WalletBalance.
Record t := {
  wallet_id : Z;
  user_id : option string;
  display_name : string;
  asset_type_id : Z;
  asset_code : string;
  asset_name : string;
  balance : Z;
  last_transaction_at : option Z;
}.
End WalletBalance.

Module TransactionParams.
Record t := {
  sourceWalletId : Z;
  targetWalletId : Z;
  assetTypeId : Z;
  amount : Z;
  transactionType : TransactionType;
  referenceId : string;
  description : option string;
  metadata : option Metadata;
}.
End TransactionParams.

Module CreateLedgerEntryParams.
Record t := {
  transactionId : string;
  walletId : Z;
  assetTypeId : Z;
  entryType : EntryType;
  amount : Z;
  transactionType : TransactionType;
  referenceId : string;
  description : option string;
  metadata : option Metadata;
}.
End CreateLedgerEntryParams.

Module SpendRequest.
Record t := {
  user_id : string;
  asset_code : string;
  amount : Z;
  reference_id : string;
  item_id : string;
  metadata : option Metadata;
}.
End SpendRequest.

Module TransactionResponse.
Record t := {
  transaction_id : string;
  user_id : string;
  asset_code : string;
  amount : Z;
  balance : Z;
  transaction_type : TransactionType;
}.
End TransactionResponse.

Module SYSTEM_WALLETS.
Definition TREASURY_GOLD := "Treasury - Gold Coins".
Definition TREASURY_DIAMONDS := "Treasury - Diamonds".
Definition TREASURY_LOYALTY := "Treasury - Loyalty Points".
Definition BONUS_POOL := "Bonus Pool".
Definition REVENUE := "Revenue Account".
End SYSTEM_WALLETS.

(* ================================================================== *)
(** ** errors/index.ts *)

Inductive WalletServiceError :=
| InsufficientFundsError (required available : Z) (assetCode : string)
| DuplicateTransactionError (referenceId existingTransactionId : string)
| WalletNotFoundError (identifier type : string)
| AssetTypeNotFoundError (assetCode : string)
| ValidationError (message : string)
| ConcurrencyError (message : string)
| TransactionNotFoundError (referenceId : string).

(** What a [throw] carries: one of the service's own error classes, or the
    error object of the store's driver with its SQLSTATE code. *)
Inductive Thrown :=
| Service (e : WalletServiceError)
| Pg (sqlstate : string).

Inductive result (A : Type) :=
| Ok (a : A)
| Throw (e : Thrown).
Arguments Ok {A} a.
Arguments Throw {A} e.

(* ================================================================== *)
(** ** database/schema.sql and config/database.ts *)

(** The tables.  Ids are the values of the key columns ([SERIAL],
    [BIGSERIAL]); the service passes on only ids it has read from rows, so
    an id is an integer of the column's range.  Amounts come from requests
    and are checked against [BIGINT] where the store does. *)
Record Database := {
  asset_types : list AssetType.t;
  wallets : list Wallet.t;
  ledger_entries : list LedgerEntry.t;        (* in insertion order *)
  ledger_entries_id_seq : Z;                  (* next value of the BIGSERIAL *)
  wallet_balances : list WalletBalance.t;     (* the materialized view *)
}.

(** What one connection ([PoolClient]) sees of the world during one unit of
    work: the transaction's start time ([NOW()]), the wallet rows that
    concurrent in-flight transactions hold locked, and whether [COMMIT]
    is refused by the store (with which SQLSTATE). *)
Record PoolClient := {
  now : Z;
  locked_by_others : list Z;
  commit_error : option string;
}.

(** Code running on a connection between [BEGIN] and [COMMIT]/[ROLLBACK]. *)
Definition Tx (A : Type) : Type := Database -> result A * Database.

Definition ret {A} (a : A) : Tx A := fun db => (Ok a, db).
Definition throw {A} (e : Thrown) : Tx A := fun db => (Throw e, db).
Definition bind {A B} (m : Tx A) (k : A -> Tx B) : Tx B :=
  fun db =>
    match m db with
    | (Ok a, db1) => k a db1
    | (Throw e, db1) => (Throw e, db1)
    end.
(** [try { m } catch (error) { h(error) }] *)
Definition try_catch {A} (m : Tx A) (h : Thrown -> Tx A) : Tx A :=
  fun db =>
    match m db with
    | (Ok a, db1) => (Ok a, db1)
    | (Throw e, db1) => h e db1
    end.

Declare Scope tx_scope.
Delimit Scope tx_scope with tx.
Notation "x <- m ;; k" := (bind m (fun x => k))
  (at level 100, m at next level, right associativity) : tx_scope.
Notation "m ;;; k" := (bind m (fun _ => k))
  (at level 100, right associativity) : tx_scope.

(** [ROLLBACK]: every table is as it was at [BEGIN]; sequences are not
    transactional and keep the values they handed out. *)
Definition ROLLBACK (at_begin at_error : Database) : Database :=
  {| asset_types := asset_types at_begin;
     wallets := wallets at_begin;
     ledger_entries := ledger_entries at_begin;
     ledger_entries_id_seq := ledger_entries_id_seq at_error;
     wallet_balances := wallet_balances at_begin |}.

Definition withTransaction {A} (callback : PoolClient -> Tx A)
    (client : PoolClient) : Tx A :=
  fun db =>
    match callback client db with
    | (Ok a, db1) =>
        match commit_error client with
        | None => (Ok a, db1)
        | Some code => (Throw (Pg code), ROLLBACK db db1)
        end
    | (Throw e, db1) => (Throw e, ROLLBACK db db1)
    end.

(** [ORDER BY] and [Array.prototype.sort]: a sort by a comparison. *)
Fixpoint insert_by {A} (leb : A -> A -> bool) (x : A) (l : list A) : list A :=
  match l with
  | [] => [x]
  | y :: t => if leb x y then x :: l else y :: insert_by leb x t
  end.

Definition sort_by {A} (leb : A -> A -> bool) (l : list A) : list A :=
  fold_right (insert_by leb) [] l.

(* ================================================================== *)
(** ** repositories/wallet.repository.ts *)

(** [SELECT ... LIMIT 1] without [ORDER BY]: the store may hand back any
    one of the matching rows.  The embedding is parametric in that choice. *)
Class RowChoice := {
  limit1 : list LedgerEntry.t -> option LedgerEntry.t;
  limit1_nil : limit1 [] = None;
  limit1_In : forall rows, rows <> [] -> exists r, limit1 rows = Some r /\ In r rows;
}.

(** [CASE WHEN entry_type = 'CREDIT' THEN amount ELSE -amount END] *)
Definition signed (e : LedgerEntry.t) : Z :=
  match LedgerEntry.entry_type e with
  | CREDIT => LedgerEntry.amount e
  | DEBIT => - LedgerEntry.amount e
  end.

Definition total (l : list Z) : Z := fold_right Z.add 0 l.

(** The aggregate [SUM] is NULL over no rows. *)
Definition SUM (l : list Z) : option Z :=
  match l with
  | [] => None
  | _ => Some (total l)
  end.

Definition COALESCE (x : option Z) (d : Z) : Z :=
  match x with
  | Some v => v
  | None => d
  end.

Definition mem (x : Z) (l : list Z) : bool := existsb (Z.eqb x) l.

(** [WHERE wallet_id = $1 AND asset_type_id = $2] *)
Definition for_pair (walletId assetTypeId : Z) (e : LedgerEntry.t) : bool :=
  (LedgerEntry.wallet_id e =? walletId) && (LedgerEntry.asset_type_id e =? assetTypeId).

Definition findWalletByUserId (userId : string) : Tx Wallet.t :=
  fun db =>
    let rows :=
      filter (fun w => match Wallet.user_id w with
                       | Some u => String.eqb u userId
                       | None => false
                       end && Wallet.is_active w) (wallets db) in
    match rows with
    | [] => (Throw (Service (WalletNotFoundError userId "user_id")), db)
    | w :: _ => (Ok w, db)
    end.

Definition findSystemWalletByName (displayName : string) : Tx Wallet.t :=
  fun db =>
    let rows :=
      filter (fun w => String.eqb (Wallet.display_name w) displayName
                       && match Wallet.account_type w with SYSTEM => true | USER => false end
                       && Wallet.is_active w) (wallets db) in
    match rows with
    | [] => (Throw (Service (WalletNotFoundError displayName "wallet_id")), db)
    | w :: _ => (Ok w, db)
    end.

Definition findAssetTypeByCode (code : string) : Tx AssetType.t :=
  fun db =>
    let rows :=
      filter (fun a => String.eqb (AssetType.code a) code && AssetType.is_active a)
             (asset_types db) in
    match rows with
    | [] => (Throw (Service (AssetTypeNotFoundError code)), db)
    | a :: _ => (Ok a, db)
    end.

(** The array handed to the store: [[...walletIds].sort((a, b) => a - b)]. *)
Definition sortedIds (walletIds : list Z) : list Z := sort_by Z.leb walletIds.

(** The rows of
    [WHERE id = ANY($1::int[]) AND is_active = TRUE ORDER BY id ASC FOR UPDATE NOWAIT],
    in the order in which they are locked. *)
Definition lockRows (walletIds : list Z) (db : Database) : list Wallet.t :=
  sort_by (fun a b => Wallet.id a <=? Wallet.id b)
    (filter (fun w => mem (Wallet.id w) (sortedIds walletIds) && Wallet.is_active w)
            (wallets db)).

(** [NOWAIT]: a row that another transaction holds makes the statement fail
    at once with SQLSTATE 55P03 (lock_not_available). *)
Definition lockWalletsInOrder (walletIds : list Z) (client : PoolClient)
  : Tx (list Wallet.t) :=
  fun db =>
    let rows := lockRows walletIds db in
    if existsb (fun w => mem (Wallet.id w) (locked_by_others client)) rows
    then (Throw (Pg "55P03"), db)
    else (Ok rows, db).

(** [COALESCE(SUM(...), 0)::bigint], read back with [parseInt(..., 10)].
    The cast fails (22003, numeric_value_out_of_range) outside BIGINT. *)
Definition calculateBalance (walletId assetTypeId : Z) (client : PoolClient) : Tx Z :=
  fun db =>
    let rows := filter (for_pair walletId assetTypeId) (ledger_entries db) in
    let balance := COALESCE (SUM (map signed rows)) 0 in
    if in_bigint balance then (Ok (Number_of_Z balance), db)
    else (Throw (Pg "22003"), db).

(** [WHERE user_id = $1 [AND asset_code = $2] ORDER BY asset_code ASC];
    the second condition is added when [assetCode] is truthy. *)
Definition getBalancesFromView (userId : string) (assetCode : option string)
  : Tx (list WalletBalance.t) :=
  fun db =>
    let truthy := match assetCode with Some "" | None => None | Some c => Some c end in
    let rows :=
      filter (fun b => match WalletBalance.user_id b with
                       | Some u => String.eqb u userId
                       | None => false
                       end
                       && match truthy with
                          | Some c => String.eqb (WalletBalance.asset_code b) c
                          | None => true
                          end) (wallet_balances db) in
    (Ok (sort_by (fun a b => String.leb (WalletBalance.asset_code a)
                                         (WalletBalance.asset_code b)) rows), db).

Definition findLedgerEntryByReferenceId `{RowChoice} (referenceId : string)
  : Tx (option LedgerEntry.t) :=
  fun db =>
    (Ok (limit1 (filter (fun e => String.eqb (LedgerEntry.reference_id e) referenceId)
                        (ledger_entries db))), db).

(** [INSERT INTO ledger_entries ... RETURNING ...].  The amount reaches the
    store as the decimal text of the [number] ([Number_text]): exponent text
    is no BIGINT (22P02), digits outside BIGINT are out of range (22003).
    A key that does not fit [reference_id VARCHAR(100)] is refused (22001);
    request validation keeps keys to 100 characters, so a longer key whose
    excess is blank, which the store would cut, is not told apart here.
    These three are found before the statement runs.  Then the row's id is
    drawn from the sequence and the row meets [CHECK (amount > 0)] (23514),
    [UNIQUE (reference_id, entry_type)] (23505) and the two foreign keys
    (23503); a statement that fails after the draw has still used up the
    sequence value.  The row's [created_at] is [NOW()]. *)
Definition insertLedgerEntry (params : CreateLedgerEntryParams.t)
    (client : PoolClient) : Tx LedgerEntry.t :=
  fun db =>
    let referenceId := CreateLedgerEntryParams.referenceId params in
    let entryType := CreateLedgerEntryParams.entryType params in
    match Number_text (CreateLedgerEntryParams.amount params) with
    | None => (Throw (Pg "22P02"), db)
    | Some amount =>
    if negb (in_bigint amount) then (Throw (Pg "22003"), db)
    else if (100 <? String.length referenceId)%nat then (Throw (Pg "22001"), db)
    else
      let id := ledger_entries_id_seq db in
      let drawn :=
        {| asset_types := asset_types db;
           wallets := wallets db;
           ledger_entries := ledger_entries db;
           ledger_entries_id_seq := id + 1;
           wallet_balances := wallet_balances db |} in
      if amount <=? 0 then (Throw (Pg "23514"), drawn)
      else if existsb (fun e => String.eqb (LedgerEntry.reference_id e) referenceId
                                && EntryType_eqb (LedgerEntry.entry_type e) entryType)
                      (ledger_entries db)
      then (Throw (Pg "23505"), drawn)
      else if negb (existsb (fun w => Wallet.id w =? CreateLedgerEntryParams.walletId params)
                            (wallets db))
              || negb (existsb (fun a => AssetType.id a
                                         =? CreateLedgerEntryParams.assetTypeId params)
                               (asset_types db))
      then (Throw (Pg "23503"), drawn)
      else
        let row :=
          {| LedgerEntry.id := id;
             LedgerEntry.transaction_id := CreateLedgerEntryParams.transactionId params;
             LedgerEntry.wallet_id := CreateLedgerEntryParams.walletId params;
             LedgerEntry.asset_type_id := CreateLedgerEntryParams.assetTypeId params;
             LedgerEntry.entry_type := entryType;
             LedgerEntry.amount := amount;
             LedgerEntry.transaction_type := CreateLedgerEntryParams.transactionType params;
             LedgerEntry.reference_id := referenceId;
             LedgerEntry.description :=
               match CreateLedgerEntryParams.description params with
               | Some "" | None => None     (* [params.description || null] *)
               | Some d => Some d
               end;
             LedgerEntry.metadata :=
               match CreateLedgerEntryParams.metadata params with
               | Some m => m
               | None => []
               end;
             LedgerEntry.created_at := now client |} in
        (Ok row,
         {| asset_types := asset_types db;
            wallets := wallets db;
            ledger_entries := ledger_entries db ++ [row];
            ledger_entries_id_seq := id + 1;
            wallet_balances := wallet_balances db |})
    end.

Module TransactionHistoryRow.
Record t := {
  id : Z;
  transaction_id : string;
  reference_id : string;
  transaction_type : TransactionType;
  entry_type : EntryType;
  amount : Z;
  description : option string;
  created_at : Z;
  balance_after : Z;
}.
End TransactionHistoryRow.

(** [(created_at, id)] compared as in [ORDER BY created_at ASC, id ASC]. *)
Definition key_leb (a b : LedgerEntry.t) : bool :=
  (LedgerEntry.created_at a <? LedgerEntry.created_at b)
  || ((LedgerEntry.created_at a =? LedgerEntry.created_at b)
      && (LedgerEntry.id a <=? LedgerEntry.id b)).

(** [SUM(...) OVER (ORDER BY created_at ASC, id ASC)]: with the default
    frame (RANGE BETWEEN UNBOUNDED PRECEDING AND CURRENT ROW) the sum runs
    over every row of the partition that sorts before the current row or is
    its peer; the frame always holds the current row. *)
Definition window_sum (partition : list LedgerEntry.t) (r : LedgerEntry.t) : Z :=
  total (map signed (filter (fun r' => key_leb r' r) partition)).

Definition transaction_data (walletId assetTypeId : Z) (db : Database)
  : list TransactionHistoryRow.t :=
  let partition := filter (for_pair walletId assetTypeId) (ledger_entries db) in
  map (fun le =>
         {| TransactionHistoryRow.id := LedgerEntry.id le;
            TransactionHistoryRow.transaction_id := LedgerEntry.transaction_id le;
            TransactionHistoryRow.reference_id := LedgerEntry.reference_id le;
            TransactionHistoryRow.transaction_type := LedgerEntry.transaction_type le;
            TransactionHistoryRow.entry_type := LedgerEntry.entry_type le;
            TransactionHistoryRow.amount := LedgerEntry.amount le;
            TransactionHistoryRow.description := LedgerEntry.description le;
            TransactionHistoryRow.created_at := LedgerEntry.created_at le;
            TransactionHistoryRow.balance_after := window_sum partition le |})
      partition.

(** [ORDER BY created_at DESC, id DESC] *)
Definition row_geb (a b : TransactionHistoryRow.t) : bool :=
  (TransactionHistoryRow.created_at b <? TransactionHistoryRow.created_at a)
  || ((TransactionHistoryRow.created_at b =? TransactionHistoryRow.created_at a)
      && (TransactionHistoryRow.id b <=? TransactionHistoryRow.id a)).

(** [LIMIT $3 OFFSET $4]; a negative count is refused by the store
    (2201W, 2201X). *)
Definition LIMIT_OFFSET {A} (limit offset : Z) (rows : list A) : result (list A) :=
  if limit <? 0 then Throw (Pg "2201W")
  else if offset <? 0 then Throw (Pg "2201X")
  else Ok (firstn (Z.to_nat limit) (skipn (Z.to_nat offset) rows)).

(** [rows.slice(0, end)]; a negative [end] counts from the end. *)
Definition slice0 {A} (rows : list A) (end_ : Z) : list A :=
  if end_ <? 0
  then firstn (Z.to_nat (Z.max (Z.of_nat (List.length rows) + end_) 0)) rows
  else firstn (Z.to_nat end_) rows.

(** The rows of the history query in its final order, before LIMIT/OFFSET. *)
Definition history_rows (walletId assetTypeId : Z) (db : Database)
  : list TransactionHistoryRow.t :=
  sort_by row_geb (transaction_data walletId assetTypeId db).

Definition getTransactionHistoryWithBalance
    (walletId assetTypeId : Z) (limit offset : Z)
  : Tx (list TransactionHistoryRow.t * bool) :=
  fun db =>
    match LIMIT_OFFSET (limit + 1) offset (history_rows walletId assetTypeId db) with
    | Throw e => (Throw e, db)
    | Ok result =>
        let hasMore := limit <? Z.of_nat (List.length result) in
        let transactions := if hasMore then slice0 result limit else result in
        (Ok (transactions, hasMore), db)
    end.

(** [MAX(created_at)], NULL over no rows. *)
Definition MAX (l : list Z) : option Z :=
  match l with
  | [] => None
  | x :: t => Some (fold_left Z.max t x)
  end.

(** The defining query of the materialized view [wallet_balances]. *)
Definition wallet_balances_query (db : Database) : list WalletBalance.t :=
  flat_map (fun w =>
    map (fun a =>
           let le := filter (for_pair (Wallet.id w) (AssetType.id a)) (ledger_entries db) in
           {| WalletBalance.wallet_id := Wallet.id w;
              WalletBalance.user_id := Wallet.user_id w;
              WalletBalance.display_name := Wallet.display_name w;
              WalletBalance.asset_type_id := AssetType.id a;
              WalletBalance.asset_code := AssetType.code a;
              WalletBalance.asset_name := AssetType.name a;
              WalletBalance.balance := COALESCE (SUM (map signed le)) 0;
              WalletBalance.last_transaction_at := MAX (map LedgerEntry.created_at le) |})
        (filter AssetType.is_active (asset_types db)))
    (filter Wallet.is_active (wallets db)).

(** [REFRESH MATERIALIZED VIEW CONCURRENTLY wallet_balances] *)
Definition refreshBalancesView : Tx unit :=
  fun db =>
    (Ok tt,
     {| asset_types := asset_types db;
        wallets := wallets db;
        ledger_entries := ledger_entries db;
        ledger_entries_id_seq := ledger_entries_id_seq db;
        wallet_balances := wallet_balances_query db |}).

(* ================================================================== *)
(** ** services/ledger.service.ts *)

Module TransactionResult.
Record t := {
  transactionId : string;
  debitEntry : LedgerEntry.t;
  creditEntry : LedgerEntry.t;
  newBalance : Z;
}.
End TransactionResult.

Module SingleEntryResult.
Record t := {
  transactionId : string;
  entry : LedgerEntry.t;
  newBalance : Z;
}.
End SingleEntryResult.

(** [uuidv4 ()] is an input of each operation: the identifier the
    generator hands out on that call. *)
Definition createTransaction `{RowChoice}
    (params : TransactionParams.t) (uuidv4 : string)
  : PoolClient -> Tx TransactionResult.t :=
  let sourceWalletId := TransactionParams.sourceWalletId params in
  let targetWalletId := TransactionParams.targetWalletId params in
  let assetTypeId := TransactionParams.assetTypeId params in
  let amount := TransactionParams.amount params in
  let transactionType := TransactionParams.transactionType params in
  let referenceId := TransactionParams.referenceId params in
  let description := TransactionParams.description params in
  let metadata := TransactionParams.metadata params in
  withTransaction (fun client =>
    (existingEntry <- findLedgerEntryByReferenceId referenceId ;;
     match existingEntry with
     | Some existing =>
         throw (Service (DuplicateTransactionError referenceId
                           (LedgerEntry.transaction_id existing)))
     | None =>
         try_catch (lockWalletsInOrder [sourceWalletId; targetWalletId] client)
           (fun _ => throw (Service (ConcurrencyError
                                       "Unable to acquire wallet locks, please retry"))) ;;;
         sourceBalance <- calculateBalance sourceWalletId assetTypeId client ;;
         if sourceBalance <? amount
         then throw (Service (InsufficientFundsError amount sourceBalance
                                (toString assetTypeId)))
         else
           let transactionId := uuidv4 in
           debitEntry <- insertLedgerEntry
             {| CreateLedgerEntryParams.transactionId := transactionId;
                CreateLedgerEntryParams.walletId := sourceWalletId;
                CreateLedgerEntryParams.assetTypeId := assetTypeId;
                CreateLedgerEntryParams.entryType := DEBIT;
                CreateLedgerEntryParams.amount := amount;
                CreateLedgerEntryParams.transactionType := transactionType;
                CreateLedgerEntryParams.referenceId := referenceId;
                CreateLedgerEntryParams.description := description;
                CreateLedgerEntryParams.metadata :=
                  Some (spread_with metadata "counterpartyWalletId" (JNum targetWalletId)) |}
             client ;;
           creditEntry <- insertLedgerEntry
             {| CreateLedgerEntryParams.transactionId := transactionId;
                CreateLedgerEntryParams.walletId := targetWalletId;
                CreateLedgerEntryParams.assetTypeId := assetTypeId;
                CreateLedgerEntryParams.entryType := CREDIT;
                CreateLedgerEntryParams.amount := amount;
                CreateLedgerEntryParams.transactionType := transactionType;
                CreateLedgerEntryParams.referenceId := String.append referenceId "_credit";
                CreateLedgerEntryParams.description := description;
                CreateLedgerEntryParams.metadata :=
                  Some (spread_with metadata "counterpartyWalletId" (JNum sourceWalletId)) |}
             client ;;
           newBalance <- calculateBalance targetWalletId assetTypeId client ;;
           ret {| TransactionResult.transactionId := transactionId;
                  TransactionResult.debitEntry := debitEntry;
                  TransactionResult.creditEntry := creditEntry;
                  TransactionResult.newBalance := newBalance |}
     end)%tx).

Definition createCreditOnlyTransaction `{RowChoice}
    (walletId assetTypeId amount : Z) (transactionType : TransactionType)
    (referenceId : string) (description : option string)
    (metadata : option Metadata) (uuidv4 : string)
  : PoolClient -> Tx SingleEntryResult.t :=
  withTransaction (fun client =>
    (existingEntry <- findLedgerEntryByReferenceId referenceId ;;
     match existingEntry with
     | Some existing =>
         throw (Service (DuplicateTransactionError referenceId
                           (LedgerEntry.transaction_id existing)))
     | None =>
         lockWalletsInOrder [walletId] client ;;;
         let transactionId := uuidv4 in
         entry <- insertLedgerEntry
           {| CreateLedgerEntryParams.transactionId := transactionId;
              CreateLedgerEntryParams.walletId := walletId;
              CreateLedgerEntryParams.assetTypeId := assetTypeId;
              CreateLedgerEntryParams.entryType := CREDIT;
              CreateLedgerEntryParams.amount := amount;
              CreateLedgerEntryParams.transactionType := transactionType;
              CreateLedgerEntryParams.referenceId := referenceId;
              CreateLedgerEntryParams.description := description;
              CreateLedgerEntryParams.metadata := metadata |}
           client ;;
         newBalance <- calculateBalance walletId assetTypeId client ;;
         ret {| SingleEntryResult.transactionId := transactionId;
                SingleEntryResult.entry := entry;
                SingleEntryResult.newBalance := newBalance |}
     end)%tx).

Definition createDebitOnlyTransaction `{RowChoice}
    (walletId assetTypeId amount : Z) (transactionType : TransactionType)
    (referenceId : string) (description : option string)
    (metadata : option Metadata) (uuidv4 : string)
  : PoolClient -> Tx SingleEntryResult.t :=
  withTransaction (fun client =>
    (existingEntry <- findLedgerEntryByReferenceId referenceId ;;
     match existingEntry with
     | Some existing =>
         throw (Service (DuplicateTransactionError referenceId
                           (LedgerEntry.transaction_id existing)))
     | None =>
         lockWalletsInOrder [walletId] client ;;;
         currentBalance <- calculateBalance walletId assetTypeId client ;;
         if currentBalance <? amount
         then throw (Service (InsufficientFundsError amount currentBalance
                                (toString assetTypeId)))
         else
           let transactionId := uuidv4 in
           entry <- insertLedgerEntry
             {| CreateLedgerEntryParams.transactionId := transactionId;
                CreateLedgerEntryParams.walletId := walletId;
                CreateLedgerEntryParams.assetTypeId := assetTypeId;
                CreateLedgerEntryParams.entryType := DEBIT;
                CreateLedgerEntryParams.amount := amount;
                CreateLedgerEntryParams.transactionType := transactionType;
                CreateLedgerEntryParams.referenceId := referenceId;
                CreateLedgerEntryParams.description := description;
                CreateLedgerEntryParams.metadata := metadata |}
             client ;;
           newBalance <- calculateBalance walletId assetTypeId client ;;
           ret {| SingleEntryResult.transactionId := transactionId;
                  SingleEntryResult.entry := entry;
                  SingleEntryResult.newBalance := newBalance |}
     end)%tx).

(* ================================================================== *)
(** ** services/wallet.service.ts *)

(** [spend]: the three look-ups and the read of the view go through the
    pool, outside the unit of work that [createTransaction] opens. *)
Definition spend `{RowChoice} (request : SpendRequest.t) (uuidv4 : string)
    (client : PoolClient) : Tx TransactionResponse.t :=
  let user_id := SpendRequest.user_id request in
  let asset_code := SpendRequest.asset_code request in
  let amount := SpendRequest.amount request in
  let reference_id := SpendRequest.reference_id request in
  let item_id := SpendRequest.item_id request in
  let metadata := SpendRequest.metadata request in
  if amount <=? 0
  then throw (Service (ValidationError "Amount must be greater than 0"))
  else
    (userWallet <- findWalletByUserId user_id ;;
     assetType <- findAssetTypeByCode asset_code ;;
     revenueWallet <- findSystemWalletByName SYSTEM_WALLETS.REVENUE ;;
     result <- createTransaction
       {| TransactionParams.sourceWalletId := Wallet.id userWallet;
          TransactionParams.targetWalletId := Wallet.id revenueWallet;
          TransactionParams.assetTypeId := AssetType.id assetType;
          TransactionParams.amount := amount;
          TransactionParams.transactionType := SPEND;
          TransactionParams.referenceId := reference_id;
          TransactionParams.description := Some (String.append "Purchase: " item_id);
          TransactionParams.metadata :=
            Some (spread_with metadata "item_id" (JStr item_id)) |}
       uuidv4 client ;;
     balances <- getBalancesFromView user_id (Some asset_code) ;;
     let currentBalance :=
       match balances with
       | b :: _ => WalletBalance.balance b
       | [] => 0
       end in
     ret {| TransactionResponse.transaction_id := TransactionResult.transactionId result;
            TransactionResponse.user_id := user_id;
            TransactionResponse.asset_code := asset_code;
            TransactionResponse.amount := amount;
            TransactionResponse.balance := currentBalance;
            TransactionResponse.transaction_type := SPEND |})%tx.

(* ================================================================== *)
(** ** The schema's keys, and quantities the properties speak of *)

(** [wallets.id] is the table's primary key. *)
Definition wallets_pk (db : Database) : Prop :=
  NoDup (map Wallet.id (wallets db)).


(** The entries that share a transaction id and an asset type. *)
Definition entries_of (transactionId : string) (assetTypeId : Z) (db : Database)
  : list LedgerEntry.t :=
  filter (fun e => String.eqb (LedgerEntry.transaction_id e) transactionId
                   && (LedgerEntry.asset_type_id e =? assetTypeId))
         (ledger_entries db).

Definition is_credit (e : LedgerEntry.t) : bool :=
  EntryType_eqb (LedgerEntry.entry_type e) CREDIT.
Definition is_debit (e : LedgerEntry.t) : bool :=
  EntryType_eqb (LedgerEntry.entry_type e) DEBIT.

(** Sum of the credit amounts, and of the debit amounts, of some entries. *)
Definition credits (l : list LedgerEntry.t) : Z :=
  total (map LedgerEntry.amount (filter is_credit l)).
Definition debits (l : list LedgerEntry.t) : Z :=
  total (map LedgerEntry.amount (filter is_debit l)).

(** The committed entries of an (account, asset) pair. *)
Definition entries_for (walletId assetTypeId : Z) (db : Database) : list LedgerEntry.t :=
  filter (for_pair walletId assetTypeId) (ledger_entries db).

(** The ledger of [later] is the ledger of [db] followed by entries that
    all carry transaction ids other than [uuid]. *)
Definition only_other_transactions (uuid : string) (db later : Database) : Prop :=
  exists more,
    ledger_entries later = ledger_entries db ++ more
    /\ Forall (fun e => LedgerEntry.transaction_id e <> uuid) more.

(** No entry carries this transaction id yet. *)
Definition fresh_transaction_id (uuid : string) (db : Database) : Prop :=
  forall e, In e (ledger_entries db) -> LedgerEntry.transaction_id e <> uuid.

(** Some entry carries this reference key. *)
Definition reference_used (referenceId : string) (db : Database) : Prop :=
  exists e, In e (ledger_entries db) /\ LedgerEntry.reference_id e = referenceId.

(* ================================================================== *)
(** ** database/seed.sql *)

Module Seed.

Definition GOLD_COINS : AssetType.t :=
  {| AssetType.id := 1; AssetType.code := "GOLD_COINS"; AssetType.name := "Gold Coins";
     AssetType.description := Some "Primary in-game currency for purchases";
     AssetType.decimal_places := 0; AssetType.is_active := true |}.
Definition DIAMONDS : AssetType.t :=
  {| AssetType.id := 2; AssetType.code := "DIAMONDS"; AssetType.name := "Diamonds";
     AssetType.description := Some "Premium currency for exclusive items";
     AssetType.decimal_places := 0; AssetType.is_active := true |}.
Definition LOYALTY_POINTS : AssetType.t :=
  {| AssetType.id := 3; AssetType.code := "LOYALTY_POINTS";
     AssetType.name := "Loyalty Points";
     AssetType.description := Some "Earned through gameplay and engagement";
     AssetType.decimal_places := 0; AssetType.is_active := true |}.

Definition system_wallet (id : Z) (display_name : string) : Wallet.t :=
  {| Wallet.id := id; Wallet.account_type := SYSTEM; Wallet.user_id := None;
     Wallet.display_name := display_name; Wallet.is_active := true |}.
Definition user_wallet (id : Z) (user_id display_name : string) : Wallet.t :=
  {| Wallet.id := id; Wallet.account_type := USER; Wallet.user_id := Some user_id;
     Wallet.display_name := display_name; Wallet.is_active := true |}.

Definition initial_balance (id : Z) (uuid : string) (wallet_id asset_type_id amount : Z)
    (reference_id description : string) (metadata : Metadata) : LedgerEntry.t :=
  {| LedgerEntry.id := id; LedgerEntry.transaction_id := uuid;
     LedgerEntry.wallet_id := wallet_id; LedgerEntry.asset_type_id := asset_type_id;
     LedgerEntry.entry_type := CREDIT; LedgerEntry.amount := amount;
     LedgerEntry.transaction_type := INITIAL_BALANCE;
     LedgerEntry.reference_id := reference_id;
     LedgerEntry.description := Some description;
     LedgerEntry.metadata := metadata;
     LedgerEntry.created_at := 0 |}.

(** The metadata of the users' initial balances; the treasuries' is [{}]. *)
Definition initial_setup : Metadata :=
  [("reason", JStr "initial_setup"); ("admin", JStr "system")].

Definition tables : Database :=
  {| asset_types := [GOLD_COINS; DIAMONDS; LOYALTY_POINTS];
     wallets :=
       [ system_wallet 1 SYSTEM_WALLETS.TREASURY_GOLD;
         system_wallet 2 SYSTEM_WALLETS.TREASURY_DIAMONDS;
         system_wallet 3 SYSTEM_WALLETS.TREASURY_LOYALTY;
         system_wallet 4 SYSTEM_WALLETS.BONUS_POOL;
         system_wallet 5 SYSTEM_WALLETS.REVENUE;
         user_wallet 6 "user_alice" "Alice";
         user_wallet 7 "user_bob" "Bob";
         user_wallet 8 "user_charlie" "Charlie" ];
     ledger_entries :=
       [ initial_balance 1 "seed-0001" 6 1 100000 "init_alice_gold_001"
           "Initial balance setup" initial_setup;
         initial_balance 2 "seed-0002" 6 2 500 "init_alice_diamonds_001"
           "Initial balance setup" initial_setup;
         initial_balance 3 "seed-0003" 7 1 50000 "init_bob_gold_001"
           "Initial balance setup" initial_setup;
         initial_balance 4 "seed-0004" 8 1 25000 "init_charlie_gold_001"
           "Initial balance setup" initial_setup;
         initial_balance 5 "seed-0005" 1 1 100000000 "treasury_init_gold"
           "Treasury initial funding" [];
         initial_balance 6 "seed-0006" 2 2 100000000 "treasury_init_diamonds"
           "Treasury initial funding" [];
         initial_balance 7 "seed-0007" 3 3 100000000 "treasury_init_loyalty"
           "Treasury initial funding" [] ];
     ledger_entries_id_seq := 8;
     wallet_balances := [] |}.

(** The seed script ends with [REFRESH MATERIALIZED VIEW wallet_balances]. *)
Definition db : Database := snd (refreshBalancesView tables).

(** A connection with no contention and a store that accepts the commit. *)
Definition quiet (now : Z) : PoolClient :=
  {| now := now; locked_by_others := []; commit_error := None |}.

End Seed.

(* ================================================================== *)
(** ** Notions the properties are stated with *)

Definition sorted_by {A} (leb : A -> A -> bool) : list A -> Prop :=
  StronglySorted (fun a b => leb a b = true).

(** The ids of the wallet rows, in the order the lock statement takes them. *)
Definition lockOrder (walletIds : list Z) (db : Database) : list Z :=
  map Wallet.id (lockRows walletIds db).




(** One admissible choice: the store scans the heap in insertion order and
    stops at the first hit. *)
#[export] Instance heap_order : RowChoice :=
  {| limit1 := @hd_error LedgerEntry.t;
     limit1_nil := eq_refl;
     limit1_In := fun rows =>
       match rows with
       | [] => fun H => False_ind _ (H eq_refl)
       | r :: t => fun _ => ex_intro _ r (conj eq_refl (or_introl eq_refl))
       end |}.

(** What an entry posted with these arguments records; its amount is the
    requested amount as the store read it. *)
Definition entry_is (e : LedgerEntry.t) (transactionId : string)
    (walletId assetTypeId : Z) (entryType : EntryType) (amount : Z)
    (referenceId : string) : Prop :=
  LedgerEntry.transaction_id e = transactionId
  /\ LedgerEntry.wallet_id e = walletId
  /\ LedgerEntry.asset_type_id e = assetTypeId
  /\ LedgerEntry.entry_type e = entryType
  /\ LedgerEntry.amount e = written amount
  /\ LedgerEntry.reference_id e = referenceId.

(** The tables other than the ledger are the same in two stores. *)
Definition same_other_tables (db db' : Database) : Prop :=
  asset_types db' = asset_types db
  /\ wallets db' = wallets db
  /\ wallet_balances db' = wallet_balances db.

(** The three write operations of the engine, with their arguments. *)
Inductive WriteOperation :=
| Transfer (params : TransactionParams.t)
| CreditOnly (walletId assetTypeId amount : Z) (transactionType : TransactionType)
    (referenceId : string) (description : option string) (metadata : option Metadata)
| DebitOnly (walletId assetTypeId amount : Z) (transactionType : TransactionType)
    (referenceId : string) (description : option string) (metadata : option Metadata).

Definition referenceKey (op : WriteOperation) : string :=
  match op with
  | Transfer params => TransactionParams.referenceId params
  | CreditOnly _ _ _ _ referenceId _ _ => referenceId
  | DebitOnly _ _ _ _ referenceId _ _ => referenceId
  end.

(** The wallet ids an operation passes to [lockWalletsInOrder]. *)
Definition lockedWallets (op : WriteOperation) : list Z :=
  match op with
  | Transfer params =>
      [TransactionParams.sourceWalletId params; TransactionParams.targetWalletId params]
  | CreditOnly walletId _ _ _ _ _ _ => [walletId]
  | DebitOnly walletId _ _ _ _ _ _ => [walletId]
  end.

(** The (account, asset, amount) whose sufficiency an operation checks. *)
Definition sufficiency_check (op : WriteOperation) : option (Z * Z * Z) :=
  match op with
  | Transfer params =>
      Some (TransactionParams.sourceWalletId params,
            TransactionParams.assetTypeId params,
            TransactionParams.amount params)
  | CreditOnly _ _ _ _ _ _ _ => None
  | DebitOnly walletId assetTypeId amount _ _ _ _ => Some (walletId, assetTypeId, amount)
  end.

(** Run a write operation; the outcome is the transaction id it returns. *)
Definition perform `{RowChoice} (op : WriteOperation) (uuidv4 : string)
    (client : PoolClient) : Tx string :=
  match op with
  | Transfer params =>
      (r <- createTransaction params uuidv4 client ;;
       ret (TransactionResult.transactionId r))%tx
  | CreditOnly walletId assetTypeId amount transactionType referenceId description metadata =>
      (r <- createCreditOnlyTransaction walletId assetTypeId amount transactionType
             referenceId description metadata uuidv4 client ;;
       ret (SingleEntryResult.transactionId r))%tx
  | DebitOnly walletId assetTypeId amount transactionType referenceId description metadata =>
      (r <- createDebitOnlyTransaction walletId assetTypeId amount transactionType
             referenceId description metadata uuidv4 client ;;
       ret (SingleEntryResult.transactionId r))%tx
  end.

(** None of the rows the lock statement selects is held by somebody else. *)
Definition lock_available (walletIds : list Z) (client : PoolClient) (db : Database)
  : Prop :=
  forall w, In w (lockRows walletIds db) -> ~ In (Wallet.id w) (locked_by_others client).

(** Two stores that differ at most in which wallets are active (and in the
    other columns of the wallet rows): same wallet ids, same everything else. *)
Definition same_but_activity (db db' : Database) : Prop :=
  asset_types db' = asset_types db
  /\ map Wallet.id (wallets db') = map Wallet.id (wallets db)
  /\ ledger_entries db' = ledger_entries db
  /\ ledger_entries_id_seq db' = ledger_entries_id_seq db.

(** A step whose outcome does not depend on which wallets are active. *)
Definition respects_activity {A} (m : Tx A) : Prop :=
  forall db db', same_but_activity db db' ->
    fst (m db') = fst (m db) /\ same_but_activity (snd (m db)) (snd (m db')).

(* ================================================================== *)
(** ** The scenarios of the specification, on the seeded store *)

Module Scenario.

(** 1. Top-up of 5000 gold from the treasury to alice. *)
Definition topup_001 : TransactionParams.t :=
  {| TransactionParams.sourceWalletId := 1;
     TransactionParams.targetWalletId := 6;
     TransactionParams.assetTypeId := 1;
     TransactionParams.amount := 5000;
     TransactionParams.transactionType := TOPUP;
     TransactionParams.referenceId := "topup_001";
     TransactionParams.description := Some "Top-up of 5000 GOLD_COINS";
     TransactionParams.metadata := None |}.

Definition after_topup : Database :=
  snd (createTransaction topup_001 "T1" (Seed.quiet 1) Seed.db).

(** 2. Alice spends 2500 gold. *)
Definition spend_001 : SpendRequest.t :=
  {| SpendRequest.user_id := "user_alice";
     SpendRequest.asset_code := "GOLD_COINS";
     SpendRequest.amount := 2500;
     SpendRequest.reference_id := "spend_001";
     SpendRequest.item_id := "dragon_skin";
     SpendRequest.metadata := None |}.

Definition after_spend : Database :=
  snd (spend spend_001 "T2" (Seed.quiet 2) after_topup).

(** 3. A transfer of more than alice owns. *)
Definition spend_002 : TransactionParams.t :=
  {| TransactionParams.sourceWalletId := 6;
     TransactionParams.targetWalletId := 5;
     TransactionParams.assetTypeId := 1;
     TransactionParams.amount := 999999999;
     TransactionParams.transactionType := SPEND;
     TransactionParams.referenceId := "spend_002";
     TransactionParams.description := None;
     TransactionParams.metadata := None |}.

(** A connection that finds alice's wallet row locked by somebody else. *)
Definition contended (now : Z) : PoolClient :=
  {| now := now; locked_by_others := [6]; commit_error := None |}.

(** The seeded store with alice's wallet deactivated. *)
Definition alice_deactivated : Database :=
  {| asset_types := asset_types Seed.db;
     wallets :=
       map (fun w =>
              if Wallet.id w =? 6
              then {| Wallet.id := Wallet.id w;
                      Wallet.account_type := Wallet.account_type w;
                      Wallet.user_id := Wallet.user_id w;
                      Wallet.display_name := Wallet.display_name w;
                      Wallet.is_active := false |}
              else w) (wallets Seed.db);
     ledger_entries := ledger_entries Seed.db;
     ledger_entries_id_seq := ledger_entries_id_seq Seed.db;
     wallet_balances := wallet_balances Seed.db |}.

(** Two bonuses of loyalty points to alice: the largest safe integer of
    a [number], then 2. *)
Definition after_big_bonus : Database :=
  snd (createCreditOnlyTransaction 6 3 9007199254740991 BONUS "bonus_big" None None
         "T3" (Seed.quiet 3) Seed.db).
Definition after_two_bonuses : Database :=
  snd (createCreditOnlyTransaction 6 3 2 BONUS "bonus_two" None None
         "T4" (Seed.quiet 4) after_big_bonus).

End Scenario.

(* ================================================================== *)
(** ** services/wallet.service.ts, the remaining operations *)

Module BonusRequest.
Record t := {
  user_id : string;
  asset_code : string;
  amount : Z;
  reference_id : string;
  bonus_type : string;
  metadata : option Metadata;
}.
End BonusRequest.

(** [bonus]: a credit-only posting to the user's wallet.  The description
    interpolates the amount; [toString] is its text for every amount the
    store accepts. *)
Definition bonus `{RowChoice} (request : BonusRequest.t) (uuidv4 : string)
    (client : PoolClient) : Tx TransactionResponse.t :=
  let user_id := BonusRequest.user_id request in
  let asset_code := BonusRequest.asset_code request in
  let amount := BonusRequest.amount request in
  let reference_id := BonusRequest.reference_id request in
  let bonus_type := BonusRequest.bonus_type request in
  let metadata := BonusRequest.metadata request in
  if amount <=? 0
  then throw (Service (ValidationError "Amount must be greater than 0"))
  else
    (userWallet <- findWalletByUserId user_id ;;
     assetType <- findAssetTypeByCode asset_code ;;
     result <- createCreditOnlyTransaction
       (Wallet.id userWallet) (AssetType.id assetType) amount BONUS reference_id
       (Some (String.append "Bonus: "
                (String.append bonus_type
                   (String.append " - "
                      (String.append (toString amount)
                         (String.append " " asset_code))))))
       (Some (spread_with metadata "bonus_type" (JStr bonus_type)))
       uuidv4 client ;;
     ret {| TransactionResponse.transaction_id := SingleEntryResult.transactionId result;
            TransactionResponse.user_id := user_id;
            TransactionResponse.asset_code := asset_code;
            TransactionResponse.amount := amount;
            TransactionResponse.balance := SingleEntryResult.newBalance result;
            TransactionResponse.transaction_type := BONUS |})%tx.

Module AssetBalance.
Record t := {
  asset_code : string;
  asset_name : string;
  balance : Z;
  last_updated : option Z;
}.
End AssetBalance.

Module BalanceResponse.
Record t := {
  user_id : string;
  balances : list AssetBalance.t;
}.
End BalanceResponse.

(** [getBalance]: the user must have an active wallet; the figures are
    those of the materialized view.  A timestamp stands for its ISO text. *)
Definition getBalance (userId : string) (assetCode : option string)
  : Tx BalanceResponse.t :=
  (findWalletByUserId userId ;;;
   balances <- getBalancesFromView userId assetCode ;;
   ret {| BalanceResponse.user_id := userId;
          BalanceResponse.balances :=
            map (fun b =>
                   {| AssetBalance.asset_code := WalletBalance.asset_code b;
                      AssetBalance.asset_name := WalletBalance.asset_name b;
                      AssetBalance.balance := WalletBalance.balance b;
                      AssetBalance.last_updated := WalletBalance.last_transaction_at b |})
                balances |})%tx.

Module TransactionHistoryItem.
Record t := {
  transaction_id : string;
  type : TransactionType;
  amount : Z;
  balance_after : Z;
  reference_id : string;
  created_at : Z;
  description : option string;
}.
End TransactionHistoryItem.

Module Pagination.
Record t := {
  limit : Z;
  offset : Z;
  has_more : bool;
}.
End Pagination.

Module TransactionHistoryResponse.
Record t := {
  user_id : string;
  asset_code : string;
  transactions : list TransactionHistoryItem.t;
  pagination : Pagination.t;
}.
End TransactionHistoryResponse.

Definition getTransactionHistory (userId assetCode : string) (limit offset : Z)
  : Tx TransactionHistoryResponse.t :=
  (wallet <- findWalletByUserId userId ;;
   assetType <- findAssetTypeByCode assetCode ;;
   page <- getTransactionHistoryWithBalance (Wallet.id wallet) (AssetType.id assetType)
             limit offset ;;
   ret {| TransactionHistoryResponse.user_id := userId;
          TransactionHistoryResponse.asset_code := assetCode;
          TransactionHistoryResponse.transactions :=
            map (fun tx =>
                   {| TransactionHistoryItem.transaction_id :=
                        TransactionHistoryRow.transaction_id tx;
                      TransactionHistoryItem.type := TransactionHistoryRow.transaction_type tx;
                      TransactionHistoryItem.amount := TransactionHistoryRow.amount tx;
                      TransactionHistoryItem.balance_after :=
                        TransactionHistoryRow.balance_after tx;
                      TransactionHistoryItem.reference_id :=
                        TransactionHistoryRow.reference_id tx;
                      TransactionHistoryItem.created_at := TransactionHistoryRow.created_at tx;
                      TransactionHistoryItem.description :=
                        match TransactionHistoryRow.description tx with
                        | Some "" | None => None   (* [tx.description || undefined] *)
                        | Some d => Some d
                        end |})
                (fst page);
          TransactionHistoryResponse.pagination :=
            {| Pagination.limit := limit;
               Pagination.offset := offset;
               Pagination.has_more := snd page |} |})%tx.

Module TransactionDetailRow.
Record t := {
  transaction_id : string;
  reference_id : string;
  transaction_type : TransactionType;
  amount : Z;
  entry_type : EntryType;
  created_at : Z;
  metadata : Metadata;
  wallet_id : Z;
  wallet_name : string;
  user_id : option string;
  asset_code : string;
}.
End TransactionDetailRow.

(** ['DEBIT' >= 'CREDIT'] as text, for [ORDER BY le.entry_type DESC]. *)
Definition EntryType_geb (a b : EntryType) : bool :=
  match a, b with
  | CREDIT, DEBIT => false
  | _, _ => true
  end.

(** [FROM ledger_entries le JOIN wallets w ON le.wallet_id = w.id
     JOIN asset_types at ON le.asset_type_id = at.id
     WHERE le.reference_id = $1 OR le.reference_id = $2], with the key and
    the key suffixed [_credit] as parameters. *)
Definition transaction_detail_rows (referenceId : string) (db : Database)
  : list TransactionDetailRow.t :=
  flat_map (fun le =>
    flat_map (fun w =>
      map (fun a =>
             {| TransactionDetailRow.transaction_id := LedgerEntry.transaction_id le;
                TransactionDetailRow.reference_id := LedgerEntry.reference_id le;
                TransactionDetailRow.transaction_type := LedgerEntry.transaction_type le;
                TransactionDetailRow.amount := LedgerEntry.amount le;
                TransactionDetailRow.entry_type := LedgerEntry.entry_type le;
                TransactionDetailRow.created_at := LedgerEntry.created_at le;
                TransactionDetailRow.metadata := LedgerEntry.metadata le;
                TransactionDetailRow.wallet_id := LedgerEntry.wallet_id le;
                TransactionDetailRow.wallet_name := Wallet.display_name w;
                TransactionDetailRow.user_id := Wallet.user_id w;
                TransactionDetailRow.asset_code := AssetType.code a |})
          (filter (fun a => LedgerEntry.asset_type_id le =? AssetType.id a) (asset_types db)))
      (filter (fun w => LedgerEntry.wallet_id le =? Wallet.id w) (wallets db)))
    (filter (fun le =>
               String.eqb (LedgerEntry.reference_id le) referenceId
               || String.eqb (LedgerEntry.reference_id le)
                             (String.append referenceId "_credit"))
            (ledger_entries db)).

Definition findTransactionDetailsByReferenceId (referenceId : string)
  : Tx (option (list TransactionDetailRow.t)) :=
  fun db =>
    let result :=
      sort_by (fun a b => EntryType_geb (TransactionDetailRow.entry_type a)
                                        (TransactionDetailRow.entry_type b))
              (transaction_detail_rows referenceId db) in
    (Ok match result with
        | [] => None
        | _ => Some result
        end, db).

Module LedgerEntryDetail.
Record t := {
  wallet_id : Z;
  wallet_name : string;
  entry_type : EntryType;
  amount : Z;
}.
End LedgerEntryDetail.

Module TransactionDetailsResponse.
Record t := {
  transaction_id : string;
  reference_id : string;
  type : TransactionType;
  user_id : option string;
  asset_code : string;
  amount : Z;
  created_at : Z;
  ledger_entries : list LedgerEntryDetail.t;
}.
End TransactionDetailsResponse.

(** [getTransactionDetails]; the response's [status] is the constant
    'COMPLETED'. *)
Definition getTransactionDetails (referenceId : string)
  : Tx TransactionDetailsResponse.t :=
  (entries <- findTransactionDetailsByReferenceId referenceId ;;
   match entries with
   | None | Some [] => throw (Service (TransactionNotFoundError referenceId))
   | Some ((first :: _) as entries) =>
       let userEntry :=
         match find (fun e => match TransactionDetailRow.user_id e with
                              | Some _ => true
                              | None => false
                              end) entries with
         | Some e => e
         | None => first
         end in
       ret {| TransactionDetailsResponse.transaction_id :=
                TransactionDetailRow.transaction_id userEntry;
              TransactionDetailsResponse.reference_id := referenceId;
              TransactionDetailsResponse.type :=
                TransactionDetailRow.transaction_type userEntry;
              TransactionDetailsResponse.user_id := TransactionDetailRow.user_id userEntry;
              TransactionDetailsResponse.asset_code :=
                TransactionDetailRow.asset_code userEntry;
              TransactionDetailsResponse.amount := TransactionDetailRow.amount userEntry;
              TransactionDetailsResponse.created_at :=
                TransactionDetailRow.created_at userEntry;
              TransactionDetailsResponse.ledger_entries :=
                map (fun e =>
                       {| LedgerEntryDetail.wallet_id := TransactionDetailRow.wallet_id e;
                          LedgerEntryDetail.wallet_name := TransactionDetailRow.wallet_name e;
                          LedgerEntryDetail.entry_type := TransactionDetailRow.entry_type e;
                          LedgerEntryDetail.amount := TransactionDetailRow.amount e |})
                    entries |}
   end)%tx.

(* ================================================================== *)
(** ** middleware/error-handler.ts *)

(** The status and the error code of the response that [errorHandler]
    sends for what a handler let out (the body's message and details are
    not part of this record). *)
Module ErrorResponse.
Record t := {
  status : Z;
  code : string;
}.
End ErrorResponse.

(** [statusCode] and [code] of the service's error classes. *)
Definition statusCode (e : WalletServiceError) : Z :=
  match e with
  | InsufficientFundsError _ _ _ => 400
  | DuplicateTransactionError _ _ => 409
  | WalletNotFoundError _ _ => 404
  | AssetTypeNotFoundError _ => 404
  | ValidationError _ => 400
  | ConcurrencyError _ => 409
  | TransactionNotFoundError _ => 404
  end.

Definition errorCode (e : WalletServiceError) : string :=
  match e with
  | InsufficientFundsError _ _ _ => "INSUFFICIENT_FUNDS"
  | DuplicateTransactionError _ _ => "DUPLICATE_TRANSACTION"
  | WalletNotFoundError _ _ => "WALLET_NOT_FOUND"
  | AssetTypeNotFoundError _ => "ASSET_TYPE_NOT_FOUND"
  | ValidationError _ => "VALIDATION_ERROR"
  | ConcurrencyError _ => "CONCURRENCY_ERROR"
  | TransactionNotFoundError _ => "TRANSACTION_NOT_FOUND"
  end.

Definition errorHandler (error : Thrown) : ErrorResponse.t :=
  match error with
  | Service e => {| ErrorResponse.status := statusCode e; ErrorResponse.code := errorCode e |}
  | Pg sqlstate =>
      if String.eqb sqlstate "23505"
      then {| ErrorResponse.status := 409; ErrorResponse.code := "DUPLICATE_TRANSACTION" |}
      else if String.eqb sqlstate "40001"
      then {| ErrorResponse.status := 409; ErrorResponse.code := "CONCURRENCY_ERROR" |}
      else if String.eqb sqlstate "55P03"
      then {| ErrorResponse.status := 503; ErrorResponse.code := "LOCK_NOT_AVAILABLE" |}
      else {| ErrorResponse.status := 500; ErrorResponse.code := "INTERNAL_ERROR" |}
  end.

(* ================================================================== *)
(** ** More notions the properties are stated with *)

(** Credits minus debits of a pair over a list of entries, as an exact
    integer. *)
Definition balance_of (walletId assetTypeId : Z) (entries : list LedgerEntry.t) : Z :=
  credits (filter (for_pair walletId assetTypeId) entries)
  - debits (filter (for_pair walletId assetTypeId) entries).

Definition ledger_balance (walletId assetTypeId : Z) (db : Database) : Z :=
  balance_of walletId assetTypeId (ledger_entries db).

(** Credits minus debits of an asset type over all wallets. *)
Definition asset_supply (assetTypeId : Z) (db : Database) : Z :=
  total (map signed (filter (fun e => LedgerEntry.asset_type_id e =? assetTypeId)
                            (ledger_entries db))).

(** The constraints of the table [ledger_entries]: primary key, ids below
    the sequence, [UNIQUE (reference_id, entry_type)], the amount check and
    the two foreign keys. *)
Definition ledger_constraints (db : Database) : Prop :=
  NoDup (map LedgerEntry.id (ledger_entries db))
  /\ Forall (fun e => LedgerEntry.id e < ledger_entries_id_seq db) (ledger_entries db)
  /\ NoDup (map (fun e => (LedgerEntry.reference_id e, LedgerEntry.entry_type e))
                (ledger_entries db))
  /\ Forall (fun e => 0 < LedgerEntry.amount e <= bigint_max) (ledger_entries db)
  /\ Forall (fun e => In (LedgerEntry.wallet_id e) (map Wallet.id (wallets db))
                      /\ In (LedgerEntry.asset_type_id e)
                            (map AssetType.id (asset_types db)))
            (ledger_entries db).

(** [asset_types.id] is the table's primary key. *)
Definition asset_types_pk (db : Database) : Prop :=
  NoDup (map AssetType.id (asset_types db)).

(** The row that [transaction_data] selects for an entry of a partition. *)
Definition row_of_entry (partition : list LedgerEntry.t) (le : LedgerEntry.t)
  : TransactionHistoryRow.t :=
  {| TransactionHistoryRow.id := LedgerEntry.id le;
     TransactionHistoryRow.transaction_id := LedgerEntry.transaction_id le;
     TransactionHistoryRow.reference_id := LedgerEntry.reference_id le;
     TransactionHistoryRow.transaction_type := LedgerEntry.transaction_type le;
     TransactionHistoryRow.entry_type := LedgerEntry.entry_type le;
     TransactionHistoryRow.amount := LedgerEntry.amount le;
     TransactionHistoryRow.description := LedgerEntry.description le;
     TransactionHistoryRow.created_at := LedgerEntry.created_at le;
     TransactionHistoryRow.balance_after := window_sum partition le |}.

(** A step that leaves the other tables alone, never takes back a sequence
    value, and at most appends entries of transaction [uuid] to the ledger. *)
Definition only_appends (uuid : string) {A} (m : Tx A) : Prop :=
  forall db r db1, m db = (r, db1) ->
    same_other_tables db db1
    /\ ledger_entries_id_seq db <= ledger_entries_id_seq db1
    /\ exists more,
         ledger_entries db1 = ledger_entries db ++ more
         /\ Forall (fun e => LedgerEntry.transaction_id e = uuid) more.

(** The pair (w, a) is the pair (walletId, assetTypeId). *)
Definition for_pair_ids (w a walletId assetTypeId : Z) : bool :=
  (w =? walletId) && (a =? assetTypeId).

(** A step that keeps the table's constraints. *)
Definition keeps_constraints {A} (m : Tx A) : Prop :=
  forall db r db1, m db = (r, db1) -> ledger_constraints db -> ledger_constraints db1.

(** The amount an operation is asked to post. *)
Definition amount_of (op : WriteOperation) : Z :=
  match op with
  | Transfer params => TransactionParams.amount params
  | CreditOnly _ _ amount _ _ _ _ => amount
  | DebitOnly _ _ amount _ _ _ _ => amount
  end.

(** By how much a committed operation moves the exact balance of a pair:
    by its amount as the store read it. *)
Definition balance_change (op : WriteOperation) (walletId assetTypeId : Z) : Z :=
  match op with
  | Transfer params =>
      (if for_pair_ids (TransactionParams.targetWalletId params)
                       (TransactionParams.assetTypeId params) walletId assetTypeId
       then written (TransactionParams.amount params) else 0)
      - (if for_pair_ids (TransactionParams.sourceWalletId params)
                         (TransactionParams.assetTypeId params) walletId assetTypeId
         then written (TransactionParams.amount params) else 0)
  | CreditOnly w a amount _ _ _ _ =>
      if for_pair_ids w a walletId assetTypeId then written amount else 0
  | DebitOnly w a amount _ _ _ _ =>
      - (if for_pair_ids w a walletId assetTypeId then written amount else 0)
  end.

(** What a write operation appends when it commits. *)
Definition entries_written (op : WriteOperation) : nat :=
  match op with
  | Transfer _ => 2
  | _ => 1
  end.

(* ================================================================== *)
(** ** Further cases on the seeded store *)

Module Cases.

(** Scenario 4: a bonus of 1000 loyalty points to alice, who has none. *)
Definition bonus_001 : BonusRequest.t :=
  {| BonusRequest.user_id := "user_alice";
     BonusRequest.asset_code := "LOYALTY_POINTS";
     BonusRequest.amount := 1000;
     BonusRequest.reference_id := "bonus_001";
     BonusRequest.bonus_type := "welcome";
     BonusRequest.metadata := None |}.

Definition after_bonus : Database :=
  snd (bonus bonus_001 "T6" (Seed.quiet 6) Scenario.after_spend).

(** A reference key of 94 characters. *)
Definition key94 : string := string_of_list_ascii (repeat "k"%char 94).

Definition long_key_topup : TransactionParams.t :=
  {| TransactionParams.sourceWalletId := 1;
     TransactionParams.targetWalletId := 6;
     TransactionParams.assetTypeId := 1;
     TransactionParams.amount := 5000;
     TransactionParams.transactionType := TOPUP;
     TransactionParams.referenceId := key94;
     TransactionParams.description := None;
     TransactionParams.metadata := None |}.

(** A bonus filed under the key that a transfer keyed "order_7" derives
    for its credit side. *)
Definition after_shadow_bonus : Database :=
  snd (createCreditOnlyTransaction 6 1 10 BONUS "order_7_credit" None None
         "T7" (Seed.quiet 7) Seed.db).

Definition order_7 : TransactionParams.t :=
  {| TransactionParams.sourceWalletId := 6;
     TransactionParams.targetWalletId := 5;
     TransactionParams.assetTypeId := 1;
     TransactionParams.amount := 100;
     TransactionParams.transactionType := SPEND;
     TransactionParams.referenceId := "order_7";
     TransactionParams.description := None;
     TransactionParams.metadata := None |}.

(** Four loyalty points on top of the bonus of 9007199254740991: alice
    then owns 2^53 + 3 of them. *)
Definition after_bonus_of_4 : Database :=
snd (createCreditOnlyTransaction 6 3 4 BONUS "bonus_four" None None
       "T4" (Seed.quiet 4) Scenario.after_big_bonus).

(** A spend of 2^53 + 4 loyalty points, one more than alice then owns. *)
Definition spend_big : TransactionParams.t :=
{| TransactionParams.sourceWalletId := 6;
   TransactionParams.targetWalletId := 5;
   TransactionParams.assetTypeId := 3;
   TransactionParams.amount := 9007199254740996;
   TransactionParams.transactionType := SPEND;
   TransactionParams.referenceId := "spend_big";
   TransactionParams.description := None;
   TransactionParams.metadata := None |}.

Definition after_spend_big : Database :=
snd (createTransaction spend_big "T9" (Seed.quiet 9) after_bonus_of_4).

(** A second purchase by alice, of one gold coin. *)
Definition spend_one : SpendRequest.t :=
{| SpendRequest.user_id := "user_alice";
   SpendRequest.asset_code := "GOLD_COINS";
   SpendRequest.amount := 1;
   SpendRequest.reference_id := "spend_one";
   SpendRequest.item_id := "potion";
   SpendRequest.metadata := None |}.

End Cases.

(* ================================================================== *)
(** * Properties *)

(** ** Sorting *)

Section Sorting.
Context {A : Type} (leb : A -> A -> bool).

Lemma insert_by_perm (x : A) (l : list A) :
  Permutation (insert_by leb x l) (x :: l).
Proof.
  induction l as [|y t IH]; simpl; [reflexivity|].
  destruct (leb x y); [reflexivity|].
  rewrite IH. apply perm_swap.
Qed.

Lemma sort_by_perm (l : list A) : Permutation (sort_by leb l) l.
Proof.
  induction l as [|x t IH]; simpl; [constructor|].
  rewrite insert_by_perm. now constructor.
Qed.

Lemma sort_by_length (l : list A) : List.length (sort_by leb l) = List.length l.
Proof. apply Permutation_length, sort_by_perm. Qed.

Hypothesis leb_total : forall a b, leb a b = true \/ leb b a = true.
Hypothesis leb_trans :
  forall a b c, leb a b = true -> leb b c = true -> leb a c = true.

Lemma insert_by_sorted (x : A) (l : list A) :
  sorted_by leb l -> sorted_by leb (insert_by leb x l).
Proof.
  induction 1 as [|y t Hs IH Hy]; simpl.
  - repeat constructor.
  - destruct (leb x y) eqn:E.
    + constructor; [constructor; assumption|].
      constructor; [assumption|].
      eapply Forall_impl; [|exact Hy]. intros z Hz. eapply leb_trans; eassumption.
    + constructor; [assumption|].
      apply Forall_forall. intros z Hz.
      apply (Permutation_in _ (insert_by_perm x t)) in Hz.
      destruct Hz as [<-|Hz].
      * destruct (leb_total x y); congruence.
      * rewrite Forall_forall in Hy. now apply Hy.
Qed.

Lemma sort_by_sorted (l : list A) : sorted_by leb (sort_by leb l).
Proof.
  induction l as [|x t IH]; simpl; [constructor|].
  now apply insert_by_sorted.
Qed.

Hypothesis leb_antisym : forall a b, leb a b = true -> leb b a = true -> a = b.


End Sorting.



Lemma filter_none {A} (p : A -> bool) (l : list A) :
  (forall x, In x l -> p x = false) -> filter p l = [].
Proof.
  induction l as [|x t IH]; simpl; intros Hall; [reflexivity|].
  rewrite (Hall x (or_introl eq_refl)). apply IH. intros y Hy. apply Hall. now right.
Qed.


(** ** Numbers *)

Lemma Number_of_Z_exact (z : Z) :
  - 2 ^ 53 <= z <= 2 ^ 53 -> Number_of_Z z = z.
Proof.
  intros Hz. unfold Number_of_Z.
  destruct (Z.eq_dec (Z.abs z) (2 ^ 53)) as [E|E].
  - rewrite E.
    assert (z = 2 ^ 53 \/ z = Z.opp (2 ^ 53)) as [-> | ->] by lia; reflexivity.
  - assert ((Z.log2 (Z.abs z) + 1 <=? 53) = true) as ->; [|reflexivity].
    apply Z.leb_le.
    destruct (Z.eq_dec (Z.abs z) 0) as [E0|E0]; [rewrite E0; simpl; lia|].
    assert (Z.log2 (Z.abs z) < 53); [|lia].
    apply Z.log2_lt_pow2; lia.
Qed.

Lemma in_bigint_safe (z : Z) : - 2 ^ 53 <= z <= 2 ^ 53 -> in_bigint z = true.
Proof.
  intros Hz. unfold in_bigint, bigint_min, bigint_max.
  apply andb_true_iff; split; apply Z.leb_le; lia.
Qed.

Lemma shortest_digits_nonneg (j : nat) (a : Z) :
  0 <= a -> 0 <= shortest_digits j a.
Proof.
  intros Ha. induction j as [|j IH]; [exact Ha|].
  cbn [shortest_digits]. cbv zeta.
  set (p := 10 ^ Z.of_nat (S j)).
  assert (Hp : 0 < p) by (apply Z.pow_pos_nonneg; lia).
  assert (Hlo : 0 <= a / p * p)
    by (apply Z.mul_nonneg_nonneg; [apply Z.div_pos; lia|lia]).
  repeat match goal with
         | |- context [if ?b then _ else _] => destruct b
         end; lia.
Qed.

Lemma Number_text_written (z t : Z) : Number_text z = Some t -> written z = t.
Proof. unfold written. now intros ->. Qed.

(** An integer a [number] holds exactly is written in full. *)
Lemma Number_text_exact (z : Z) :
  - 2 ^ 53 <= z <= 2 ^ 53 -> Number_text z = Some z.
Proof.
  intros Hz. unfold Number_text.
  destruct (Z.leb_spec (10 ^ 21) (Z.abs z)) as [Big|_]; [lia|].
  destruct (Z.leb_spec (Z.log2 (Z.abs z) + 1) 53) as [_|Bits]; [reflexivity|].
  assert (E : Z.abs z = 2 ^ 53).
  { destruct (Z.eq_dec (Z.abs z) (2 ^ 53)) as [E|E]; [exact E|exfalso].
    assert (Z.log2 (Z.abs z) < 53); [|lia].
    destruct (Z.eq_dec (Z.abs z) 0) as [Z0|Z0]; [rewrite Z0; simpl; lia|].
    apply Z.log2_lt_pow2; lia. }
  assert (z = 2 ^ 53 \/ z = Z.opp (2 ^ 53)) as [-> | ->] by lia; reflexivity.
Qed.

Lemma written_exact (z : Z) : - 2 ^ 53 <= z <= 2 ^ 53 -> written z = z.
Proof. intros Hz. apply Number_text_written. now apply Number_text_exact. Qed.

(** Above 2^53 the text need not denote the number: 2^60 is written with
    sixteen digits and three zeros; 2^53 + 4 is written in full; 10^21 is
    written in exponent form. *)
Lemma Number_text_above :
  Number_text (2 ^ 60) = Some 1152921504606847000
  /\ Number_text (2 ^ 53 + 4) = Some 9007199254740996
  /\ Number_text (10 ^ 21) = None.
Proof. repeat split; vm_compute; reflexivity. Qed.

(** The text keeps the sign of the number. *)
Lemma Number_text_positive (z t : Z) : Number_text z = Some t -> 0 < t -> 0 < z.
Proof.
  unfold Number_text.
  destruct (10 ^ 21 <=? Z.abs z); [discriminate|].
  destruct (Z.log2 (Z.abs z) + 1 <=? 53); intros E Hpos.
  - assert (z = t) by congruence. lia.
  - assert (Et : t = Z.sgn z * shortest_digits 20 (Z.abs z)) by congruence.
    pose proof (shortest_digits_nonneg 20 (Z.abs z) (Z.abs_nonneg z)) as N.
    destruct (Z.sgn_spec z) as [[Hz S]|[[Hz S]|[Hz S]]]; [exact Hz| |];
      rewrite S in Et; lia.
Qed.

(** ** The row a [LIMIT 1] hands back *)

Lemma limit1_singleton `{RowChoice} (r : LedgerEntry.t) : limit1 [r] = Some r.
Proof.
  destruct (limit1_In [r]) as (r' & E & [<-|[]]); [discriminate|exact E].
Qed.

(** ** Ordered locking *)







Lemma lockRows_In (walletIds : list Z) (db : Database) (w : Wallet.t) :
  In w (lockRows walletIds db)
  <-> In w (wallets db) /\ In (Wallet.id w) walletIds /\ Wallet.is_active w = true.
Proof.
  unfold lockRows. split.
  - intros Hin. apply (Permutation_in _ (sort_by_perm _ _)) in Hin.
    apply filter_In in Hin as [Hw Hc]. apply andb_true_iff in Hc as [Hm Ha].
    repeat split; auto.
    apply existsb_exists in Hm as (x & Hx & E). apply Z.eqb_eq in E. subst x.
    eapply Permutation_in; [apply sort_by_perm|exact Hx].
  - intros (Hw & Hi & Ha).
    eapply Permutation_in; [symmetry; apply sort_by_perm|].
    apply filter_In. split; [exact Hw|]. apply andb_true_iff. split; [|exact Ha].
    apply existsb_exists. exists (Wallet.id w). split; [|apply Z.eqb_refl].
    eapply Permutation_in; [symmetry; apply sort_by_perm|exact Hi].
Qed.




Lemma Seed_wallets_pk : wallets_pk Seed.db.
Proof.
  unfold wallets_pk. simpl.
  repeat (constructor; [simpl; intuition discriminate|]). constructor.
Qed.


(** ** History pagination *)

Lemma history_rows_length (walletId assetTypeId : Z) (db : Database) :
  List.length (history_rows walletId assetTypeId db)
  = List.length (entries_for walletId assetTypeId db).
Proof.
  unfold history_rows, transaction_data, entries_for.
  now rewrite sort_by_length, length_map.
Qed.

(** The page that the history query computes, for counts the store accepts. *)
Lemma getTransactionHistoryWithBalance_page
    (walletId assetTypeId limit offset : Z) (db : Database) :
  -1 <= limit -> 0 <= offset ->
  let beyond := skipn (Z.to_nat offset) (history_rows walletId assetTypeId db) in
  let fetched := firstn (Z.to_nat (limit + 1)) beyond in
  getTransactionHistoryWithBalance walletId assetTypeId limit offset db
  = (Ok (firstn (Z.to_nat limit) beyond, limit <? Z.of_nat (List.length fetched)), db).
Proof.
  intros Hl Ho beyond fetched.
  assert (Hlen : List.length fetched = Nat.min (Z.to_nat (limit + 1)) (List.length beyond))
    by apply length_firstn.
  unfold getTransactionHistoryWithBalance, LIMIT_OFFSET.
  destruct (Z.ltb_spec (limit + 1) 0); [lia|].
  destruct (Z.ltb_spec offset 0); [lia|].
  fold beyond. fold fetched.
  do 2 f_equal. f_equal.
  destruct (limit <? Z.of_nat (List.length fetched)) eqn:E.
  - apply Z.ltb_lt in E. unfold slice0.
    destruct (Z.ltb_spec limit 0).
    + assert (limit = -1) as -> by lia. unfold fetched. simpl. reflexivity.
    + unfold fetched. rewrite firstn_firstn. f_equal. lia.
  - apply Z.ltb_ge in E.
    unfold fetched. rewrite !firstn_all2; auto; lia.
Qed.



(** ** Steps of a unit of work *)

Lemma ROLLBACK_same (db : Database) : ROLLBACK db db = db.
Proof. now destruct db. Qed.

Lemma reference_filter_nil (referenceId : string) (db : Database) :
  ~ reference_used referenceId db ->
  filter (fun e => String.eqb (LedgerEntry.reference_id e) referenceId)
         (ledger_entries db) = [].
Proof.
  intros Hno.
  destruct (filter _ _) as [|e t] eqn:F; [reflexivity|exfalso].
  assert (Hin : In e (e :: t)) by now left.
  rewrite <- F in Hin. apply filter_In in Hin as [Hin E].
  apply String.eqb_eq in E. apply Hno. now exists e.
Qed.

Lemma findLedgerEntryByReferenceId_unused `{RowChoice}
    (referenceId : string) (db : Database) :
  ~ reference_used referenceId db ->
  findLedgerEntryByReferenceId referenceId db = (Ok None, db).
Proof.
  intros Hno. unfold findLedgerEntryByReferenceId.
  now rewrite reference_filter_nil, limit1_nil.
Qed.

Lemma findLedgerEntryByReferenceId_used `{RowChoice}
    (referenceId : string) (db : Database) :
  reference_used referenceId db ->
  exists e, In e (ledger_entries db)
            /\ LedgerEntry.reference_id e = referenceId
            /\ findLedgerEntryByReferenceId referenceId db = (Ok (Some e), db).
Proof.
  intros (e0 & Hin & E). unfold findLedgerEntryByReferenceId.
  destruct (limit1_In (filter (fun e => String.eqb (LedgerEntry.reference_id e) referenceId)
                              (ledger_entries db))) as (e & He & Hine).
  - intros F.
    assert (Hf : In e0 (filter (fun e => String.eqb (LedgerEntry.reference_id e) referenceId)
                               (ledger_entries db)))
      by (apply filter_In; split; [exact Hin|now apply String.eqb_eq]).
    now rewrite F in Hf.
  - apply filter_In in Hine as [Hine Ee]. apply String.eqb_eq in Ee.
    exists e. now rewrite He.
Qed.

Lemma findLedgerEntryByReferenceId_None `{RowChoice}
    (referenceId : string) (db db' : Database) :
  findLedgerEntryByReferenceId referenceId db = (Ok None, db') ->
  ~ reference_used referenceId db.
Proof.
  intros E Hu. apply findLedgerEntryByReferenceId_used in Hu as (e & _ & _ & E').
  congruence.
Qed.

Lemma calculateBalance_state (walletId assetTypeId : Z) (client : PoolClient)
    (db : Database) :
  calculateBalance walletId assetTypeId client db
  = (fst (calculateBalance walletId assetTypeId client db), db).
Proof. unfold calculateBalance. now destruct (in_bigint _). Qed.

Lemma calculateBalance_ledger (walletId assetTypeId : Z) (client client' : PoolClient)
    (db db' : Database) :
  ledger_entries db' = ledger_entries db ->
  fst (calculateBalance walletId assetTypeId client' db')
  = fst (calculateBalance walletId assetTypeId client db).
Proof. unfold calculateBalance. intros ->. now destruct (in_bigint _). Qed.

Lemma lockWalletsInOrder_state (walletIds : list Z) (client : PoolClient)
    (db : Database) :
  lockWalletsInOrder walletIds client db
  = (fst (lockWalletsInOrder walletIds client db), db).
Proof. unfold lockWalletsInOrder. now destruct (existsb _ _). Qed.

Lemma insertLedgerEntry_Ok (params : CreateLedgerEntryParams.t) (client : PoolClient)
    (db db1 : Database) (row : LedgerEntry.t) :
  insertLedgerEntry params client db = (Ok row, db1) ->
  entry_is row (CreateLedgerEntryParams.transactionId params)
    (CreateLedgerEntryParams.walletId params)
    (CreateLedgerEntryParams.assetTypeId params)
    (CreateLedgerEntryParams.entryType params)
    (CreateLedgerEntryParams.amount params)
    (CreateLedgerEntryParams.referenceId params)
  /\ LedgerEntry.id row = ledger_entries_id_seq db
  /\ LedgerEntry.created_at row = now client
  /\ ledger_entries db1 = ledger_entries db ++ [row]
  /\ ledger_entries_id_seq db1 = ledger_entries_id_seq db + 1
  /\ same_other_tables db db1
  /\ 0 < written (CreateLedgerEntryParams.amount params) <= bigint_max
  /\ 0 < CreateLedgerEntryParams.amount params.
Proof.
  unfold insertLedgerEntry. intros E.
  destruct (Number_text (CreateLedgerEntryParams.amount params)) as [amount|] eqn:Text;
    [|discriminate].
  pose proof (Number_text_written _ _ Text) as W.
  repeat match type of E with
         | context [if ?b then _ else _] => destruct b eqn:?
         end; try discriminate.
  injection E as <- <-.
  unfold entry_is, same_other_tables; simpl. rewrite W.
  assert (0 < amount <= bigint_max).
  { apply negb_false_iff, andb_true_iff in Heqb as [_ Hmax].
    apply Z.leb_le in Hmax. apply Z.leb_gt in Heqb1. lia. }
  assert (0 < CreateLedgerEntryParams.amount params)
    by (apply (Number_text_positive _ _ Text); lia).
  tauto.
Qed.

Lemma createTransaction_Ok `{RowChoice} (params : TransactionParams.t) (uuid : string)
    (client : PoolClient) (db db' : Database) (r : TransactionResult.t) :
  createTransaction params uuid client db = (Ok r, db') ->
  ~ reference_used (TransactionParams.referenceId params) db
  /\ TransactionResult.transactionId r = uuid
  /\ entry_is (TransactionResult.debitEntry r) uuid
       (TransactionParams.sourceWalletId params) (TransactionParams.assetTypeId params)
       DEBIT (TransactionParams.amount params) (TransactionParams.referenceId params)
  /\ entry_is (TransactionResult.creditEntry r) uuid
       (TransactionParams.targetWalletId params) (TransactionParams.assetTypeId params)
       CREDIT (TransactionParams.amount params)
       (String.append (TransactionParams.referenceId params) "_credit")
  /\ ledger_entries db' = ledger_entries db
                          ++ [TransactionResult.debitEntry r; TransactionResult.creditEntry r]
  /\ same_other_tables db db'
  /\ (exists b, fst (calculateBalance (TransactionParams.sourceWalletId params)
                       (TransactionParams.assetTypeId params) client db) = Ok b
                /\ TransactionParams.amount params <= b)
  /\ fst (calculateBalance (TransactionParams.targetWalletId params)
            (TransactionParams.assetTypeId params) client db')
     = Ok (TransactionResult.newBalance r)
  /\ commit_error client = None.
Proof.
  unfold createTransaction, withTransaction, bind, try_catch, throw, ret. intros E.
  destruct (findLedgerEntryByReferenceId _ db) as [[[existing|]|e0] db0] eqn:F;
    try discriminate.
  assert (db0 = db) as -> by (unfold findLedgerEntryByReferenceId in F; congruence).
  apply findLedgerEntryByReferenceId_None in F.
  rewrite lockWalletsInOrder_state in E.
  destruct (fst (lockWalletsInOrder _ client db)) as [rows|e1]; try discriminate.
  rewrite calculateBalance_state in E.
  destruct (fst (calculateBalance _ _ client db)) as [b|e2] eqn:B; try discriminate.
  destruct (Z.ltb_spec b (TransactionParams.amount params)); try discriminate.
  destruct (insertLedgerEntry _ client db) as [[d|e3] db1] eqn:I1; try discriminate.
  destruct (insertLedgerEntry _ client db1) as [[c|e4] db2] eqn:I2; try discriminate.
  rewrite calculateBalance_state in E.
  destruct (fst (calculateBalance _ _ client db2)) as [nb|e5] eqn:B2; try discriminate.
  destruct (commit_error client) eqn:C; try discriminate.
  inversion E; subst; clear E. simpl.
  apply insertLedgerEntry_Ok in I1 as (Hd & _ & _ & L1 & _ & (A1 & W1 & V1) & _).
  apply insertLedgerEntry_Ok in I2 as (Hc & _ & _ & L2 & _ & (A2 & W2 & V2) & _).
  simpl in Hd, Hc.
  unfold same_other_tables.
  unfold entry_is in *.
  repeat apply conj;
    first [ tauto | congruence | reflexivity
          | rewrite L2, L1, <- app_assoc; reflexivity
          | exists b; split; [reflexivity|lia] ].
Qed.

Lemma createCreditOnlyTransaction_Ok `{RowChoice}
    (walletId assetTypeId amount : Z) (transactionType : TransactionType)
    (referenceId : string) (description : option string) (metadata : option Metadata)
    (uuid : string) (client : PoolClient) (db db' : Database) (r : SingleEntryResult.t) :
  createCreditOnlyTransaction walletId assetTypeId amount transactionType referenceId
    description metadata uuid client db = (Ok r, db') ->
  ~ reference_used referenceId db
  /\ SingleEntryResult.transactionId r = uuid
  /\ entry_is (SingleEntryResult.entry r) uuid walletId assetTypeId CREDIT amount referenceId
  /\ ledger_entries db' = ledger_entries db ++ [SingleEntryResult.entry r]
  /\ same_other_tables db db'
  /\ fst (calculateBalance walletId assetTypeId client db')
     = Ok (SingleEntryResult.newBalance r).
Proof.
  unfold createCreditOnlyTransaction, withTransaction, bind, throw, ret. intros E.
  destruct (findLedgerEntryByReferenceId _ db) as [[[existing|]|e0] db0] eqn:F;
    try discriminate.
  assert (db0 = db) as -> by (unfold findLedgerEntryByReferenceId in F; congruence).
  apply findLedgerEntryByReferenceId_None in F.
  rewrite lockWalletsInOrder_state in E.
  destruct (fst (lockWalletsInOrder _ client db)) as [rows|e1]; try discriminate.
  destruct (insertLedgerEntry _ client db) as [[d|e3] db1] eqn:I1; try discriminate.
  rewrite calculateBalance_state in E.
  destruct (fst (calculateBalance _ _ client db1)) as [nb|e5] eqn:B2; try discriminate.
  destruct (commit_error client) eqn:C; try discriminate.
  inversion E; subst; clear E. simpl.
  apply insertLedgerEntry_Ok in I1 as (Hd & _ & _ & L1 & _ & S1 & _).
  simpl in Hd. tauto.
Qed.

Lemma createDebitOnlyTransaction_Ok `{RowChoice}
    (walletId assetTypeId amount : Z) (transactionType : TransactionType)
    (referenceId : string) (description : option string) (metadata : option Metadata)
    (uuid : string) (client : PoolClient) (db db' : Database) (r : SingleEntryResult.t) :
  createDebitOnlyTransaction walletId assetTypeId amount transactionType referenceId
    description metadata uuid client db = (Ok r, db') ->
  ~ reference_used referenceId db
  /\ SingleEntryResult.transactionId r = uuid
  /\ entry_is (SingleEntryResult.entry r) uuid walletId assetTypeId DEBIT amount referenceId
  /\ ledger_entries db' = ledger_entries db ++ [SingleEntryResult.entry r]
  /\ same_other_tables db db'
  /\ fst (calculateBalance walletId assetTypeId client db')
     = Ok (SingleEntryResult.newBalance r).
Proof.
  unfold createDebitOnlyTransaction, withTransaction, bind, throw, ret. intros E.
  destruct (findLedgerEntryByReferenceId _ db) as [[[existing|]|e0] db0] eqn:F;
    try discriminate.
  assert (db0 = db) as -> by (unfold findLedgerEntryByReferenceId in F; congruence).
  apply findLedgerEntryByReferenceId_None in F.
  rewrite lockWalletsInOrder_state in E.
  destruct (fst (lockWalletsInOrder _ client db)) as [rows|e1]; try discriminate.
  rewrite calculateBalance_state in E.
  destruct (fst (calculateBalance _ _ client db)) as [b|e2] eqn:B; try discriminate.
  destruct (Z.ltb_spec b amount); try discriminate.
  destruct (insertLedgerEntry _ client db) as [[d|e3] db1] eqn:I1; try discriminate.
  rewrite calculateBalance_state in E.
  destruct (fst (calculateBalance _ _ client db1)) as [nb|e5] eqn:B2; try discriminate.
  destruct (commit_error client) eqn:C; try discriminate.
  inversion E; subst; clear E. simpl.
  apply insertLedgerEntry_Ok in I1 as (Hd & _ & _ & L1 & _ & S1 & _).
  simpl in Hd. tauto.
Qed.

(** ** Double entry *)

Lemma fresh_transaction_id_check (uuid : string) (db : Database) :
  forallb (fun e => negb (String.eqb (LedgerEntry.transaction_id e) uuid))
          (ledger_entries db) = true ->
  fresh_transaction_id uuid db.
Proof.
  intros Hall e Hin E. rewrite forallb_forall in Hall.
  specialize (Hall e Hin). apply negb_true_iff in Hall.
  apply String.eqb_neq in Hall. contradiction.
Qed.

Lemma fresh_entries_of (uuid : string) (assetTypeId : Z) (db : Database) :
  fresh_transaction_id uuid db -> entries_of uuid assetTypeId db = [].
Proof.
  intros Hfresh. unfold entries_of.
  destruct (filter _ _) as [|e t] eqn:F; [reflexivity|exfalso].
  assert (Hin : In e (e :: t)) by now left.
  rewrite <- F in Hin. apply filter_In in Hin as [Hin E].
  apply andb_true_iff in E as [E _]. apply String.eqb_eq in E.
  exact (Hfresh e Hin E).
Qed.

(** C1. A transfer that commits has appended exactly two entries, a DEBIT on
    the source and a CREDIT on the target, of the same amount and asset type
    and under the one freshly generated transaction id it returns; over the
    entries of that transaction id, credits minus debits is zero for every
    asset type, then and in every later ledger that has only grown by entries
    of other transactions. *)
Theorem transfer_is_balanced `{RowChoice}
    (params : TransactionParams.t) (uuid : string) (client : PoolClient)
    (db db' : Database) (r : TransactionResult.t) :
  fresh_transaction_id uuid db ->
  createTransaction params uuid client db = (Ok r, db') ->
  TransactionResult.transactionId r = uuid
  /\ ledger_entries db'
     = ledger_entries db ++ [TransactionResult.debitEntry r; TransactionResult.creditEntry r]
  /\ entry_is (TransactionResult.debitEntry r) uuid
       (TransactionParams.sourceWalletId params) (TransactionParams.assetTypeId params)
       DEBIT (TransactionParams.amount params) (TransactionParams.referenceId params)
  /\ entry_is (TransactionResult.creditEntry r) uuid
       (TransactionParams.targetWalletId params) (TransactionParams.assetTypeId params)
       CREDIT (TransactionParams.amount params)
       (String.append (TransactionParams.referenceId params) "_credit")
  /\ forall later,
       only_other_transactions uuid db' later ->
       forall assetTypeId,
         credits (entries_of (TransactionResult.transactionId r) assetTypeId later)
         - debits (entries_of (TransactionResult.transactionId r) assetTypeId later) = 0.
Proof.
  intros Hfresh E.
  apply createTransaction_Ok in E as (_ & T & Hd & Hc & L & _).
  split; [exact T|]. split; [exact L|]. split; [exact Hd|]. split; [exact Hc|].
  intros later (more & Lmore & Hmore) a. rewrite T.
  pose proof (fresh_entries_of uuid a db Hfresh) as F.
  destruct Hd as (Td & _ & Ad & Ed & Md & _), Hc as (Tc & _ & Ac & Ec & Mc & _).
  unfold entries_of in *. rewrite Lmore, L, !filter_app, F.
  rewrite (filter_none _ more).
  - simpl. rewrite Td, Tc, Ad, Ac, String.eqb_refl. simpl.
    destruct (TransactionParams.assetTypeId params =? a);
      unfold credits, debits, is_credit, is_debit; simpl;
      rewrite ?Ed, ?Ec; simpl; rewrite ?Md, ?Mc; lia.
  - intros x Hx. rewrite Forall_forall in Hmore.
    apply andb_false_iff. left. apply String.eqb_neq. now apply Hmore.
Qed.

Lemma transfer_is_balanced_witness :
  fresh_transaction_id "T1" Seed.db
  /\ (exists r, createTransaction Scenario.topup_001 "T1" (Seed.quiet 1) Seed.db
                = (Ok r, Scenario.after_topup))
  /\ credits (entries_of "T1" 1 Scenario.after_topup) = 5000
  /\ debits (entries_of "T1" 1 Scenario.after_topup) = 5000
  /\ credits (entries_of "T1" 1 Scenario.after_spend)
     - debits (entries_of "T1" 1 Scenario.after_spend) = 0.
Proof.
  assert (F : fresh_transaction_id "T1" Seed.db)
    by (apply fresh_transaction_id_check; reflexivity).
  let v := eval vm_compute in
             (fst (createTransaction Scenario.topup_001 "T1" (Seed.quiet 1) Seed.db)) in
  match v with
  | Ok ?r =>
      assert (E : createTransaction Scenario.topup_001 "T1" (Seed.quiet 1) Seed.db
                  = (Ok r, Scenario.after_topup)) by (vm_compute; reflexivity);
      pose proof (transfer_is_balanced _ _ _ _ _ _ F E) as (_ & _ & _ & _ & Z0);
      split; [exact F|split; [exists r; exact E|]]
  end.
  assert (Later : only_other_transactions "T1" Scenario.after_topup Scenario.after_spend).
  { exists (skipn 9 (ledger_entries Scenario.after_spend)).
    split; [vm_compute; reflexivity|].
    repeat constructor; vm_compute; discriminate. }
  specialize (Z0 Scenario.after_spend Later 1). simpl in Z0.
  split; [vm_compute; reflexivity|]. split; [vm_compute; reflexivity|]. exact Z0.
Defined.

(** ** Idempotency *)

Lemma append_credit_neq (referenceId : string) :
  String.append referenceId "_credit" <> referenceId.
Proof.
  intros E. apply (f_equal String.length) in E.
  assert (L : forall s t, String.length (String.append s t)
                          = (String.length s + String.length t)%nat)
    by (induction s; simpl; intros; [reflexivity|now rewrite IHs]).
  rewrite L in E. simpl in E. lia.
Qed.

Lemma perform_duplicate `{RowChoice} (op : WriteOperation) (uuid : string)
    (client : PoolClient) (db : Database) (e : LedgerEntry.t) :
  findLedgerEntryByReferenceId (referenceKey op) db = (Ok (Some e), db) ->
  perform op uuid client db
  = (Throw (Service (DuplicateTransactionError (referenceKey op)
                       (LedgerEntry.transaction_id e))), db).
Proof.
  intros F.
  destruct op; simpl in F;
    unfold perform, createTransaction, createCreditOnlyTransaction,
      createDebitOnlyTransaction, withTransaction, bind, throw;
    rewrite F, ROLLBACK_same; reflexivity.
Qed.

Lemma perform_Ok `{RowChoice} (op : WriteOperation) (uuid : string)
    (client : PoolClient) (db db1 : Database) (T : string) :
  perform op uuid client db = (Ok T, db1) ->
  ~ reference_used (referenceKey op) db
  /\ T = uuid
  /\ exists first rest,
       ledger_entries db1 = ledger_entries db ++ first :: rest
       /\ LedgerEntry.transaction_id first = T
       /\ LedgerEntry.reference_id first = referenceKey op
       /\ Forall (fun e => LedgerEntry.reference_id e <> referenceKey op
                           /\ LedgerEntry.transaction_id e = T) rest.
Proof.
  destruct op; unfold perform, bind, ret; simpl.
  - destruct (createTransaction _ _ _ _) as [[r|e] db2] eqn:E; [|discriminate].
    intros E'. inversion E'; subst; clear E'.
    apply createTransaction_Ok in E as (U & T & Hd & Hc & L & _).
    destruct Hd as (Td & _ & _ & _ & _ & Rd), Hc as (Tc & _ & _ & _ & _ & Rc).
    split; [exact U|]. split; [exact T|].
    exists (TransactionResult.debitEntry r), [TransactionResult.creditEntry r].
    repeat split; try congruence.
    constructor; [|constructor]. split; [|congruence].
    rewrite Rc. apply append_credit_neq.
  - destruct (createCreditOnlyTransaction _ _ _ _ _ _ _ _ _ _) as [[r|e] db2] eqn:E;
      [|discriminate].
    intros E'. inversion E'; subst; clear E'.
    apply createCreditOnlyTransaction_Ok in E as (U & T & He & L & _).
    destruct He as (Te & _ & _ & _ & _ & Re).
    split; [exact U|]. split; [exact T|].
    exists (SingleEntryResult.entry r), []. repeat split; try congruence. constructor.
  - destruct (createDebitOnlyTransaction _ _ _ _ _ _ _ _ _ _) as [[r|e] db2] eqn:E;
      [|discriminate].
    intros E'. inversion E'; subst; clear E'.
    apply createDebitOnlyTransaction_Ok in E as (U & T & He & L & _).
    destruct He as (Te & _ & _ & _ & _ & Re).
    split; [exact U|]. split; [exact T|].
    exists (SingleEntryResult.entry r), []. repeat split; try congruence. constructor.
Qed.

(** C4. A write operation whose reference key is already on a ledger entry
    fails with DuplicateTransactionError carrying the key and the transaction
    id of an existing entry with that key, and leaves the store as it was.
    After an operation has committed, any repetition of it with the same key
    fails that way with the transaction id the first call returned, so its
    entries are written once. *)
Theorem duplicate_reference_fails_fast `{RowChoice}
    (op : WriteOperation) (uuid : string) (client : PoolClient) (db : Database) :
  (reference_used (referenceKey op) db ->
   exists e, In e (ledger_entries db)
             /\ LedgerEntry.reference_id e = referenceKey op
             /\ perform op uuid client db
                = (Throw (Service (DuplicateTransactionError (referenceKey op)
                                     (LedgerEntry.transaction_id e))), db))
  /\ (forall (T : string) (db1 : Database),
        perform op uuid client db = (Ok T, db1) ->
        forall (uuid' : string) (client' : PoolClient),
          perform op uuid' client' db1
          = (Throw (Service (DuplicateTransactionError (referenceKey op) T)), db1)).
Proof.
  split.
  - intros Hu. apply findLedgerEntryByReferenceId_used in Hu as (e & Hin & Re & F).
    exists e. repeat split; try assumption. now apply perform_duplicate.
  - intros T db1 E uuid' client'.
    apply perform_Ok in E as (U & _ & first & rest & L & Tf & Rf & Hrest).
    rewrite <- Tf. apply perform_duplicate.
    unfold findLedgerEntryByReferenceId. rewrite L, filter_app.
    rewrite (reference_filter_nil _ _ U). simpl.
    rewrite Rf, String.eqb_refl.
    assert (filter (fun e => String.eqb (LedgerEntry.reference_id e) (referenceKey op)) rest
            = []) as ->.
    { clear L. induction Hrest as [|x t [Hx _] _ IH]; simpl; [reflexivity|].
      apply String.eqb_neq in Hx. now rewrite Hx. }
    now rewrite limit1_singleton.
Qed.

Lemma reference_used_check (referenceId : string) (db : Database) :
  existsb (fun e => String.eqb (LedgerEntry.reference_id e) referenceId)
          (ledger_entries db) = true ->
  reference_used referenceId db.
Proof.
  intros E. apply existsb_exists in E as (e & Hin & E).
  apply String.eqb_eq in E. now exists e.
Qed.

Lemma duplicate_reference_fails_fast_witness :
  perform (Transfer Scenario.topup_001) "T1" (Seed.quiet 1) Seed.db
  = (Ok "T1", Scenario.after_topup)
  /\ perform (Transfer Scenario.topup_001) "T9" (Seed.quiet 5) Scenario.after_topup
     = (Throw (Service (DuplicateTransactionError "topup_001" "T1")), Scenario.after_topup)
  /\ reference_used "topup_001" Scenario.after_topup
  /\ exists e, In e (ledger_entries Scenario.after_topup)
               /\ perform (Transfer Scenario.topup_001) "T9" (Seed.quiet 5)
                    Scenario.after_topup
                  = (Throw (Service (DuplicateTransactionError "topup_001"
                                       (LedgerEntry.transaction_id e))),
                     Scenario.after_topup).
Proof.
  assert (E : perform (Transfer Scenario.topup_001) "T1" (Seed.quiet 1) Seed.db
              = (Ok "T1", Scenario.after_topup)) by (vm_compute; reflexivity).
  assert (U : reference_used "topup_001" Scenario.after_topup)
    by (apply reference_used_check; vm_compute; reflexivity).
  destruct (duplicate_reference_fails_fast (Transfer Scenario.topup_001)
              "T1" (Seed.quiet 1) Seed.db) as [_ Replay].
  destruct (duplicate_reference_fails_fast (Transfer Scenario.topup_001)
              "T9" (Seed.quiet 5) Scenario.after_topup) as [Dup _].
  destruct (Dup U) as (e & Hin & _ & D).
  split; [exact E|]. split; [exact (Replay _ _ E "T9" (Seed.quiet 5))|].
  split; [exact U|]. exists e. split; [exact Hin|exact D].
Defined.

(** ** Sufficiency of funds *)

Lemma lockWalletsInOrder_available (walletIds : list Z) (client : PoolClient)
    (db : Database) :
  lock_available walletIds client db ->
  lockWalletsInOrder walletIds client db = (Ok (lockRows walletIds db), db).
Proof.
  intros Hfree. unfold lockWalletsInOrder.
  destruct (existsb _ _) eqn:E; [exfalso|reflexivity].
  apply existsb_exists in E as (w & Hw & Hm).
  apply existsb_exists in Hm as (x & Hx & Ex). apply Z.eqb_eq in Ex. subst x.
  exact (Hfree w Hw Hx).
Qed.

Lemma lockWalletsInOrder_contended (walletIds : list Z) (client : PoolClient)
    (db : Database) (e : Thrown) :
  fst (lockWalletsInOrder walletIds client db) = Throw e ->
  e = Pg "55P03"
  /\ exists w, In w (lockRows walletIds db) /\ In (Wallet.id w) (locked_by_others client).
Proof.
  unfold lockWalletsInOrder.
  destruct (existsb _ _) eqn:E; simpl; [|discriminate].
  intros [= <-]. split; [reflexivity|].
  apply existsb_exists in E as (w & Hw & Hm).
  apply existsb_exists in Hm as (x & Hx & Ex). apply Z.eqb_eq in Ex. subst x.
  now exists w.
Qed.

(** When the number that the operation computes as the balance of the account
    it debits is below the requested amount, a transfer or a debit-only
    operation commits nothing: it throws and the store is exactly as before.
    Once past the duplicate check and the lock step, what it throws is
    InsufficientFundsError with the requested amount and that number. *)
Lemma perform_insufficient `{RowChoice}
    (op : WriteOperation) (uuid : string) (client : PoolClient) (db : Database)
    (walletId assetTypeId amount available : Z) :
  sufficiency_check op = Some (walletId, assetTypeId, amount) ->
  fst (calculateBalance walletId assetTypeId client db) = Ok available ->
  available < amount ->
  (exists e, perform op uuid client db = (Throw e, db))
  /\ (~ reference_used (referenceKey op) db ->
      lock_available (lockedWallets op) client db ->
      perform op uuid client db
      = (Throw (Service (InsufficientFundsError amount available (toString assetTypeId))),
         db)).
Proof.
  intros S B Hlt.
  assert (Hb : (available <? amount) = true) by now apply Z.ltb_lt.
  destruct op as [params|? ? ? ? ? ? ?|w a amt tt ref descr meta];
    simpl in S; inversion S; subst; clear S; simpl.
  - split.
    + unfold perform, createTransaction, withTransaction, bind, try_catch, throw, ret.
      unfold findLedgerEntryByReferenceId.
      destruct (limit1 _) as [existing|].
      * rewrite ROLLBACK_same. eauto.
      * rewrite lockWalletsInOrder_state.
        destruct (fst (lockWalletsInOrder _ client db)) as [rows|e1].
        -- rewrite calculateBalance_state, B, Hb, ROLLBACK_same. eauto.
        -- rewrite ROLLBACK_same. eauto.
    + intros U A.
      unfold perform, createTransaction, withTransaction, bind, try_catch, throw, ret.
      rewrite (findLedgerEntryByReferenceId_unused _ _ U).
      rewrite (lockWalletsInOrder_available _ _ _ A).
      rewrite calculateBalance_state, B, Hb, ROLLBACK_same. reflexivity.
  - split.
    + unfold perform, createDebitOnlyTransaction, withTransaction, bind, throw, ret.
      unfold findLedgerEntryByReferenceId.
      destruct (limit1 _) as [existing|].
      * rewrite ROLLBACK_same. eauto.
      * rewrite lockWalletsInOrder_state.
        destruct (fst (lockWalletsInOrder _ client db)) as [rows|e1].
        -- rewrite calculateBalance_state, B, Hb, ROLLBACK_same. eauto.
        -- rewrite ROLLBACK_same. eauto.
    + intros U A.
      unfold perform, createDebitOnlyTransaction, withTransaction, bind, throw, ret.
      rewrite (findLedgerEntryByReferenceId_unused _ _ U).
      rewrite (lockWalletsInOrder_available _ _ _ A).
      rewrite calculateBalance_state, B, Hb, ROLLBACK_same. reflexivity.
Qed.

Lemma reference_unused_check (referenceId : string) (db : Database) :
  existsb (fun e => String.eqb (LedgerEntry.reference_id e) referenceId)
          (ledger_entries db) = false ->
  ~ reference_used referenceId db.
Proof.
  intros E (e & Hin & R).
  assert (existsb (fun e => String.eqb (LedgerEntry.reference_id e) referenceId)
                  (ledger_entries db) = true); [|congruence].
  apply existsb_exists. exists e. split; [exact Hin|now apply String.eqb_eq].
Qed.

Lemma lock_available_quiet (walletIds : list Z) (now : Z) (db : Database) :
  lock_available walletIds (Seed.quiet now) db.
Proof. intros w _ []. Qed.

(** ** Balance derivation *)

Lemma total_signed (l : list LedgerEntry.t) :
  total (map signed l) = credits l - debits l.
Proof.
  unfold credits, debits, is_credit, is_debit, signed.
  induction l as [|e t IH]; simpl; [reflexivity|].
  destruct (LedgerEntry.entry_type e); simpl; lia.
Qed.

Lemma COALESCE_SUM (l : list Z) : COALESCE (SUM l) 0 = total l.
Proof. now destruct l. Qed.

(** C2 (as amended). Whenever credits minus debits over the committed
    entries of an (account, asset) pair lies within the integers that a
    [number] holds exactly (magnitude at most 2^53), [calculateBalance]
    returns exactly that value, and it returns 0 when the pair has no
    entries; the store is only read. *)
Theorem realtime_balance_is_credits_minus_debits
    (walletId assetTypeId : Z) (client : PoolClient) (db : Database) :
  let entries := entries_for walletId assetTypeId db in
  (- 2 ^ 53 <= credits entries - debits entries <= 2 ^ 53 ->
   calculateBalance walletId assetTypeId client db
   = (Ok (credits entries - debits entries), db))
  /\ (entries = [] -> calculateBalance walletId assetTypeId client db = (Ok 0, db)).
Proof.
  intros entries.
  assert (E : calculateBalance walletId assetTypeId client db
              = (if in_bigint (credits entries - debits entries)
                 then (Ok (Number_of_Z (credits entries - debits entries)), db)
                 else (Throw (Pg "22003"), db))).
  { unfold calculateBalance. fold (entries_for walletId assetTypeId db). fold entries.
    now rewrite COALESCE_SUM, total_signed. }
  split.
  - intros Hr. now rewrite E, in_bigint_safe, Number_of_Z_exact.
  - intros Hnil. rewrite E, Hnil. reflexivity.
Qed.

Lemma realtime_balance_is_credits_minus_debits_witness :
  credits (entries_for 6 1 Scenario.after_spend)
  - debits (entries_for 6 1 Scenario.after_spend) = 102500
  /\ calculateBalance 6 1 (Seed.quiet 3) Scenario.after_spend
     = (Ok 102500, Scenario.after_spend)
  /\ calculateBalance 6 3 (Seed.quiet 3) Scenario.after_spend
     = (Ok 0, Scenario.after_spend).
Proof.
  assert (S : credits (entries_for 6 1 Scenario.after_spend)
              - debits (entries_for 6 1 Scenario.after_spend) = 102500)
    by (vm_compute; reflexivity).
  destruct (realtime_balance_is_credits_minus_debits 6 1 (Seed.quiet 3)
              Scenario.after_spend) as [H1 _].
  destruct (realtime_balance_is_credits_minus_debits 6 3 (Seed.quiet 3)
              Scenario.after_spend) as [_ H2].
  split; [exact S|]. split.
  - rewrite <- S at 1. apply H1. rewrite S. lia.
  - apply H2. vm_compute. reflexivity.
Defined.

(** Two bonuses, of 9007199254740991 and of 2 loyalty points, both commit;
    the entries of the pair then sum to 2^53 + 1, and [calculateBalance]
    answers 2^53. *)
Lemma realtime_balance_counterexample :
  credits (entries_for 6 3 Scenario.after_two_bonuses)
  - debits (entries_for 6 3 Scenario.after_two_bonuses) = 9007199254740993
  /\ fst (calculateBalance 6 3 (Seed.quiet 5) Scenario.after_two_bonuses)
     = Ok 9007199254740992
  /\ fst (calculateBalance 6 3 (Seed.quiet 5) Scenario.after_two_bonuses)
     <> Ok (credits (entries_for 6 3 Scenario.after_two_bonuses)
            - debits (entries_for 6 3 Scenario.after_two_bonuses)).
Proof.
  assert (S : credits (entries_for 6 3 Scenario.after_two_bonuses)
              - debits (entries_for 6 3 Scenario.after_two_bonuses) = 9007199254740993)
    by (vm_compute; reflexivity).
  assert (B : fst (calculateBalance 6 3 (Seed.quiet 5) Scenario.after_two_bonuses)
              = Ok 9007199254740992)
    by (vm_compute; reflexivity).
  split; [exact S|]. split; [exact B|].
  rewrite S, B. discriminate.
Qed.

(** ** Sufficiency of funds, on the exact balance *)

(** C3 (as amended). When the real-time balance of the account that a
    transfer or a debit-only operation debits (credits minus debits over
    its entries) is one a [number] holds exactly (magnitude at most 2^53)
    and is below the requested amount, the operation commits nothing: it
    throws and the store is exactly as before (no entry written, every
    balance as it was).  Once past the duplicate check and the lock step,
    what it throws is InsufficientFundsError with the requested amount and
    that balance. *)
Theorem insufficient_funds_leaves_no_trace `{RowChoice}
    (op : WriteOperation) (uuid : string) (client : PoolClient) (db : Database)
    (walletId assetTypeId amount : Z) :
  let entries := entries_for walletId assetTypeId db in
  sufficiency_check op = Some (walletId, assetTypeId, amount) ->
  - 2 ^ 53 <= credits entries - debits entries <= 2 ^ 53 ->
  credits entries - debits entries < amount ->
  (exists e, perform op uuid client db = (Throw e, db))
  /\ (~ reference_used (referenceKey op) db ->
      lock_available (lockedWallets op) client db ->
      perform op uuid client db
      = (Throw (Service (InsufficientFundsError amount (credits entries - debits entries)
                           (toString assetTypeId))),
         db)).
Proof.
  intros entries S Exact Below.
  apply (perform_insufficient op uuid client db walletId assetTypeId amount
           (credits entries - debits entries) S); [|exact Below].
  unfold calculateBalance. fold (entries_for walletId assetTypeId db). fold entries.
  rewrite COALESCE_SUM, total_signed, in_bigint_safe by exact Exact.
  simpl. now rewrite Number_of_Z_exact.
Qed.

Lemma insufficient_funds_leaves_no_trace_witness :
  credits (entries_for 6 1 Scenario.after_spend)
  - debits (entries_for 6 1 Scenario.after_spend) = 102500
  /\ perform (Transfer Scenario.spend_002) "T5" (Seed.quiet 3) Scenario.after_spend
     = (Throw (Service (InsufficientFundsError 999999999 102500 "1")),
        Scenario.after_spend).
Proof.
  assert (S : credits (entries_for 6 1 Scenario.after_spend)
              - debits (entries_for 6 1 Scenario.after_spend) = 102500)
    by (vm_compute; reflexivity).
  split; [exact S|].
  pose proof (insufficient_funds_leaves_no_trace (Transfer Scenario.spend_002) "T5"
                (Seed.quiet 3) Scenario.after_spend 6 1 999999999 eq_refl) as Aborts.
  cbv zeta in Aborts. rewrite S in Aborts.
  refine (proj2 (Aborts _ _) _ _).
  - lia.
  - lia.
  - apply reference_unused_check. vm_compute. reflexivity.
  - apply lock_available_quiet.
Defined.

(** With 2^53 + 3 loyalty points on alice's account (bonuses of
    9007199254740991 and of 4), a transfer of 2^53 + 4 to the revenue
    account commits: the balance is below the amount, but
    [calculateBalance] answers 2^53 + 4, which is not; the account is left
    at -1. *)
Lemma insufficient_funds_counterexample :
  credits (entries_for 6 3 Cases.after_bonus_of_4)
  - debits (entries_for 6 3 Cases.after_bonus_of_4) = 9007199254740995
  /\ sufficiency_check (Transfer Cases.spend_big) = Some (6, 3, 9007199254740996)
  /\ fst (calculateBalance 6 3 (Seed.quiet 9) Cases.after_bonus_of_4)
     = Ok 9007199254740996
  /\ perform (Transfer Cases.spend_big) "T9" (Seed.quiet 9) Cases.after_bonus_of_4
     = (Ok "T9", Cases.after_spend_big)
  /\ credits (entries_for 6 3 Cases.after_spend_big)
     - debits (entries_for 6 3 Cases.after_spend_big) = -1.
Proof.
  split; [vm_compute; reflexivity|]. split; [reflexivity|].
  split; [vm_compute; reflexivity|]. split; vm_compute; reflexivity.
Qed.

(** ** Lock contention *)

Lemma lockWalletsInOrder_locked (walletIds : list Z) (client : PoolClient)
    (db : Database) (w : Wallet.t) :
  In w (lockRows walletIds db) -> In (Wallet.id w) (locked_by_others client) ->
  lockWalletsInOrder walletIds client db = (Throw (Pg "55P03"), db).
Proof.
  intros Hw Hl. unfold lockWalletsInOrder.
  assert (existsb (fun w => mem (Wallet.id w) (locked_by_others client))
                  (lockRows walletIds db) = true) as ->; [|reflexivity].
  apply existsb_exists. exists w. split; [exact Hw|].
  apply existsb_exists. exists (Wallet.id w). split; [exact Hl|apply Z.eqb_refl].
Qed.

(** What each operation throws when a row it asks for is locked elsewhere:
    the transfer wraps the store's error, the single-sided ones let it out. *)
Lemma perform_contended `{RowChoice} (op : WriteOperation) (uuid : string)
    (client : PoolClient) (db : Database) (w : Wallet.t) :
  ~ reference_used (referenceKey op) db ->
  In w (lockRows (lockedWallets op) db) ->
  In (Wallet.id w) (locked_by_others client) ->
  perform op uuid client db
  = (Throw match op with
           | Transfer _ =>
               Service (ConcurrencyError "Unable to acquire wallet locks, please retry")
           | _ => Pg "55P03"
           end, db).
Proof.
  intros U Hw Hl.
  pose proof (lockWalletsInOrder_locked _ _ _ _ Hw Hl) as L.
  destruct op; simpl in *;
    unfold perform, createTransaction, createCreditOnlyTransaction,
      createDebitOnlyTransaction, withTransaction, bind, try_catch, throw, ret;
    rewrite (findLedgerEntryByReferenceId_unused _ _ U), L, ROLLBACK_same;
    reflexivity.
Qed.

(** C6 (evaluation at the failing input). With alice's wallet row locked by
    a concurrent transaction, the transfer fails with ConcurrencyError, while
    the credit-only and the debit-only operation fail with the store's own
    error 55P03. *)
Theorem lock_failure_outcomes :
  perform (Transfer Scenario.topup_001) "T1" (Scenario.contended 1) Seed.db
  = (Throw (Service (ConcurrencyError "Unable to acquire wallet locks, please retry")),
     Seed.db)
  /\ perform (CreditOnly 6 1 1000 BONUS "bonus_001" None None) "T2"
       (Scenario.contended 1) Seed.db
     = (Throw (Pg "55P03"), Seed.db)
  /\ perform (DebitOnly 6 1 1000 TRANSFER "debit_001" None None) "T3"
       (Scenario.contended 1) Seed.db
     = (Throw (Pg "55P03"), Seed.db).
Proof. repeat split; vm_compute; reflexivity. Qed.

(** ** The balance a spend reports *)

Lemma spend_reports_view_balance `{RowChoice} (request : SpendRequest.t)
    (uuid : string) (client : PoolClient) (db db' : Database)
    (r : TransactionResponse.t) :
  spend request uuid client db = (Ok r, db') ->
  wallet_balances db' = wallet_balances db
  /\ exists balances,
       fst (getBalancesFromView (SpendRequest.user_id request)
              (Some (SpendRequest.asset_code request)) db) = Ok balances
       /\ TransactionResponse.balance r
          = match balances with
            | b :: _ => WalletBalance.balance b
            | [] => 0
            end.
Proof.
  unfold spend. destruct (SpendRequest.amount request <=? 0); [discriminate|].
  unfold bind, ret.
  destruct (findWalletByUserId _ db) as [[userWallet|e1] db1] eqn:F1; [|discriminate].
  assert (db1 = db) as ->
      by (unfold findWalletByUserId in F1; destruct (filter _ _); congruence).
  destruct (findAssetTypeByCode _ db) as [[assetType|e2] db2] eqn:F2; [|discriminate].
  assert (db2 = db) as ->
      by (unfold findAssetTypeByCode in F2; destruct (filter _ _); congruence).
  destruct (findSystemWalletByName _ db) as [[revenueWallet|e3] db3] eqn:F3; [|discriminate].
  assert (db3 = db) as ->
      by (unfold findSystemWalletByName in F3; destruct (filter _ _); congruence).
  destruct (createTransaction _ uuid client db) as [[result|e4] db4] eqn:C; [|discriminate].
  apply createTransaction_Ok in C as (_ & _ & _ & _ & _ & (_ & _ & V) & _).
  unfold getBalancesFromView. rewrite V. simpl.
  intros E. inversion E; subst; clear E. simpl.
  split; [exact V|]. eexists. split; reflexivity.
Qed.

(** C7 (evaluation at the failing input). Alice holds 105000 gold after the
    top-up of scenario 1.  Her spend of 2500 commits and leaves her with
    102500, but the response reports the balance of the materialized view,
    which the spend does not refresh: 100000 (the view as seeded), or 105000
    when the view had been refreshed just before the spend. *)
Theorem spend_reports_stale_balance :
  fst (calculateBalance 6 1 (Seed.quiet 2) Scenario.after_topup) = Ok 105000
  /\ (exists r,
        spend Scenario.spend_001 "T2" (Seed.quiet 2) Scenario.after_topup
        = (Ok r, Scenario.after_spend)
        /\ TransactionResponse.balance r = 100000)
  /\ fst (calculateBalance 6 1 (Seed.quiet 3) Scenario.after_spend) = Ok 102500
  /\ (exists r db',
        spend Scenario.spend_001 "T2" (Seed.quiet 2)
          (snd (refreshBalancesView Scenario.after_topup))
        = (Ok r, db')
        /\ TransactionResponse.balance r = 105000
        /\ fst (calculateBalance 6 1 (Seed.quiet 3) db') = Ok 102500).
Proof.
  split; [vm_compute; reflexivity|].
  split.
  { eexists. split; [vm_compute; reflexivity|reflexivity]. }
  split; [vm_compute; reflexivity|].
  eexists. eexists. split; [vm_compute; reflexivity|].
  split; vm_compute; reflexivity.
Qed.

(** ** Running balance of the history *)

Ltac order_bools :=
  rewrite ?orb_true_iff, ?andb_true_iff, ?orb_false_iff, ?andb_false_iff,
    ?Z.ltb_lt, ?Z.eqb_eq, ?Z.leb_le, ?Z.ltb_ge, ?Z.eqb_neq, ?Z.leb_gt in *.





Lemma row_geb_total (a b : TransactionHistoryRow.t) :
  row_geb a b = true \/ row_geb b a = true.
Proof. unfold row_geb. order_bools. lia. Qed.

Lemma row_geb_trans (a b c : TransactionHistoryRow.t) :
  row_geb a b = true -> row_geb b c = true -> row_geb a c = true.
Proof. unfold row_geb. order_bools. lia. Qed.










(** ** Wallets the lock statement does not find *)

Lemma respects_ret {A} (a : A) : respects_activity (ret a).
Proof. intros db db' R. now split. Qed.

Lemma respects_throw {A} (e : Thrown) : respects_activity (@throw A e).
Proof. intros db db' R. now split. Qed.

Lemma respects_bind {A B} (m : Tx A) (k : A -> Tx B) :
  respects_activity m -> (forall a, respects_activity (k a)) ->
  respects_activity (bind m k).
Proof.
  intros Hm Hk db db' R. unfold bind.
  destruct (Hm db db' R) as [E R1].
  destruct (m db) as [[a|e] db1], (m db') as [[a'|e'] db1']; simpl in *;
    try discriminate.
  - injection E as ->. now apply Hk.
  - injection E as ->. now split.
Qed.

Lemma respects_ext {A} (m m' : Tx A) :
  (forall db, m db = m' db) -> respects_activity m' -> respects_activity m.
Proof. intros E Hm db db' R. rewrite !E. now apply Hm. Qed.

Lemma same_but_activity_ROLLBACK (db db' db1 db1' : Database) :
  same_but_activity db db' -> same_but_activity db1 db1' ->
  same_but_activity (ROLLBACK db db1) (ROLLBACK db' db1').
Proof.
  intros (A & W & L & S) (A1 & W1 & L1 & S1).
  repeat split; simpl; assumption.
Qed.

Lemma respects_withTransaction {A} (callback : PoolClient -> Tx A) (client : PoolClient) :
  respects_activity (callback client) ->
  respects_activity (withTransaction callback client).
Proof.
  intros Hc db db' R. unfold withTransaction.
  destruct (Hc db db' R) as [E R1].
  destruct (callback client db) as [[a|e] db1], (callback client db') as [[a'|e'] db1'];
    simpl in *; try discriminate; injection E as ->.
  - destruct (commit_error client); simpl; [|now split].
    split; [reflexivity|now apply same_but_activity_ROLLBACK].
  - split; [reflexivity|now apply same_but_activity_ROLLBACK].
Qed.

Lemma respects_findLedgerEntryByReferenceId `{RowChoice} (referenceId : string) :
  respects_activity (findLedgerEntryByReferenceId referenceId).
Proof.
  intros db db' R. unfold findLedgerEntryByReferenceId. simpl.
  split; [|exact R]. destruct R as (_ & _ & L & _). now rewrite L.
Qed.

Lemma respects_calculateBalance (walletId assetTypeId : Z) (client : PoolClient) :
  respects_activity (calculateBalance walletId assetTypeId client).
Proof.
  intros db db' R. rewrite (calculateBalance_state _ _ _ db).
  rewrite (calculateBalance_state _ _ _ db'). simpl.
  split; [|exact R]. apply calculateBalance_ledger. now destruct R as (_ & _ & L & _).
Qed.

Lemma existsb_wallet_id (x : Z) (ws : list Wallet.t) :
  existsb (fun w => Wallet.id w =? x) ws = mem x (map Wallet.id ws).
Proof.
  unfold mem. induction ws as [|w t IH]; simpl; [reflexivity|].
  now rewrite IH, (Z.eqb_sym x).
Qed.

Lemma respects_insertLedgerEntry (params : CreateLedgerEntryParams.t)
    (client : PoolClient) :
  respects_activity (insertLedgerEntry params client).
Proof.
  intros db db' (A & W & L & S). unfold insertLedgerEntry.
  rewrite !existsb_wallet_id, A, W, L, S.
  destruct (Number_text _) as [amount|]; [|now split].
  repeat match goal with
         | |- context [if ?b then _ else _] => destruct b
         end; simpl; split; try reflexivity;
    unfold same_but_activity; simpl; rewrite ?L; auto.
Qed.

Lemma lock_available_uncontended (walletIds : list Z) (client : PoolClient)
    (db : Database) :
  locked_by_others client = [] -> lock_available walletIds client db.
Proof. intros E w _. rewrite E. intros []. Qed.

Lemma respects_perform `{RowChoice} (op : WriteOperation) (uuid : string)
    (client : PoolClient) :
  locked_by_others client = [] -> respects_activity (perform op uuid client).
Proof.
  intros Q.
  assert (Lock : forall ids A (k : Tx A) db,
             bind (lockWalletsInOrder ids client) (fun _ => k) db = k db).
  { intros ids A k db. unfold bind.
    now rewrite (lockWalletsInOrder_available _ _ _
                   (lock_available_uncontended ids client db Q)). }
  assert (LockTry : forall ids h A (k : Tx A) db,
             bind (try_catch (lockWalletsInOrder ids client) h) (fun _ => k) db = k db).
  { intros ids h A k db. unfold bind, try_catch.
    now rewrite (lockWalletsInOrder_available _ _ _
                   (lock_available_uncontended ids client db Q)). }
  destruct op; unfold perform;
    (apply respects_bind; [|intros; apply respects_ret]).
  - unfold createTransaction. apply respects_withTransaction.
    apply respects_bind; [apply respects_findLedgerEntryByReferenceId|].
    intros [existing|]; [apply respects_throw|].
    eapply respects_ext; [intros db; apply LockTry|].
    apply respects_bind; [apply respects_calculateBalance|]. intros b.
    destruct (b <? _); [apply respects_throw|].
    apply respects_bind; [apply respects_insertLedgerEntry|]. intros d.
    apply respects_bind; [apply respects_insertLedgerEntry|]. intros c.
    apply respects_bind; [apply respects_calculateBalance|]. intros nb.
    apply respects_ret.
  - unfold createCreditOnlyTransaction. apply respects_withTransaction.
    apply respects_bind; [apply respects_findLedgerEntryByReferenceId|].
    intros [existing|]; [apply respects_throw|].
    eapply respects_ext; [intros db; apply Lock|].
    apply respects_bind; [apply respects_insertLedgerEntry|]. intros d.
    apply respects_bind; [apply respects_calculateBalance|]. intros nb.
    apply respects_ret.
  - unfold createDebitOnlyTransaction. apply respects_withTransaction.
    apply respects_bind; [apply respects_findLedgerEntryByReferenceId|].
    intros [existing|]; [apply respects_throw|].
    eapply respects_ext; [intros db; apply Lock|].
    apply respects_bind; [apply respects_calculateBalance|]. intros b.
    destruct (b <? _); [apply respects_throw|].
    apply respects_bind; [apply respects_insertLedgerEntry|]. intros d.
    apply respects_bind; [apply respects_calculateBalance|]. intros nb.
    apply respects_ret.
Qed.

(** C10. The lock step fails only through contention: it succeeds whenever
    none of the rows it selects is locked elsewhere, and what it returns are
    exactly the active wallet rows among the requested ids, so absent or
    inactive ids merely shorten the result (possibly below the number
    requested).  The calling operation does not look at the rows: with no
    contention its outcome and the ledger it leaves are the same whichever
    wallets are active. *)
Theorem lock_step_tolerates_missing_wallets `{RowChoice}
    (walletIds : list Z) (client : PoolClient) (db : Database) :
  (lock_available walletIds client db ->
   lockWalletsInOrder walletIds client db = (Ok (lockRows walletIds db), db))
  /\ (forall e, fst (lockWalletsInOrder walletIds client db) = Throw e ->
        e = Pg "55P03"
        /\ exists w, In w (lockRows walletIds db)
                     /\ In (Wallet.id w) (locked_by_others client))
  /\ (forall w, In w (lockRows walletIds db)
                <-> In w (wallets db) /\ In (Wallet.id w) walletIds
                    /\ Wallet.is_active w = true)
  /\ (exists ids, (List.length (lockRows ids Seed.db) < List.length ids)%nat
                  /\ lockWalletsInOrder ids (Seed.quiet 0) Seed.db
                     = (Ok (lockRows ids Seed.db), Seed.db))
  /\ (forall op uuid db',
        locked_by_others client = [] -> same_but_activity db db' ->
        fst (perform op uuid client db') = fst (perform op uuid client db)
        /\ ledger_entries (snd (perform op uuid client db'))
           = ledger_entries (snd (perform op uuid client db))).
Proof.
  split; [apply lockWalletsInOrder_available|].
  split; [apply lockWalletsInOrder_contended|].
  split; [apply lockRows_In|].
  split.
  - exists [6; 99]. split; [vm_compute; lia|].
    apply lockWalletsInOrder_available, lock_available_quiet.
  - intros op uuid db' Q R.
    destruct (respects_perform op uuid client Q db db' R) as [E (_ & _ & L & _)].
    now split.
Qed.

Lemma lock_step_tolerates_missing_wallets_witness :
  lockWalletsInOrder [6; 99] (Seed.quiet 1) Seed.db
  = (Ok (lockRows [6; 99] Seed.db), Seed.db)
  /\ lockOrder [6; 99] Seed.db = [6]
  /\ lockRows [6] Scenario.alice_deactivated = []
  /\ same_but_activity Seed.db Scenario.alice_deactivated
  /\ fst (perform (CreditOnly 6 1 1000 BONUS "bonus_001" None None) "T2"
            (Seed.quiet 1) Scenario.alice_deactivated) = Ok "T2".
Proof.
  assert (R : same_but_activity Seed.db Scenario.alice_deactivated)
    by (repeat split; reflexivity).
  destruct (lock_step_tolerates_missing_wallets [6; 99] (Seed.quiet 1) Seed.db)
    as (Free & _ & _ & _ & Same).
  split; [exact (Free (lock_available_quiet _ _ _))|].
  split; [reflexivity|]. split; [reflexivity|]. split; [exact R|].
  destruct (Same (CreditOnly 6 1 1000 BONUS "bonus_001" None None) "T2"
              Scenario.alice_deactivated eq_refl R) as [E _].
  rewrite E. vm_compute. reflexivity.
Defined.

(* ================================================================== *)
(** * Further properties of the engine *)

(** ** What a unit of work may change *)

Lemma only_appends_nothing (uuid : string) {A} (m : Tx A) :
  (forall db, snd (m db) = db) -> only_appends uuid m.
Proof.
  intros Hm db r db1 E. pose proof (Hm db) as S. rewrite E in S. simpl in S. subst db1.
  split; [repeat split|]. split; [lia|].
  exists []. split; [now rewrite app_nil_r|constructor].
Qed.

Lemma only_appends_bind (uuid : string) {A B} (m : Tx A) (k : A -> Tx B) :
  only_appends uuid m -> (forall a, only_appends uuid (k a)) ->
  only_appends uuid (bind m k).
Proof.
  intros Hm Hk db r db2. unfold bind.
  destruct (m db) as [[a|e] db1] eqn:E1; intros E2.
  - destruct (Hm _ _ _ E1) as ((A1 & W1 & V1) & S1 & more1 & L1 & F1).
    destruct (Hk a _ _ _ E2) as ((A2 & W2 & V2) & S2 & more2 & L2 & F2).
    split; [repeat split; congruence|]. split; [lia|].
    exists (more1 ++ more2). split; [now rewrite L2, L1, app_assoc|].
    apply Forall_app. now split.
  - injection E2 as <- <-. exact (Hm _ _ _ E1).
Qed.

Lemma only_appends_try_catch (uuid : string) {A} (m : Tx A) (h : Thrown -> Tx A) :
  only_appends uuid m -> (forall e, only_appends uuid (h e)) ->
  only_appends uuid (try_catch m h).
Proof.
  intros Hm Hh db r db2. unfold try_catch.
  destruct (m db) as [[a|e] db1] eqn:E1; intros E2.
  - injection E2 as <- <-. exact (Hm _ _ _ E1).
  - destruct (Hm _ _ _ E1) as ((A1 & W1 & V1) & S1 & more1 & L1 & F1).
    destruct (Hh e _ _ _ E2) as ((A2 & W2 & V2) & S2 & more2 & L2 & F2).
    split; [repeat split; congruence|]. split; [lia|].
    exists (more1 ++ more2). split; [now rewrite L2, L1, app_assoc|].
    apply Forall_app. now split.
Qed.

Lemma only_appends_insertLedgerEntry (uuid : string)
    (params : CreateLedgerEntryParams.t) (client : PoolClient) :
  CreateLedgerEntryParams.transactionId params = uuid ->
  only_appends uuid (insertLedgerEntry params client).
Proof.
  intros <- db r db1. unfold insertLedgerEntry.
  destruct (Number_text _) as [amount|];
  repeat match goal with
         | |- context [if ?b then _ else _] => destruct b
         end; intros E; injection E as <- <-; simpl;
    (split; [repeat split|]); (split; [lia|]);
    try (exists []; split; [now rewrite app_nil_r|constructor]).
  eexists. split; [reflexivity|]. repeat constructor.
Qed.

Lemma only_appends_withTransaction (uuid : string) {A}
    (callback : PoolClient -> Tx A) (client : PoolClient) :
  only_appends uuid (callback client) ->
  only_appends uuid (withTransaction callback client).
Proof.
  intros Hc db r db2. unfold withTransaction.
  destruct (callback client db) as [[a|e] db1] eqn:E1;
    destruct (Hc _ _ _ E1) as (S & Q & more & L & F).
  - destruct (commit_error client); intros E2; injection E2 as <- <-.
    + split; [repeat split|]. split; [exact Q|].
      exists []. split; [simpl; now rewrite app_nil_r|constructor].
    + split; [exact S|]. split; [exact Q|]. now exists more.
  - intros E2; injection E2 as <- <-.
    split; [repeat split|]. split; [exact Q|].
    exists []. split; [simpl; now rewrite app_nil_r|constructor].
Qed.

Lemma withTransaction_rolls_back {A} (callback : PoolClient -> Tx A)
    (client : PoolClient) (db db' : Database) (e : Thrown) :
  withTransaction callback client db = (Throw e, db') ->
  ledger_entries db' = ledger_entries db /\ same_other_tables db db'.
Proof.
  unfold withTransaction.
  destruct (callback client db) as [[a|e1] db1]; [destruct (commit_error client)|];
    intros E; try discriminate; injection E as <- <-; repeat split.
Qed.

Lemma only_appends_perform `{RowChoice} (op : WriteOperation) (uuid : string)
    (client : PoolClient) :
  only_appends uuid (perform op uuid client).
Proof.
  assert (Find : forall ref, only_appends uuid (findLedgerEntryByReferenceId ref))
    by (intros; now apply only_appends_nothing).
  assert (Lock : forall ids, only_appends uuid (lockWalletsInOrder ids client)).
  { intros. apply only_appends_nothing. intros db.
    now rewrite lockWalletsInOrder_state. }
  assert (Calc : forall w a, only_appends uuid (calculateBalance w a client)).
  { intros. apply only_appends_nothing. intros db.
    now rewrite calculateBalance_state. }
  assert (Thr : forall A e, only_appends uuid (@throw A e))
    by (intros; now apply only_appends_nothing).
  assert (Ret : forall A (a : A), only_appends uuid (ret a))
    by (intros; now apply only_appends_nothing).
  destruct op; unfold perform; (apply only_appends_bind; [|intros; apply Ret]).
  - unfold createTransaction. apply only_appends_withTransaction.
    apply only_appends_bind; [apply Find|]. intros [existing|]; [apply Thr|].
    apply only_appends_bind; [apply only_appends_try_catch; [apply Lock|intros; apply Thr]|].
    intros _. apply only_appends_bind; [apply Calc|]. intros b.
    destruct (b <? _); [apply Thr|].
    apply only_appends_bind; [now apply only_appends_insertLedgerEntry|]. intros d.
    apply only_appends_bind; [now apply only_appends_insertLedgerEntry|]. intros c.
    apply only_appends_bind; [apply Calc|]. intros nb. apply Ret.
  - unfold createCreditOnlyTransaction. apply only_appends_withTransaction.
    apply only_appends_bind; [apply Find|]. intros [existing|]; [apply Thr|].
    apply only_appends_bind; [apply Lock|].
    intros _. apply only_appends_bind; [now apply only_appends_insertLedgerEntry|].
    intros d. apply only_appends_bind; [apply Calc|]. intros nb. apply Ret.
  - unfold createDebitOnlyTransaction. apply only_appends_withTransaction.
    apply only_appends_bind; [apply Find|]. intros [existing|]; [apply Thr|].
    apply only_appends_bind; [apply Lock|].
    intros _. apply only_appends_bind; [apply Calc|]. intros b.
    destruct (b <? _); [apply Thr|].
    apply only_appends_bind; [now apply only_appends_insertLedgerEntry|].
    intros d. apply only_appends_bind; [apply Calc|]. intros nb. apply Ret.
Qed.

Lemma perform_Throw `{RowChoice} (op : WriteOperation) (uuid : string)
    (client : PoolClient) (db db' : Database) (e : Thrown) :
  perform op uuid client db = (Throw e, db') ->
  ledger_entries db' = ledger_entries db.
Proof.
  destruct op; unfold perform, bind, ret.
  - destruct (createTransaction _ _ _ _) as [[r|e1] db1] eqn:E; [discriminate|].
    intros [= <- <-].
    unfold createTransaction, createCreditOnlyTransaction, createDebitOnlyTransaction in E.
    now apply withTransaction_rolls_back in E.
  - destruct (createCreditOnlyTransaction _ _ _ _ _ _ _ _ _ _) as [[r|e1] db1] eqn:E;
      [discriminate|].
    intros [= <- <-].
    unfold createTransaction, createCreditOnlyTransaction, createDebitOnlyTransaction in E.
    now apply withTransaction_rolls_back in E.
  - destruct (createDebitOnlyTransaction _ _ _ _ _ _ _ _ _ _) as [[r|e1] db1] eqn:E;
      [discriminate|].
    intros [= <- <-].
    unfold createTransaction, createCreditOnlyTransaction, createDebitOnlyTransaction in E.
    now apply withTransaction_rolls_back in E.
Qed.

Lemma perform_Ok_count `{RowChoice} (op : WriteOperation) (uuid : string)
    (client : PoolClient) (db db' : Database) (T : string) :
  perform op uuid client db = (Ok T, db') ->
  T = uuid
  /\ exists more, ledger_entries db' = ledger_entries db ++ more
                  /\ List.length more = entries_written op.
Proof.
  destruct op; unfold perform, bind, ret.
  - destruct (createTransaction _ _ _ _) as [[r|e1] db1] eqn:E; [|discriminate].
    intros [= <- <-]. apply createTransaction_Ok in E as (_ & T & _ & _ & L & _).
    split; [exact T|]. eexists. split; [exact L|reflexivity].
  - destruct (createCreditOnlyTransaction _ _ _ _ _ _ _ _ _ _) as [[r|e1] db1] eqn:E;
      [|discriminate].
    intros [= <- <-]. apply createCreditOnlyTransaction_Ok in E as (_ & T & _ & L & _).
    split; [exact T|]. eexists. split; [exact L|reflexivity].
  - destruct (createDebitOnlyTransaction _ _ _ _ _ _ _ _ _ _) as [[r|e1] db1] eqn:E;
      [|discriminate].
    intros [= <- <-]. apply createDebitOnlyTransaction_Ok in E as (_ & T & _ & L & _).
    split; [exact T|]. eexists. split; [exact L|reflexivity].
Qed.

(** X1. Whatever its outcome, a write operation (transfer, credit-only or
    debit-only posting) leaves the asset types, the wallets and the balance
    view as they were, never takes back a sequence value, and changes the
    ledger only by appending entries that carry its own transaction id: two
    when a transfer commits, one when a single-sided posting commits, none
    when the operation throws. *)
Theorem write_operations_only_append `{RowChoice}
    (op : WriteOperation) (uuid : string) (client : PoolClient) (db : Database) :
  let outcome := fst (perform op uuid client db) in
  let db' := snd (perform op uuid client db) in
  same_other_tables db db'
  /\ ledger_entries_id_seq db <= ledger_entries_id_seq db'
  /\ exists more,
       ledger_entries db' = ledger_entries db ++ more
       /\ Forall (fun e => LedgerEntry.transaction_id e = uuid) more
       /\ match outcome with
          | Ok T => T = uuid /\ List.length more = entries_written op
          | Throw _ => more = []
          end.
Proof.
  destruct (perform op uuid client db) as [r db'] eqn:E. simpl.
  destruct (only_appends_perform op uuid client _ _ _ E) as (S & Q & more & L & F).
  split; [exact S|]. split; [exact Q|].
  exists more. split; [exact L|]. split; [exact F|].
  destruct r as [T|e].
  - apply perform_Ok_count in E as (-> & more' & L' & N).
    split; [reflexivity|].
    rewrite L in L'. apply app_inv_head in L'. now subst more'.
  - apply perform_Throw in E. rewrite L in E.
    rewrite <- (app_nil_r (ledger_entries db)) in E at 2.
    now apply app_inv_head in E.
Qed.

(** ** The table's constraints *)

Lemma insertLedgerEntry_Ok_checks (params : CreateLedgerEntryParams.t)
    (client : PoolClient) (db db1 : Database) (row : LedgerEntry.t) :
  insertLedgerEntry params client db = (Ok row, db1) ->
  (String.length (CreateLedgerEntryParams.referenceId params) <= 100)%nat
  /\ (forall e, In e (ledger_entries db) ->
        LedgerEntry.reference_id e = CreateLedgerEntryParams.referenceId params ->
        LedgerEntry.entry_type e <> CreateLedgerEntryParams.entryType params)
  /\ In (CreateLedgerEntryParams.walletId params) (map Wallet.id (wallets db))
  /\ In (CreateLedgerEntryParams.assetTypeId params) (map AssetType.id (asset_types db)).
Proof.
  unfold insertLedgerEntry. intros E.
  destruct (Number_text _) as [amount|]; [|discriminate].
  destruct (negb (in_bigint _)); [discriminate|].
  destruct (Nat.ltb_spec 100 (String.length (CreateLedgerEntryParams.referenceId params)));
    [discriminate|].
  destruct (_ <=? 0); [discriminate|].
  destruct (existsb _ (ledger_entries db)) eqn:U; [discriminate|].
  destruct (existsb _ (wallets db)) eqn:W; [|discriminate].
  destruct (existsb _ (asset_types db)) eqn:A; [|discriminate].
  clear E. split; [lia|]. split; [|split].
  - intros e Hin Hr Ht.
    assert (existsb (fun e => String.eqb (LedgerEntry.reference_id e)
                                (CreateLedgerEntryParams.referenceId params)
                              && EntryType_eqb (LedgerEntry.entry_type e)
                                   (CreateLedgerEntryParams.entryType params))
                    (ledger_entries db) = true); [|congruence].
    apply existsb_exists. exists e. split; [exact Hin|].
    rewrite Hr, Ht, String.eqb_refl. now destruct (CreateLedgerEntryParams.entryType params).
  - apply existsb_exists in W as (w & Hw & Ew). apply Z.eqb_eq in Ew.
    rewrite <- Ew. now apply in_map.
  - apply existsb_exists in A as (a & Ha & Ea). apply Z.eqb_eq in Ea.
    rewrite <- Ea. now apply in_map.
Qed.

Lemma insertLedgerEntry_Ok_type (params : CreateLedgerEntryParams.t)
    (client : PoolClient) (db db1 : Database) (row : LedgerEntry.t) :
  insertLedgerEntry params client db = (Ok row, db1) ->
  LedgerEntry.transaction_type row = CreateLedgerEntryParams.transactionType params.
Proof.
  unfold insertLedgerEntry. intros E.
  destruct (Number_text _) as [amount|]; [|discriminate].
  repeat match type of E with
         | context [if ?b then _ else _] => destruct b
         end; try discriminate.
  now injection E as <- _.
Qed.

Lemma insertLedgerEntry_Throw (params : CreateLedgerEntryParams.t)
    (client : PoolClient) (db db1 : Database) (e : Thrown) :
  insertLedgerEntry params client db = (Throw e, db1) ->
  ledger_entries db1 = ledger_entries db
  /\ same_other_tables db db1
  /\ ledger_entries_id_seq db <= ledger_entries_id_seq db1.
Proof.
  unfold insertLedgerEntry. intros E.
  destruct (Number_text _) as [amount|];
  repeat match type of E with
         | context [if ?b then _ else _] => destruct b
         end; try discriminate; injection E as <- <-; simpl;
    repeat split; lia.
Qed.

Lemma ledger_constraints_seq (db db1 : Database) :
  ledger_entries db1 = ledger_entries db ->
  same_other_tables db db1 ->
  ledger_entries_id_seq db <= ledger_entries_id_seq db1 ->
  ledger_constraints db -> ledger_constraints db1.
Proof.
  intros L (A & W & _) Q (Pk & Below & Uq & Amt & Fk).
  unfold ledger_constraints. rewrite L, A, W.
  repeat split; try assumption.
  eapply Forall_impl; [|exact Below]. simpl. intros. lia.
Qed.

Lemma NoDup_snoc {K} (l : list K) (x : K) : NoDup l -> ~ In x l -> NoDup (l ++ [x]).
Proof.
  intros Hl Hx. apply NoDup_app; [exact Hl|repeat constructor; intros []|].
  intros y Hy [<-|[]]. contradiction.
Qed.

Lemma ledger_constraints_insertLedgerEntry (params : CreateLedgerEntryParams.t)
    (client : PoolClient) (db db1 : Database) (r : result LedgerEntry.t) :
  insertLedgerEntry params client db = (r, db1) ->
  ledger_constraints db -> ledger_constraints db1.
Proof.
  intros E C. destruct r as [row|e].
  - pose proof (insertLedgerEntry_Ok_checks _ _ _ _ _ E) as (_ & Uq' & Hw & Ha).
    apply insertLedgerEntry_Ok in E
      as ((_ & Rw & Ra & Rt & Rm & Rr) & Rid & _ & L & Q & (A & W & _) & Amt').
    destruct C as (Pk & Below & Uq & Amt & Fk).
    unfold ledger_constraints. rewrite L, Q, A, W, !map_app. simpl.
    repeat split.
    + apply NoDup_snoc; [exact Pk|]. intros Hin.
      apply in_map_iff in Hin as (e & Ee & He).
      rewrite Forall_forall in Below. specialize (Below e He). lia.
    + apply Forall_app. split.
      * eapply Forall_impl; [|exact Below]. simpl. intros. lia.
      * repeat constructor. lia.
    + apply NoDup_snoc; [exact Uq|]. intros Hin.
      apply in_map_iff in Hin as (e & Ee & He). injection Ee as Er Et.
      apply (Uq' e He); congruence.
    + apply Forall_app. split; [exact Amt|]. repeat constructor; lia.
    + apply Forall_app. split; [exact Fk|]. repeat constructor; congruence.
  - apply insertLedgerEntry_Throw in E as (L & S & Q).
    now apply (ledger_constraints_seq db).
Qed.


Lemma keeps_constraints_readonly {A} (m : Tx A) :
  (forall db, snd (m db) = db) -> keeps_constraints m.
Proof.
  intros Hm db r db1 E C. pose proof (Hm db) as S. rewrite E in S. simpl in S. now subst.
Qed.

Lemma keeps_constraints_bind {A B} (m : Tx A) (k : A -> Tx B) :
  keeps_constraints m -> (forall a, keeps_constraints (k a)) ->
  keeps_constraints (bind m k).
Proof.
  intros Hm Hk db r db2. unfold bind.
  destruct (m db) as [[a|e] db1] eqn:E1; intros E2 C.
  - eapply Hk; [exact E2|]. eapply Hm; eassumption.
  - injection E2 as <- <-. eapply Hm; eassumption.
Qed.

Lemma keeps_constraints_try_catch {A} (m : Tx A) (h : Thrown -> Tx A) :
  keeps_constraints m -> (forall e, keeps_constraints (h e)) ->
  keeps_constraints (try_catch m h).
Proof.
  intros Hm Hh db r db2. unfold try_catch.
  destruct (m db) as [[a|e] db1] eqn:E1; intros E2 C.
  - injection E2 as <- <-. eapply Hm; eassumption.
  - eapply Hh; [exact E2|]. eapply Hm; eassumption.
Qed.

Lemma keeps_constraints_withTransaction (uuid : string) {A}
    (callback : PoolClient -> Tx A) (client : PoolClient) :
  only_appends uuid (callback client) ->
  keeps_constraints (callback client) ->
  keeps_constraints (withTransaction callback client).
Proof.
  intros Ha Hk db r db2. unfold withTransaction.
  destruct (callback client db) as [[a|e] db1] eqn:E1; intros E2 C;
    destruct (Ha _ _ _ E1) as (_ & Q & _).
  - destruct (commit_error client); injection E2 as <- <-.
    + apply (ledger_constraints_seq db); try assumption; repeat split.
    + eapply Hk; eassumption.
  - injection E2 as <- <-.
    apply (ledger_constraints_seq db); try assumption; repeat split.
Qed.

Lemma only_appends_callbacks `{RowChoice} (uuid : string) (client : PoolClient) :
  (forall ref, only_appends uuid (findLedgerEntryByReferenceId ref))
  /\ (forall ids, only_appends uuid (lockWalletsInOrder ids client))
  /\ (forall w a, only_appends uuid (calculateBalance w a client))
  /\ (forall A e, only_appends uuid (@throw A e))
  /\ (forall A (a : A), only_appends uuid (ret a)).
Proof.
  split; [|split; [|split; [|split]]];
    intros; apply only_appends_nothing; intros db; try reflexivity.
  - now rewrite lockWalletsInOrder_state.
  - now rewrite calculateBalance_state.
Qed.

Lemma keeps_constraints_perform `{RowChoice} (op : WriteOperation) (uuid : string)
    (client : PoolClient) :
  keeps_constraints (perform op uuid client).
Proof.
  destruct (only_appends_callbacks uuid client) as (AFind & ALock & ACalc & AThr & ARet).
  assert (Find : forall ref, keeps_constraints (findLedgerEntryByReferenceId ref))
    by (intros; now apply keeps_constraints_readonly).
  assert (Lock : forall ids, keeps_constraints (lockWalletsInOrder ids client)).
  { intros. apply keeps_constraints_readonly. intros db.
    now rewrite lockWalletsInOrder_state. }
  assert (Calc : forall w a, keeps_constraints (calculateBalance w a client)).
  { intros. apply keeps_constraints_readonly. intros db.
    now rewrite calculateBalance_state. }
  assert (Thr : forall A e, keeps_constraints (@throw A e))
    by (intros; now apply keeps_constraints_readonly).
  assert (Ret : forall A (a : A), keeps_constraints (ret a))
    by (intros; now apply keeps_constraints_readonly).
  assert (Ins : forall p, keeps_constraints (insertLedgerEntry p client))
    by (intros p db r db1; apply ledger_constraints_insertLedgerEntry).
  destruct op; unfold perform; (apply keeps_constraints_bind; [|intros; apply Ret]).
  - unfold createTransaction. apply (keeps_constraints_withTransaction uuid).
    + apply only_appends_bind; [apply AFind|]. intros [existing|]; [apply AThr|].
      apply only_appends_bind;
        [apply only_appends_try_catch; [apply ALock|intros; apply AThr]|].
      intros _. apply only_appends_bind; [apply ACalc|]. intros b.
      destruct (b <? _); [apply AThr|].
      apply only_appends_bind; [now apply only_appends_insertLedgerEntry|]. intros d.
      apply only_appends_bind; [now apply only_appends_insertLedgerEntry|]. intros c.
      apply only_appends_bind; [apply ACalc|]. intros nb. apply ARet.
    + apply keeps_constraints_bind; [apply Find|]. intros [existing|]; [apply Thr|].
      apply keeps_constraints_bind;
        [apply keeps_constraints_try_catch; [apply Lock|intros; apply Thr]|].
      intros _. apply keeps_constraints_bind; [apply Calc|]. intros b.
      destruct (b <? _); [apply Thr|].
      apply keeps_constraints_bind; [apply Ins|]. intros d.
      apply keeps_constraints_bind; [apply Ins|]. intros c.
      apply keeps_constraints_bind; [apply Calc|]. intros nb. apply Ret.
  - unfold createCreditOnlyTransaction. apply (keeps_constraints_withTransaction uuid).
    + apply only_appends_bind; [apply AFind|]. intros [existing|]; [apply AThr|].
      apply only_appends_bind; [apply ALock|].
      intros _. apply only_appends_bind; [now apply only_appends_insertLedgerEntry|].
      intros d. apply only_appends_bind; [apply ACalc|]. intros nb. apply ARet.
    + apply keeps_constraints_bind; [apply Find|]. intros [existing|]; [apply Thr|].
      apply keeps_constraints_bind; [apply Lock|].
      intros _. apply keeps_constraints_bind; [apply Ins|].
      intros d. apply keeps_constraints_bind; [apply Calc|]. intros nb. apply Ret.
  - unfold createDebitOnlyTransaction. apply (keeps_constraints_withTransaction uuid).
    + apply only_appends_bind; [apply AFind|]. intros [existing|]; [apply AThr|].
      apply only_appends_bind; [apply ALock|].
      intros _. apply only_appends_bind; [apply ACalc|]. intros b.
      destruct (b <? _); [apply AThr|].
      apply only_appends_bind; [now apply only_appends_insertLedgerEntry|].
      intros d. apply only_appends_bind; [apply ACalc|]. intros nb. apply ARet.
    + apply keeps_constraints_bind; [apply Find|]. intros [existing|]; [apply Thr|].
      apply keeps_constraints_bind; [apply Lock|].
      intros _. apply keeps_constraints_bind; [apply Calc|]. intros b.
      destruct (b <? _); [apply Thr|].
      apply keeps_constraints_bind; [apply Ins|].
      intros d. apply keeps_constraints_bind; [apply Calc|]. intros nb. apply Ret.
Qed.

(** X2. The constraints of the table [ledger_entries] (primary key, ids
    below the sequence, unique (reference_id, entry_type), positive BIGINT
    amounts, both foreign keys) hold after a write operation whenever they
    held before it, whatever its outcome. *)
Theorem write_operations_keep_constraints `{RowChoice}
    (op : WriteOperation) (uuid : string) (client : PoolClient) (db : Database) :
  ledger_constraints db ->
  ledger_constraints (snd (perform op uuid client db)).
Proof.
  intros C. destruct (perform op uuid client db) as [r db'] eqn:E.
  exact (keeps_constraints_perform op uuid client _ _ _ E C).
Qed.

(** ** Exact balances *)

Lemma total_app (l l' : list Z) : total (l ++ l') = total l + total l'.
Proof. unfold total. induction l; simpl; lia. Qed.

Lemma balance_of_signed (walletId assetTypeId : Z) (entries : list LedgerEntry.t) :
  balance_of walletId assetTypeId entries
  = total (map signed (filter (for_pair walletId assetTypeId) entries)).
Proof. unfold balance_of. now rewrite total_signed. Qed.

Lemma balance_of_app (walletId assetTypeId : Z) (l more : list LedgerEntry.t) :
  balance_of walletId assetTypeId (l ++ more)
  = balance_of walletId assetTypeId l + balance_of walletId assetTypeId more.
Proof. now rewrite !balance_of_signed, filter_app, map_app, total_app. Qed.

Lemma balance_of_entry (walletId assetTypeId : Z) (e : LedgerEntry.t)
    (uuid : string) (w a : Z) (t : EntryType) (amount : Z) (ref : string) :
  entry_is e uuid w a t amount ref ->
  balance_of walletId assetTypeId [e]
  = if for_pair_ids w a walletId assetTypeId
    then match t with CREDIT => written amount | DEBIT => - written amount end
    else 0.
Proof.
  intros (_ & W & A & T & M & _).
  rewrite balance_of_signed. unfold for_pair, for_pair_ids, signed. simpl.
  rewrite W, A. destruct ((w =? walletId) && (a =? assetTypeId)); simpl.
  - rewrite T, M. unfold total. simpl. destruct t; lia.
  - reflexivity.
Qed.

Lemma calculateBalance_ledger_balance (walletId assetTypeId : Z) (client : PoolClient)
    (db : Database) :
  fst (calculateBalance walletId assetTypeId client db)
  = if in_bigint (ledger_balance walletId assetTypeId db)
    then Ok (Number_of_Z (ledger_balance walletId assetTypeId db))
    else Throw (Pg "22003").
Proof.
  unfold calculateBalance, ledger_balance.
  rewrite COALESCE_SUM, <- balance_of_signed. now destruct (in_bigint _).
Qed.

Lemma calculateBalance_safe (walletId assetTypeId : Z) (client : PoolClient)
    (db : Database) :
  - 2 ^ 53 <= ledger_balance walletId assetTypeId db <= 2 ^ 53 ->
  fst (calculateBalance walletId assetTypeId client db)
  = Ok (ledger_balance walletId assetTypeId db).
Proof.
  intros Hr. now rewrite calculateBalance_ledger_balance, in_bigint_safe, Number_of_Z_exact.
Qed.

Lemma perform_balance_change `{RowChoice} (op : WriteOperation) (uuid : string)
    (client : PoolClient) (db db' : Database) (T : string) :
  perform op uuid client db = (Ok T, db') ->
  forall walletId assetTypeId,
    ledger_balance walletId assetTypeId db'
    = ledger_balance walletId assetTypeId db + balance_change op walletId assetTypeId.
Proof.
  intros E w a. unfold ledger_balance.
  destruct op; unfold perform, bind, ret in E; simpl.
  - destruct (createTransaction _ _ _ _) as [[r|e1] db1] eqn:C; [|discriminate].
    injection E as <- <-. apply createTransaction_Ok in C as (_ & _ & Hd & Hc & L & _).
    rewrite L, balance_of_app.
    change [TransactionResult.debitEntry r; TransactionResult.creditEntry r]
      with ([TransactionResult.debitEntry r] ++ [TransactionResult.creditEntry r]).
    rewrite balance_of_app, (balance_of_entry _ _ _ _ _ _ _ _ _ Hd),
      (balance_of_entry _ _ _ _ _ _ _ _ _ Hc).
    repeat destruct (for_pair_ids _ _ _ _); lia.
  - destruct (createCreditOnlyTransaction _ _ _ _ _ _ _ _ _ _) as [[r|e1] db1] eqn:C;
      [|discriminate].
    injection E as <- <-. apply createCreditOnlyTransaction_Ok in C as (_ & _ & He & L & _).
    rewrite L, balance_of_app, (balance_of_entry _ _ _ _ _ _ _ _ _ He).
    destruct (for_pair_ids _ _ _ _); lia.
  - destruct (createDebitOnlyTransaction _ _ _ _ _ _ _ _ _ _) as [[r|e1] db1] eqn:C;
      [|discriminate].
    injection E as <- <-. apply createDebitOnlyTransaction_Ok in C as (_ & _ & He & L & _).
    rewrite L, balance_of_app, (balance_of_entry _ _ _ _ _ _ _ _ _ He).
    destruct (for_pair_ids _ _ _ _); lia.
Qed.

(** X3. A committed write operation moves the exact ledger balance of
    every (wallet, asset) pair by the operation's amount as the store read
    it ([written]: the amount itself up to 2^53, above that the integer its
    decimal text denotes): minus that for the pair it debits, plus that for
    the pair it credits, nothing for any other pair and nothing in total for
    a transfer from a wallet to itself; an operation that throws moves no
    balance. *)
Theorem balances_move_by_the_amount `{RowChoice}
    (op : WriteOperation) (uuid : string) (client : PoolClient) (db : Database)
    (walletId assetTypeId : Z) :
  ledger_balance walletId assetTypeId (snd (perform op uuid client db))
  = ledger_balance walletId assetTypeId db
    + match fst (perform op uuid client db) with
      | Ok _ => balance_change op walletId assetTypeId
      | Throw _ => 0
      end
  /\ (- 2 ^ 53 <= amount_of op <= 2 ^ 53 -> written (amount_of op) = amount_of op).
Proof.
  split; [|apply written_exact].
  destruct (perform op uuid client db) as [[T|e] db'] eqn:E; simpl.
  - now apply (perform_balance_change op uuid client db db' T).
  - apply perform_Throw in E. unfold ledger_balance. rewrite E. lia.
Qed.

Lemma perform_Ok_funds `{RowChoice} (op : WriteOperation) (uuid : string)
    (client : PoolClient) (db db' : Database) (T : string)
    (walletId assetTypeId amount : Z) :
  sufficiency_check op = Some (walletId, assetTypeId, amount) ->
  perform op uuid client db = (Ok T, db') ->
  0 < amount
  /\ exists b, fst (calculateBalance walletId assetTypeId client db) = Ok b /\ amount <= b.
Proof.
  destruct op as [params|? ? ? ? ? ? ?|w a amt tt ref descr meta];
    simpl; intros S; inversion S; subst; clear S; unfold perform, bind, ret.
  - destruct (createTransaction _ _ _ _) as [[r|e1] db1] eqn:C; [|discriminate].
    intros _. unfold createTransaction, withTransaction, bind, try_catch, throw, ret in C.
    destruct (findLedgerEntryByReferenceId _ db) as [[[existing|]|e0] db0] eqn:F;
      try discriminate.
    assert (db0 = db) as -> by (unfold findLedgerEntryByReferenceId in F; congruence).
    rewrite lockWalletsInOrder_state in C.
    destruct (fst (lockWalletsInOrder _ client db)) as [rows|e2]; try discriminate.
    rewrite calculateBalance_state in C.
    destruct (fst (calculateBalance _ _ client db)) as [b|e2] eqn:B; try discriminate.
    destruct (Z.ltb_spec b (TransactionParams.amount params)); try discriminate.
    destruct (insertLedgerEntry _ client db) as [[d|e3] db2] eqn:I1; try discriminate.
    apply insertLedgerEntry_Ok in I1 as (_ & _ & _ & _ & _ & _ & Amt). simpl in Amt.
    split; [lia|]. now exists b.
  - destruct (createDebitOnlyTransaction _ _ _ _ _ _ _ _ _ _) as [[r|e1] db1] eqn:C;
      [|discriminate].
    intros _. unfold createDebitOnlyTransaction, withTransaction, bind, throw, ret in C.
    destruct (findLedgerEntryByReferenceId _ db) as [[[existing|]|e0] db0] eqn:F;
      try discriminate.
    assert (db0 = db) as -> by (unfold findLedgerEntryByReferenceId in F; congruence).
    rewrite lockWalletsInOrder_state in C.
    destruct (fst (lockWalletsInOrder _ client db)) as [rows|e2]; try discriminate.
    rewrite calculateBalance_state in C.
    destruct (fst (calculateBalance _ _ client db)) as [b|e2] eqn:B; try discriminate.
    destruct (Z.ltb_spec b amount); try discriminate.
    destruct (insertLedgerEntry _ client db) as [[d|e3] db2] eqn:I1; try discriminate.
    apply insertLedgerEntry_Ok in I1 as (_ & _ & _ & _ & _ & _ & Amt). simpl in Amt.
    split; [lia|]. now exists b.
Qed.

(** X4. When an operation that checks sufficiency (a transfer or a
    debit-only posting) commits and the debited pair's balance before it is
    one a [number] holds exactly, the amount is positive and at most that
    balance, so the pair's balance stays non-negative. *)
Theorem committed_debit_is_covered `{RowChoice}
    (op : WriteOperation) (uuid : string) (client : PoolClient) (db db' : Database)
    (T : string) (walletId assetTypeId amount : Z) :
  sufficiency_check op = Some (walletId, assetTypeId, amount) ->
  perform op uuid client db = (Ok T, db') ->
  - 2 ^ 53 <= ledger_balance walletId assetTypeId db <= 2 ^ 53 ->
  0 < amount <= ledger_balance walletId assetTypeId db
  /\ 0 <= ledger_balance walletId assetTypeId db'.
Proof.
  intros S E Hr.
  destruct (perform_Ok_funds _ _ _ _ _ _ _ _ _ S E) as (Hpos & b & B & Hb).
  rewrite (calculateBalance_safe _ _ _ _ Hr) in B. injection B as <-.
  split; [lia|].
  assert (W : written amount = amount) by (apply written_exact; lia).
  rewrite (perform_balance_change _ _ _ _ _ _ E).
  destruct op as [params|? ? ? ? ? ? ?|w a amt tt ref descr meta];
    simpl in S; inversion S; subst; clear S; simpl;
    unfold for_pair_ids; rewrite ?Z.eqb_refl, W; simpl;
    repeat match goal with |- context [if ?c then _ else _] => destruct c end; lia.
Qed.

(** X5. A transfer never changes the supply of any asset type (credits
    minus debits over all wallets), whether it commits or throws. *)
Theorem transfer_conserves_supply `{RowChoice}
    (params : TransactionParams.t) (uuid : string) (client : PoolClient)
    (db : Database) (assetTypeId : Z) :
  asset_supply assetTypeId (snd (createTransaction params uuid client db))
  = asset_supply assetTypeId db.
Proof.
  destruct (createTransaction params uuid client db) as [[r|e] db'] eqn:E; simpl.
  - apply createTransaction_Ok in E as (_ & _ & Hd & Hc & L & _).
    destruct Hd as (_ & _ & Ad & Ed & Md & _), Hc as (_ & _ & Ac & Ec & Mc & _).
    unfold asset_supply. rewrite L, filter_app, map_app, total_app. simpl.
    rewrite Ad, Ac.
    destruct (TransactionParams.assetTypeId params =? assetTypeId); simpl;
      unfold total, signed; simpl; rewrite ?Ed, ?Ec, ?Md, ?Mc; lia.
  - unfold createTransaction in E. apply withTransaction_rolls_back in E as [L _].
    unfold asset_supply. now rewrite L.
Qed.

(** ** What the responses report *)

Lemma findWalletByUserId_Ok (userId : string) (db db' : Database) (w : Wallet.t) :
  findWalletByUserId userId db = (Ok w, db') ->
  db' = db /\ In w (wallets db) /\ Wallet.user_id w = Some userId
  /\ Wallet.is_active w = true.
Proof.
  unfold findWalletByUserId.
  destruct (filter _ (wallets db)) as [|w0 rest] eqn:F; [discriminate|].
  intros [= <- <-]. split; [reflexivity|].
  assert (Hin : In w0 (w0 :: rest)) by now left.
  rewrite <- F in Hin. apply filter_In in Hin as [Hin C].
  apply andb_true_iff in C as [U A].
  destruct (Wallet.user_id w0) as [u|]; [|discriminate].
  apply String.eqb_eq in U. subst u. auto.
Qed.

Lemma findAssetTypeByCode_Ok (code : string) (db db' : Database) (a : AssetType.t) :
  findAssetTypeByCode code db = (Ok a, db') ->
  db' = db /\ In a (asset_types db) /\ AssetType.code a = code
  /\ AssetType.is_active a = true.
Proof.
  unfold findAssetTypeByCode.
  destruct (filter _ (asset_types db)) as [|a0 rest] eqn:F; [discriminate|].
  intros [= <- <-]. split; [reflexivity|].
  assert (Hin : In a0 (a0 :: rest)) by now left.
  rewrite <- F in Hin. apply filter_In in Hin as [Hin C].
  apply andb_true_iff in C as [U A]. apply String.eqb_eq in U. auto.
Qed.

(** X6. A [bonus] that succeeds credited an active wallet of the
    request's user in an active asset type of the request's code: the
    response carries the generated transaction id; the pair's ledger balance
    rose by the amount as the store read it, which is the amount itself up
    to 2^53; and the reported balance is the new ledger balance whenever
    that is one a [number] holds exactly. *)
Theorem bonus_reports_the_new_balance `{RowChoice}
    (request : BonusRequest.t) (uuid : string) (client : PoolClient)
    (db db' : Database) (response : TransactionResponse.t) :
  bonus request uuid client db = (Ok response, db') ->
  exists w a,
    In w (wallets db) /\ Wallet.is_active w = true
    /\ Wallet.user_id w = Some (BonusRequest.user_id request)
    /\ In a (asset_types db) /\ AssetType.is_active a = true
    /\ AssetType.code a = BonusRequest.asset_code request
    /\ TransactionResponse.transaction_id response = uuid
    /\ 0 < BonusRequest.amount request
    /\ ledger_balance (Wallet.id w) (AssetType.id a) db'
       = ledger_balance (Wallet.id w) (AssetType.id a) db
         + written (BonusRequest.amount request)
    /\ (BonusRequest.amount request <= 2 ^ 53 ->
        ledger_balance (Wallet.id w) (AssetType.id a) db'
        = ledger_balance (Wallet.id w) (AssetType.id a) db + BonusRequest.amount request)
    /\ (- 2 ^ 53 <= ledger_balance (Wallet.id w) (AssetType.id a) db' <= 2 ^ 53 ->
        TransactionResponse.balance response
        = ledger_balance (Wallet.id w) (AssetType.id a) db').
Proof.
  unfold bonus.
  destruct (Z.leb_spec (BonusRequest.amount request) 0) as [|Pos]; [discriminate|].
  unfold bind, ret.
  destruct (findWalletByUserId _ db) as [[w|e1] db1] eqn:F1; [|discriminate].
  apply findWalletByUserId_Ok in F1 as (-> & Hw & Uw & Aw).
  destruct (findAssetTypeByCode _ db) as [[a|e2] db2] eqn:F2; [|discriminate].
  apply findAssetTypeByCode_Ok in F2 as (-> & Ha & Ca & Aa).
  destruct (createCreditOnlyTransaction _ _ _ _ _ _ _ _ _ _) as [[r|e3] db3] eqn:C;
    [|discriminate].
  intros [= <- <-]. simpl.
  apply createCreditOnlyTransaction_Ok in C as (_ & T & He & L & _ & B).
  assert (Moved : ledger_balance (Wallet.id w) (AssetType.id a) db3
                  = ledger_balance (Wallet.id w) (AssetType.id a) db
                    + written (BonusRequest.amount request)).
  { unfold ledger_balance.
    rewrite L, balance_of_app, (balance_of_entry _ _ _ _ _ _ _ _ _ He).
    unfold for_pair_ids. now rewrite !Z.eqb_refl. }
  exists w, a.
  split; [exact Hw|]. split; [exact Aw|]. split; [exact Uw|].
  split; [exact Ha|]. split; [exact Aa|]. split; [exact Ca|].
  split; [exact T|]. split; [exact Pos|]. split; [exact Moved|]. split.
  - intros Small. rewrite Moved, written_exact; [reflexivity|lia].
  - intros Hr. rewrite (calculateBalance_safe _ _ _ _ Hr) in B. now injection B.
Qed.

(** X7. The balance that [spend] reports does not depend on the spend:
    two successful requests of the same user and asset code made on the same
    store report the same balance, whatever their amounts, and the balance
    view is what it was before. *)
Theorem spend_balance_ignores_the_spend `{RowChoice}
    (request request' : SpendRequest.t) (uuid uuid' : string)
    (client client' : PoolClient) (db db1 db2 : Database)
    (response response' : TransactionResponse.t) :
  SpendRequest.user_id request' = SpendRequest.user_id request ->
  SpendRequest.asset_code request' = SpendRequest.asset_code request ->
  spend request uuid client db = (Ok response, db1) ->
  spend request' uuid' client' db = (Ok response', db2) ->
  TransactionResponse.balance response' = TransactionResponse.balance response
  /\ wallet_balances db1 = wallet_balances db.
Proof.
  intros U A E E'.
  apply spend_reports_view_balance in E as (V & balances & G & B).
  apply spend_reports_view_balance in E' as (_ & balances' & G' & B').
  rewrite U, A, G in G'. injection G' as <-.
  split; [congruence|exact V].
Qed.

(** ** The materialized view *)

Lemma wallet_balances_query_In (db : Database) (b : WalletBalance.t) :
  In b (wallet_balances_query db)
  <-> exists w a,
        In w (wallets db) /\ Wallet.is_active w = true
        /\ In a (asset_types db) /\ AssetType.is_active a = true
        /\ b = {| WalletBalance.wallet_id := Wallet.id w;
                  WalletBalance.user_id := Wallet.user_id w;
                  WalletBalance.display_name := Wallet.display_name w;
                  WalletBalance.asset_type_id := AssetType.id a;
                  WalletBalance.asset_code := AssetType.code a;
                  WalletBalance.asset_name := AssetType.name a;
                  WalletBalance.balance := ledger_balance (Wallet.id w) (AssetType.id a) db;
                  WalletBalance.last_transaction_at :=
                    MAX (map LedgerEntry.created_at
                             (entries_for (Wallet.id w) (AssetType.id a) db)) |}.
Proof.
  unfold wallet_balances_query. rewrite in_flat_map. split.
  - intros (w & Hw & Hb). apply filter_In in Hw as [Hw Aw].
    apply in_map_iff in Hb as (a & <- & Ha). apply filter_In in Ha as [Ha Aa].
    exists w, a. repeat split; try assumption.
    unfold ledger_balance. now rewrite COALESCE_SUM, balance_of_signed.
  - intros (w & a & Hw & Aw & Ha & Aa & ->).
    exists w. split; [now apply filter_In|].
    apply in_map_iff. exists a. split; [|now apply filter_In].
    unfold ledger_balance. now rewrite COALESCE_SUM, balance_of_signed.
Qed.

(** X8. Right after [refreshBalancesView], [getBalance] reports exact
    figures: every item is the ledger balance of an active wallet of the
    user in an active asset type (of the requested code, when one is given),
    and every such pair is reported. *)
Theorem refreshed_view_reports_exact_balances
    (userId : string) (assetCode : option string) (db db' : Database)
    (response : BalanceResponse.t) :
  getBalance userId assetCode (snd (refreshBalancesView db)) = (Ok response, db') ->
  let wanted code :=
    match assetCode with
    | Some "" | None => True
    | Some c => code = c
    end in
  (forall item, In item (BalanceResponse.balances response) ->
     wanted (AssetBalance.asset_code item)
     /\ exists w a,
          In w (wallets db) /\ Wallet.is_active w = true
          /\ Wallet.user_id w = Some userId
          /\ In a (asset_types db) /\ AssetType.is_active a = true
          /\ AssetBalance.asset_code item = AssetType.code a
          /\ AssetBalance.balance item = ledger_balance (Wallet.id w) (AssetType.id a) db)
  /\ (forall w a,
        In w (wallets db) -> Wallet.is_active w = true ->
        Wallet.user_id w = Some userId ->
        In a (asset_types db) -> AssetType.is_active a = true ->
        wanted (AssetType.code a) ->
        exists item,
          In item (BalanceResponse.balances response)
          /\ AssetBalance.asset_code item = AssetType.code a
          /\ AssetBalance.balance item = ledger_balance (Wallet.id w) (AssetType.id a) db).
Proof.
  unfold getBalance, bind, ret.
  destruct (findWalletByUserId userId _) as [[w0|e] db0] eqn:F; [|discriminate].
  apply findWalletByUserId_Ok in F as (-> & _).
  unfold getBalancesFromView, refreshBalancesView. simpl.
  intros [= <- <-]. simpl.
  set (keep := fun b : WalletBalance.t => _ && _).
  assert (Keep : forall b, keep b = true
            <-> WalletBalance.user_id b = Some userId
                /\ match assetCode with
                   | Some "" | None => True
                   | Some c => WalletBalance.asset_code b = c
                   end).
  { intros b. unfold keep. rewrite andb_true_iff.
    assert (U : match WalletBalance.user_id b with
                | Some u => String.eqb u userId
                | None => false
                end = true <-> WalletBalance.user_id b = Some userId).
    { destruct (WalletBalance.user_id b) as [u|]; [|split; discriminate].
      rewrite String.eqb_eq. split; congruence. }
    rewrite U. destruct assetCode as [[|c0 c]|]; try tauto.
    rewrite String.eqb_eq. tauto. }
  split.
  - intros item Hin. apply in_map_iff in Hin as (b & <- & Hb). simpl.
    apply (Permutation_in _ (sort_by_perm _ _)) in Hb.
    apply filter_In in Hb as [Hb Kb]. apply Keep in Kb as [Ub Cb].
    apply wallet_balances_query_In in Hb as (w & a & Hw & Aw & Ha & Aa & ->).
    simpl in *. split; [exact Cb|]. exists w, a. repeat split; assumption.
  - intros w a Hw Aw Uw Ha Aa Wa.
    eexists. split.
    + apply in_map. eapply Permutation_in; [symmetry; apply sort_by_perm|].
      apply filter_In. split.
      * apply wallet_balances_query_In. exists w, a. repeat split; try eassumption.
      * apply Keep. simpl. split; [exact Uw|exact Wa].
    + simpl. split; reflexivity.
Qed.

(** ** Looking a transaction up by its key *)

Lemma createTransaction_Ok_checks `{RowChoice} (params : TransactionParams.t)
    (uuid : string) (client : PoolClient) (db db' : Database)
    (r : TransactionResult.t) :
  createTransaction params uuid client db = (Ok r, db') ->
  (String.length (String.append (TransactionParams.referenceId params) "_credit")
   <= 100)%nat
  /\ (forall e, In e (ledger_entries db) ->
        LedgerEntry.reference_id e
        = String.append (TransactionParams.referenceId params) "_credit" ->
        LedgerEntry.entry_type e <> CREDIT)
  /\ In (TransactionParams.sourceWalletId params) (map Wallet.id (wallets db))
  /\ In (TransactionParams.targetWalletId params) (map Wallet.id (wallets db))
  /\ In (TransactionParams.assetTypeId params) (map AssetType.id (asset_types db))
  /\ TransactionParams.transactionType params
     = LedgerEntry.transaction_type (TransactionResult.debitEntry r)
  /\ LedgerEntry.transaction_type (TransactionResult.creditEntry r)
     = LedgerEntry.transaction_type (TransactionResult.debitEntry r).
Proof.
  unfold createTransaction, withTransaction, bind, try_catch, throw, ret. intros E.
  destruct (findLedgerEntryByReferenceId _ db) as [[[existing|]|e0] db0] eqn:F;
    try discriminate.
  assert (db0 = db) as -> by (unfold findLedgerEntryByReferenceId in F; congruence).
  rewrite lockWalletsInOrder_state in E.
  destruct (fst (lockWalletsInOrder _ client db)) as [rows|e1]; try discriminate.
  rewrite calculateBalance_state in E.
  destruct (fst (calculateBalance _ _ client db)) as [b|e2] eqn:B; try discriminate.
  destruct (Z.ltb_spec b (TransactionParams.amount params)); try discriminate.
  destruct (insertLedgerEntry _ client db) as [[d|e3] db1] eqn:I1; try discriminate.
  destruct (insertLedgerEntry _ client db1) as [[c|e4] db2] eqn:I2; try discriminate.
  rewrite calculateBalance_state in E.
  destruct (fst (calculateBalance _ _ client db2)) as [nb|e5] eqn:B2; try discriminate.
  destruct (commit_error client) eqn:C; try discriminate.
  inversion E; subst; clear E. simpl.
  pose proof (insertLedgerEntry_Ok_checks _ _ _ _ _ I1) as (_ & _ & W1 & A1).
  pose proof (insertLedgerEntry_Ok_checks _ _ _ _ _ I2) as (Len & U2 & W2 & _).
  assert (T1 : LedgerEntry.transaction_type d = TransactionParams.transactionType params)
    by exact (insertLedgerEntry_Ok_type _ _ _ _ _ I1).
  assert (T2 : LedgerEntry.transaction_type c = TransactionParams.transactionType params)
    by exact (insertLedgerEntry_Ok_type _ _ _ _ _ I2).
  apply insertLedgerEntry_Ok in I1 as (_ & _ & _ & L1 & _ & (_ & Wd & _) & _).
  simpl in *.
  split; [exact Len|]. split.
  { intros e He. apply U2. rewrite L1. apply in_or_app. now left. }
  split; [exact W1|]. split; [now rewrite <- Wd|]. split; [exact A1|].
  split; congruence.
Qed.

Lemma filter_by_key {R} (key : R -> Z) (rows : list R) (x : R) :
  NoDup (map key rows) -> In x rows ->
  filter (fun r => key x =? key r) rows = [x].
Proof.
  induction rows as [|r rest IH]; simpl; intros Hnd Hin; [contradiction|].
  apply NoDup_cons_iff in Hnd as [Hr Hrest].
  destruct Hin as [->|Hin].
  - rewrite Z.eqb_refl. f_equal. apply filter_none. intros y Hy.
    apply Z.eqb_neq. intros E. apply Hr. rewrite E. now apply in_map.
  - destruct (Z.eqb_spec (key x) (key r)) as [E|E]; [|now apply IH].
    exfalso. apply Hr. rewrite <- E. now apply in_map.
Qed.

Lemma reference_filter_nil2 (referenceId : string) (db : Database) :
  ~ reference_used referenceId db ->
  ~ reference_used (String.append referenceId "_credit") db ->
  filter (fun le => String.eqb (LedgerEntry.reference_id le) referenceId
                    || String.eqb (LedgerEntry.reference_id le)
                                  (String.append referenceId "_credit"))
         (ledger_entries db) = [].
Proof.
  intros U1 U2. apply filter_none. intros e He.
  apply orb_false_iff. split; apply String.eqb_neq; intros E;
    [apply U1|apply U2]; now exists e.
Qed.

(** X9. A committed transfer is found by [getTransactionDetails] under its
    reference key (when no earlier entry held the key's credit form, and ids
    are keys of their tables): the details carry the transfer's transaction
    id, type and amount (as the store read it: the amount itself up to
    2^53), and list the debit on the source wallet followed by the credit on
    the target wallet. *)
Theorem committed_transfer_is_found_by_its_key `{RowChoice}
    (params : TransactionParams.t) (uuid : string) (client : PoolClient)
    (db db' : Database) (r : TransactionResult.t) :
  wallets_pk db -> asset_types_pk db ->
  ~ reference_used (String.append (TransactionParams.referenceId params) "_credit") db ->
  createTransaction params uuid client db = (Ok r, db') ->
  exists response source target,
    getTransactionDetails (TransactionParams.referenceId params) db' = (Ok response, db')
    /\ In source (wallets db)
    /\ Wallet.id source = TransactionParams.sourceWalletId params
    /\ In target (wallets db)
    /\ Wallet.id target = TransactionParams.targetWalletId params
    /\ TransactionDetailsResponse.transaction_id response = uuid
    /\ TransactionDetailsResponse.reference_id response
       = TransactionParams.referenceId params
    /\ TransactionDetailsResponse.type response = TransactionParams.transactionType params
    /\ TransactionDetailsResponse.amount response
       = written (TransactionParams.amount params)
    /\ TransactionDetailsResponse.ledger_entries response
       = [ {| LedgerEntryDetail.wallet_id := Wallet.id source;
              LedgerEntryDetail.wallet_name := Wallet.display_name source;
              LedgerEntryDetail.entry_type := DEBIT;
              LedgerEntryDetail.amount := written (TransactionParams.amount params) |};
           {| LedgerEntryDetail.wallet_id := Wallet.id target;
              LedgerEntryDetail.wallet_name := Wallet.display_name target;
              LedgerEntryDetail.entry_type := CREDIT;
              LedgerEntryDetail.amount := written (TransactionParams.amount params) |} ]
    /\ (- 2 ^ 53 <= TransactionParams.amount params <= 2 ^ 53 ->
        TransactionDetailsResponse.amount response = TransactionParams.amount params).
Proof.
  intros Wpk Apk U2 E.
  pose proof (createTransaction_Ok_checks _ _ _ _ _ _ E) as (_ & _ & Ws & Wt & As & Ty & Tc).
  apply createTransaction_Ok in E as (U1 & _ & Hd & Hc & L & (A & W & _) & _).
  apply in_map_iff in Ws as (source & Is & Hs).
  apply in_map_iff in Wt as (target & It & Ht).
  apply in_map_iff in As as (asset & Ia & Ha).
  destruct Hd as (Td & Wd & Ad & Ed & Md & Rd), Hc as (Tcr & Wc & Ac & Ec & Mc & Rc).
  eexists. exists source, target. split.
  { unfold getTransactionDetails, bind, ret, throw, findTransactionDetailsByReferenceId,
      transaction_detail_rows.
    rewrite L, filter_app, (reference_filter_nil2 _ _ U1 U2), A, W. simpl.
    rewrite Rd, Rc, !String.eqb_refl, orb_true_r. simpl.
    rewrite Wd, Wc, Ad, Ac, <- Is, <- It, <- Ia.
    rewrite (filter_by_key Wallet.id _ source Wpk Hs),
            (filter_by_key Wallet.id _ target Wpk Ht),
            (filter_by_key AssetType.id _ asset Apk Ha).
    simpl. rewrite Ed, Ec. simpl. reflexivity. }
  simpl. rewrite Td, Tcr, Md, Mc, Tc, <- Ty.
  destruct (Wallet.user_id source), (Wallet.user_id target); simpl;
    repeat split; try congruence; intros Small; now apply written_exact.
Qed.

Lemma transaction_detail_rows_found (referenceId : string) (db : Database)
    (e : LedgerEntry.t) :
  ledger_constraints db ->
  In e (ledger_entries db) ->
  LedgerEntry.reference_id e = referenceId
  \/ LedgerEntry.reference_id e = String.append referenceId "_credit" ->
  transaction_detail_rows referenceId db <> [].
Proof.
  intros (_ & _ & _ & _ & Fk) He Hr Hnil.
  rewrite Forall_forall in Fk. destruct (Fk e He) as [Hw Ha].
  apply in_map_iff in Hw as (w & Ew & Hw). apply in_map_iff in Ha as (a & Ea & Ha).
  assert (Hin : exists row, In row (transaction_detail_rows referenceId db)).
  { eexists. unfold transaction_detail_rows. apply in_flat_map. exists e. split.
    - apply filter_In. split; [exact He|]. apply orb_true_iff.
      destruct Hr as [Hr|Hr]; [left|right]; now apply String.eqb_eq.
    - apply in_flat_map. exists w. split.
      + apply filter_In. split; [exact Hw|]. apply Z.eqb_eq. congruence.
      + apply in_map_iff. exists a. split; [reflexivity|].
        apply filter_In. split; [exact Ha|]. apply Z.eqb_eq. congruence. }
  destruct Hin as (row & Hin). now rewrite Hnil in Hin.
Qed.

(** X10. On a ledger that meets its constraints, [getTransactionDetails]
    answers TransactionNotFoundError exactly when neither the key nor the key
    suffixed [_credit] is in use, and it fails in no other way. *)
Theorem details_not_found_exactly_when_unused
    (referenceId : string) (db : Database) :
  ledger_constraints db ->
  (getTransactionDetails referenceId db
   = (Throw (Service (TransactionNotFoundError referenceId)), db)
   <-> ~ reference_used referenceId db
       /\ ~ reference_used (String.append referenceId "_credit") db)
  /\ (forall e db', getTransactionDetails referenceId db = (Throw e, db') ->
        e = Service (TransactionNotFoundError referenceId)).
Proof.
  intros C.
  assert (Shape : forall rows,
             transaction_detail_rows referenceId db = rows ->
             (rows = [] ->
              getTransactionDetails referenceId db
              = (Throw (Service (TransactionNotFoundError referenceId)), db))
             /\ (rows <> [] ->
                 exists response, getTransactionDetails referenceId db = (Ok response, db))).
  { intros rows E.
    unfold getTransactionDetails, bind, ret, throw, findTransactionDetailsByReferenceId.
    rewrite E. split.
    - intros ->. reflexivity.
    - intros Hne.
      destruct (sort_by _ rows) as [|first rest] eqn:S.
      + exfalso. apply Hne. apply Permutation_nil.
        rewrite <- S. apply sort_by_perm.
      + eexists. reflexivity. }
  destruct (Shape _ eq_refl) as [Empty Full].
  split; [split|].
  - intros E. split; intros (e & He & Hr);
      (destruct Full as (response & R);
       [eapply transaction_detail_rows_found; eauto|congruence]).
  - intros [U1 U2]. apply Empty. unfold transaction_detail_rows.
    now rewrite (reference_filter_nil2 _ _ U1 U2).
  - intros e db' E.
    destruct (transaction_detail_rows referenceId db) as [|x t] eqn:R.
    + rewrite (Empty eq_refl) in E. congruence.
    + destruct Full as (response & R'); [discriminate|congruence].
Qed.

(** ** Pages of the history *)




Lemma filter_all {A} (p : A -> bool) (l : list A) :
  (forall x, In x l -> p x = true) -> filter p l = l.
Proof.
  induction l as [|x t IH]; simpl; intros Hall; [reflexivity|].
  rewrite (Hall x (or_introl eq_refl)). f_equal. apply IH. intros y Hy. apply Hall. now right.
Qed.

Lemma row_geb_refl (a : TransactionHistoryRow.t) : row_geb a a = true.
Proof. unfold row_geb. order_bools. lia. Qed.

Lemma transaction_data_rows (walletId assetTypeId : Z) (db : Database) :
  transaction_data walletId assetTypeId db
  = map (row_of_entry (entries_for walletId assetTypeId db))
        (entries_for walletId assetTypeId db).
Proof. reflexivity. Qed.

Lemma row_geb_entries (partition : list LedgerEntry.t) (e e' : LedgerEntry.t) :
  row_geb (row_of_entry partition e) (row_of_entry partition e') = key_leb e' e.
Proof. reflexivity. Qed.

(** The first row of the history is the row of an entry that no entry of
    the pair sorts after. *)
Lemma history_rows_head (walletId assetTypeId : Z) (db : Database)
    (row : TransactionHistoryRow.t) (rows : list TransactionHistoryRow.t) :
  history_rows walletId assetTypeId db = row :: rows ->
  exists e,
    In e (entries_for walletId assetTypeId db)
    /\ row = row_of_entry (entries_for walletId assetTypeId db) e
    /\ forall e', In e' (entries_for walletId assetTypeId db) -> key_leb e' e = true.
Proof.
  intros R.
  pose proof (sort_by_sorted row_geb row_geb_total row_geb_trans
                (transaction_data walletId assetTypeId db)) as Sorted.
  pose proof (sort_by_perm row_geb (transaction_data walletId assetTypeId db)) as Perm.
  fold (history_rows walletId assetTypeId db) in Sorted, Perm.
  rewrite R in Sorted, Perm. rewrite transaction_data_rows in Perm.
  apply StronglySorted_inv in Sorted as [_ Hrow]. rewrite Forall_forall in Hrow.
  assert (Hin : In row (map (row_of_entry (entries_for walletId assetTypeId db))
                            (entries_for walletId assetTypeId db)))
    by (eapply Permutation_in; [exact Perm|now left]).
  apply in_map_iff in Hin as (e & Erow & He).
  exists e. split; [exact He|]. split; [now symmetry|].
  intros e' He'. rewrite <- row_geb_entries with (partition := entries_for walletId assetTypeId db).
  rewrite Erow.
  assert (Hin' : In (row_of_entry (entries_for walletId assetTypeId db) e') (row :: rows)).
  { eapply Permutation_in; [symmetry; exact Perm|]. now apply in_map. }
  destruct Hin' as [<-|Hin']; [apply row_geb_refl|now apply Hrow].
Qed.

Lemma window_sum_of_latest (walletId assetTypeId : Z) (db : Database) (e : LedgerEntry.t) :
  (forall e', In e' (entries_for walletId assetTypeId db) -> key_leb e' e = true) ->
  window_sum (entries_for walletId assetTypeId db) e
  = ledger_balance walletId assetTypeId db.
Proof.
  intros Latest. unfold window_sum, ledger_balance.
  rewrite balance_of_signed. fold (entries_for walletId assetTypeId db).
  now rewrite (filter_all _ _ Latest).
Qed.

Lemma history_rows_nonempty (walletId assetTypeId : Z) (db : Database) :
  entries_for walletId assetTypeId db <> [] ->
  exists row rows, history_rows walletId assetTypeId db = row :: rows.
Proof.
  intros Hne. destruct (history_rows walletId assetTypeId db) as [|row rows] eqn:R;
    [|now exists row, rows].
  exfalso. apply Hne. apply length_zero_iff_nil.
  rewrite <- history_rows_length, R. reflexivity.
Qed.

Lemma first_page_head (walletId assetTypeId limit : Z) (db : Database)
    (row : TransactionHistoryRow.t) (rows : list TransactionHistoryRow.t) :
  1 <= limit ->
  history_rows walletId assetTypeId db = row :: rows ->
  exists rest more,
    getTransactionHistoryWithBalance walletId assetTypeId limit 0 db
    = (Ok (row :: rest, more), db).
Proof.
  intros Hl R.
  pose proof (getTransactionHistoryWithBalance_page walletId assetTypeId limit 0 db) as P.
  cbv zeta in P. rewrite P by lia. clear P. simpl skipn. rewrite R.
  destruct (Z.to_nat limit) as [|n] eqn:N; [lia|]. simpl.
  now do 2 eexists.
Qed.

(** X12. The first row of the first page of a non-empty history carries
    the current ledger balance of the pair as its [balance_after]. *)
Theorem newest_row_carries_the_balance
    (walletId assetTypeId limit : Z) (db : Database) :
  1 <= limit ->
  entries_for walletId assetTypeId db <> [] ->
  exists row rest more,
    getTransactionHistoryWithBalance walletId assetTypeId limit 0 db
    = (Ok (row :: rest, more), db)
    /\ TransactionHistoryRow.balance_after row = ledger_balance walletId assetTypeId db.
Proof.
  intros Hl Hne.
  destruct (history_rows_nonempty _ _ _ Hne) as (row & rows & R).
  destruct (first_page_head _ _ _ _ _ _ Hl R) as (rest & more & Page).
  exists row, rest, more. split; [exact Page|].
  apply history_rows_head in R as (e & _ & -> & Latest).
  now apply window_sum_of_latest.
Qed.

Lemma Number_of_Z_near (z : Z) :
  in_bigint z = true -> Z.abs (Number_of_Z z - z) <= 512.
Proof.
  unfold in_bigint, bigint_min, bigint_max. intros B.
  apply andb_true_iff in B as [Lo Hi]. apply Z.leb_le in Lo, Hi.
  destruct (Z.eq_dec z (- 2 ^ 63)) as [->|Nmin]; [vm_compute; discriminate|].
  unfold Number_of_Z.
  destruct (Z.leb_spec (Z.log2 (Z.abs z) + 1) 53) as [_|Big].
  { rewrite Z.sub_diag. simpl. lia. }
  assert (Hpos : 0 < Z.abs z).
  { destruct (Z.eq_dec (Z.abs z) 0) as [E|]; [rewrite E in Big; simpl in Big; lia | lia]. }
  assert (K : Z.log2 (Z.abs z) < 63) by (apply Z.log2_lt_pow2; lia).
  set (sh := Z.log2 (Z.abs z) + 1 - 53) in *.
  assert (Hsh : 1 <= sh <= 10) by lia.
  rewrite Z.shiftr_div_pow2, Z.land_ones, !Z.shiftl_mul_pow2 by lia.
  assert (P2 : 2 ^ sh = 2 * 2 ^ (sh - 1)).
  { replace sh with (Z.succ (sh - 1)) at 1 by lia. apply Z.pow_succ_r. lia. }
  assert (P9 : 0 < 2 ^ (sh - 1) <= 512).
  { split; [apply Z.pow_pos_nonneg; lia|].
    change 512 with (2 ^ 9). apply Z.pow_le_mono_r; lia. }
  pose proof (Z.div_mod (Z.abs z) (2 ^ sh) ltac:(lia)) as DM.
  pose proof (Z.mod_pos_bound (Z.abs z) (2 ^ sh) ltac:(lia)) as MB.
  set (r := Z.abs z mod 2 ^ sh) in *.
  set (N := 2 ^ sh * (Z.abs z / 2 ^ sh)) in *.
  set (half := 2 ^ (sh - 1)) in *.
  rewrite Z.mul_1_l.
  assert (Up : (Z.abs z / 2 ^ sh + 1) * 2 ^ sh = N + 2 ^ sh) by (unfold N; ring).
  assert (Dn : Z.abs z / 2 ^ sh * 2 ^ sh = N) by (unfold N; ring).
  destruct ((half <? r) || (r =? half) && Z.odd (Z.abs z / 2 ^ sh)) eqn:Round.
  - assert (half <= r).
    { apply orb_true_iff in Round as [R|R]; [apply Z.ltb_lt in R; lia|].
      apply andb_true_iff in R as [R _]. apply Z.eqb_eq in R. lia. }
    rewrite Up. destruct (Z.abs_spec z) as [[Z0 Ea]|[Z0 Ea]].
    + rewrite Z.sgn_pos by lia. lia.
    + rewrite Z.sgn_neg by lia. lia.
  - assert (r <= half).
    { apply orb_false_iff in Round as [R _]. apply Z.ltb_ge in R. lia. }
    rewrite Dn. destruct (Z.abs_spec z) as [[Z0 Ea]|[Z0 Ea]].
    + rewrite Z.sgn_pos by lia. lia.
    + rewrite Z.sgn_neg by lia. lia.
Qed.

(** X13. What [calculateBalance] returns is within 512 of the exact ledger
    balance, and is the exact balance when that has magnitude at most 2^53;
    when it throws, the error is 22003 and the exact balance lies outside
    BIGINT. *)
Theorem calculated_balance_is_near_the_ledger
    (walletId assetTypeId : Z) (client : PoolClient) (db : Database) :
  match fst (calculateBalance walletId assetTypeId client db) with
  | Ok balance =>
      Z.abs (balance - ledger_balance walletId assetTypeId db) <= 512
      /\ (Z.abs (ledger_balance walletId assetTypeId db) <= 2 ^ 53 ->
          balance = ledger_balance walletId assetTypeId db)
  | Throw e =>
      e = Pg "22003"
      /\ ~ bigint_min <= ledger_balance walletId assetTypeId db <= bigint_max
  end.
Proof.
  rewrite calculateBalance_ledger_balance.
  destruct (in_bigint (ledger_balance walletId assetTypeId db)) eqn:B.
  - split; [now apply Number_of_Z_near|].
    intros Small. apply Number_of_Z_exact. lia.
  - split; [reflexivity|]. unfold in_bigint in B. intros [Lo Hi].
    apply Z.leb_le in Lo, Hi. now rewrite Lo, Hi in B.
Qed.

Lemma length_with_suffix (s t : string) :
  String.length (String.append s t) = (String.length s + String.length t)%nat.
Proof. induction s as [|c s IH]; simpl; [reflexivity|now rewrite IH]. Qed.

(** X14. A transfer whose reference key is longer than 93 characters
    never commits: the credit entry's key, seven characters longer, does not
    fit the column. *)
Theorem transfer_key_longer_than_93_never_commits `{RowChoice}
    (params : TransactionParams.t) (uuid : string) (client : PoolClient)
    (db : Database) :
  (93 < String.length (TransactionParams.referenceId params))%nat ->
  exists e, fst (createTransaction params uuid client db) = Throw e.
Proof.
  intros Long.
  destruct (createTransaction params uuid client db) as [[r|e] db'] eqn:E;
    [|now exists e].
  apply createTransaction_Ok_checks in E as (Len & _).
  rewrite length_with_suffix in Len. simpl in Len. lia.
Qed.

(** X15. A transfer never commits while some CREDIT entry already holds
    the transfer's key suffixed [_credit], even when the key itself is
    unused. *)
Theorem taken_credit_key_blocks_the_transfer `{RowChoice}
    (params : TransactionParams.t) (uuid : string) (client : PoolClient)
    (db : Database) (taken : LedgerEntry.t) :
  In taken (ledger_entries db) ->
  LedgerEntry.entry_type taken = CREDIT ->
  LedgerEntry.reference_id taken
  = String.append (TransactionParams.referenceId params) "_credit" ->
  exists e, fst (createTransaction params uuid client db) = Throw e.
Proof.
  intros Hin Ht Hr.
  destruct (createTransaction params uuid client db) as [[r|e] db'] eqn:E;
    [|now exists e].
  apply createTransaction_Ok_checks in E as (_ & Free & _).
  now destruct (Free taken Hin Hr).
Qed.

(** X16. When a wallet row that an operation locks is held by somebody
    else (and the operation's key is unused), the operation throws, the store
    is unchanged, and [errorHandler] answers 409 CONCURRENCY_ERROR for a
    transfer but 503 LOCK_NOT_AVAILABLE for a credit-only or debit-only
    posting. *)
Theorem contended_lock_status_depends_on_the_operation `{RowChoice}
    (op : WriteOperation) (uuid : string) (client : PoolClient) (db : Database)
    (w : Wallet.t) :
  ~ reference_used (referenceKey op) db ->
  In w (lockRows (lockedWallets op) db) ->
  In (Wallet.id w) (locked_by_others client) ->
  exists e,
    perform op uuid client db = (Throw e, db)
    /\ errorHandler e
       = match op with
         | Transfer _ =>
             {| ErrorResponse.status := 409; ErrorResponse.code := "CONCURRENCY_ERROR" |}
         | _ =>
             {| ErrorResponse.status := 503; ErrorResponse.code := "LOCK_NOT_AVAILABLE" |}
         end.
Proof.
  intros U Hw Hl. rewrite (perform_contended op uuid client db w U Hw Hl).
  eexists. split; [reflexivity|]. now destruct op.
Qed.

Lemma findWalletByUserId_same (userId : string) (db db' : Database) :
  wallets db' = wallets db ->
  findWalletByUserId userId db' = (fst (findWalletByUserId userId db), db').
Proof.
  unfold findWalletByUserId. intros ->. now destruct (filter _ (wallets db)).
Qed.

Lemma findAssetTypeByCode_same (code : string) (db db' : Database) :
  asset_types db' = asset_types db ->
  findAssetTypeByCode code db' = (fst (findAssetTypeByCode code db), db').
Proof.
  unfold findAssetTypeByCode. intros ->. now destruct (filter _ (asset_types db)).
Qed.

Lemma createCreditOnlyTransaction_Ok_stamp `{RowChoice}
    (walletId assetTypeId amount : Z) (transactionType : TransactionType)
    (referenceId : string) (description : option string) (metadata : option Metadata)
    (uuid : string) (client : PoolClient) (db db' : Database) (r : SingleEntryResult.t) :
  createCreditOnlyTransaction walletId assetTypeId amount transactionType referenceId
    description metadata uuid client db = (Ok r, db') ->
  LedgerEntry.id (SingleEntryResult.entry r) = ledger_entries_id_seq db
  /\ LedgerEntry.created_at (SingleEntryResult.entry r) = now client
  /\ LedgerEntry.transaction_type (SingleEntryResult.entry r) = transactionType.
Proof.
  unfold createCreditOnlyTransaction, withTransaction, bind, throw, ret. intros E.
  destruct (findLedgerEntryByReferenceId _ db) as [[[existing|]|e0] db0] eqn:F;
    try discriminate.
  assert (db0 = db) as -> by (unfold findLedgerEntryByReferenceId in F; congruence).
  rewrite lockWalletsInOrder_state in E.
  destruct (fst (lockWalletsInOrder _ client db)) as [rows|e1]; try discriminate.
  destruct (insertLedgerEntry _ client db) as [[d|e3] db1] eqn:I1; try discriminate.
  rewrite calculateBalance_state in E.
  destruct (fst (calculateBalance _ _ client db1)) as [nb|e5] eqn:B2; try discriminate.
  destruct (commit_error client) eqn:C; try discriminate.
  inversion E; subst; clear E. simpl.
  pose proof (insertLedgerEntry_Ok _ _ _ _ _ I1) as (_ & Id & Cr & _).
  split; [exact Id|]. split; [exact Cr|].
  exact (insertLedgerEntry_Ok_type _ _ _ _ _ I1).
Qed.

(** X17. After a [bonus] that succeeds at a time no earlier than every
    entry of the ledger, the first item of the user's history for that asset
    is the bonus: it carries the response's transaction id, type BONUS, the
    request's amount (as the store read it: the amount itself up to 2^53)
    and reference key, and a [balance_after] equal to the balance the
    response reported (when a [number] holds it exactly). *)
Theorem bonus_heads_the_history `{RowChoice}
    (request : BonusRequest.t) (uuid : string) (client : PoolClient)
    (db db' : Database) (response : TransactionResponse.t) (limit : Z) :
  ledger_constraints db ->
  Forall (fun e => LedgerEntry.created_at e <= now client) (ledger_entries db) ->
  1 <= limit ->
  bonus request uuid client db = (Ok response, db') ->
  exists history item rest,
    getTransactionHistory (BonusRequest.user_id request) (BonusRequest.asset_code request)
      limit 0 db' = (Ok history, db')
    /\ TransactionHistoryResponse.transactions history = item :: rest
    /\ TransactionHistoryItem.transaction_id item
       = TransactionResponse.transaction_id response
    /\ TransactionHistoryItem.type item = BONUS
    /\ TransactionHistoryItem.amount item = written (BonusRequest.amount request)
    /\ (BonusRequest.amount request <= 2 ^ 53 ->
        TransactionHistoryItem.amount item = BonusRequest.amount request)
    /\ TransactionHistoryItem.reference_id item = BonusRequest.reference_id request
    /\ TransactionHistoryItem.created_at item = now client
    /\ (- 2 ^ 53 <= TransactionHistoryItem.balance_after item <= 2 ^ 53 ->
        TransactionHistoryItem.balance_after item = TransactionResponse.balance response).
Proof.
  intros (_ & Ids & _) Past Hl. unfold bonus.
  destruct (Z.leb_spec (BonusRequest.amount request) 0) as [|Pos]; [discriminate|].
  unfold bind, ret.
  destruct (findWalletByUserId _ db) as [[w|e1] db1] eqn:F1; [|discriminate].
  assert (db1 = db) as -> by (now apply findWalletByUserId_Ok in F1).
  destruct (findAssetTypeByCode _ db) as [[a|e2] db2] eqn:F2; [|discriminate].
  assert (db2 = db) as -> by (now apply findAssetTypeByCode_Ok in F2).
  destruct (createCreditOnlyTransaction _ _ _ _ _ _ _ _ _ _) as [[r|e3] db3] eqn:C;
    [|discriminate].
  intros [= <- <-]. simpl.
  pose proof (createCreditOnlyTransaction_Ok_stamp _ _ _ _ _ _ _ _ _ _ _ _ C)
    as (Id & Cr & Ty).
  apply createCreditOnlyTransaction_Ok in C as (_ & T & He & L & (Sa & Sw & _) & B).
  set (n := SingleEntryResult.entry r) in *.
  set (walletId := Wallet.id w) in *. set (assetTypeId := AssetType.id a) in *.
  destruct He as (En & Ew & Ea & Et & Eam & Er).
  assert (P : entries_for walletId assetTypeId db3
              = entries_for walletId assetTypeId db ++ [n]).
  { unfold entries_for. rewrite L, filter_app. simpl.
    unfold for_pair. now rewrite Ew, Ea, !Z.eqb_refl. }
  assert (Hne : entries_for walletId assetTypeId db3 <> []).
  { rewrite P. now destruct (entries_for walletId assetTypeId db). }
  destruct (history_rows_nonempty _ _ _ Hne) as (row & rows & R).
  destruct (first_page_head _ _ _ _ _ _ Hl R) as (rest & more & Page).
  apply history_rows_head in R as (e & He & -> & Latest).
  assert (e = n) as ->.
  { rewrite P in He. apply in_app_iff in He as [Old|[<-|[]]]; [|reflexivity].
    exfalso. apply filter_In in Old as [Old _].
    rewrite Forall_forall in Ids, Past.
    specialize (Ids _ Old). specialize (Past _ Old).
    assert (Hn : In n (entries_for walletId assetTypeId db3))
      by (rewrite P; apply in_app_iff; right; now left).
    specialize (Latest _ Hn). unfold key_leb in Latest.
    rewrite Id, Cr in Latest. revert Latest. order_bools. lia. }
  do 3 eexists. split.
  { unfold getTransactionHistory, bind, ret.
    rewrite (findWalletByUserId_same _ db db3 Sw), F1. simpl.
    rewrite (findAssetTypeByCode_same _ db db3 Sa), F2. simpl.
    fold walletId assetTypeId. rewrite Page. reflexivity. }
  cbn. split; [reflexivity|]. split; [now rewrite T|]. split; [exact Ty|].
  split; [exact Eam|].
  split; [intros Small; rewrite Eam; apply written_exact; lia|].
  split; [exact Er|]. split; [exact Cr|].
  rewrite (window_sum_of_latest _ _ _ _ Latest). intros Hr.
  rewrite (calculateBalance_safe _ _ _ _ Hr) in B. now injection B.
Qed.

(** ** The properties on the seeded store *)

Lemma Seed_asset_types_pk : asset_types_pk Seed.db.
Proof.
  unfold asset_types_pk. simpl.
  repeat (constructor; [simpl; intuition discriminate|]). constructor.
Qed.

Lemma Seed_ledger_constraints : ledger_constraints Seed.db.
Proof.
  unfold ledger_constraints. simpl.
  split; [repeat (constructor; [simpl; intuition discriminate|]); constructor|].
  split; [repeat (constructor; [reflexivity|]); constructor|].
  split; [repeat (constructor; [simpl; intuition discriminate|]); constructor|].
  split; [repeat (constructor; [split; [reflexivity|discriminate]|]); constructor|].
  repeat (constructor; [simpl; intuition reflexivity|]). constructor.
Qed.

Lemma write_operations_keep_constraints_witness :
  ledger_constraints Seed.db
  /\ ledger_constraints
       (snd (perform (Transfer Scenario.topup_001) "T1" (Seed.quiet 1) Seed.db)).
Proof.
  split; [exact Seed_ledger_constraints|].
  apply write_operations_keep_constraints. exact Seed_ledger_constraints.
Defined.

Lemma committed_debit_is_covered_witness :
  perform (Transfer Scenario.topup_001) "T1" (Seed.quiet 1) Seed.db
  = (Ok "T1", Scenario.after_topup)
  /\ 0 < 5000 <= ledger_balance 1 1 Seed.db
  /\ 0 <= ledger_balance 1 1 Scenario.after_topup.
Proof.
  assert (E : perform (Transfer Scenario.topup_001) "T1" (Seed.quiet 1) Seed.db
              = (Ok "T1", Scenario.after_topup)) by (vm_compute; reflexivity).
  split; [exact E|].
  apply (committed_debit_is_covered (Transfer Scenario.topup_001) "T1" (Seed.quiet 1)
           Seed.db Scenario.after_topup "T1" 1 1 5000 eq_refl E).
  vm_compute. split; discriminate.
Defined.

Lemma bonus_reports_the_new_balance_witness :
  exists response,
    bonus Cases.bonus_001 "T6" (Seed.quiet 6) Scenario.after_spend
    = (Ok response, Cases.after_bonus)
    /\ TransactionResponse.transaction_id response = "T6"
    /\ TransactionResponse.balance response = 1000
    /\ ledger_balance 6 3 Cases.after_bonus = ledger_balance 6 3 Scenario.after_spend + 1000.
Proof.
  let v := eval vm_compute in
             (fst (bonus Cases.bonus_001 "T6" (Seed.quiet 6) Scenario.after_spend)) in
  match v with
  | Ok ?r =>
      assert (E : bonus Cases.bonus_001 "T6" (Seed.quiet 6) Scenario.after_spend
                  = (Ok r, Cases.after_bonus)) by (vm_compute; reflexivity);
      exists r; split; [exact E|];
      destruct (bonus_reports_the_new_balance _ _ _ _ _ _ E)
        as (w & a & _ & _ & _ & _ & _ & _ & T & _)
  end.
  split; [exact T|]. split; vm_compute; reflexivity.
Defined.

Lemma spend_balance_ignores_the_spend_witness :
  exists response response' db2,
    spend Scenario.spend_001 "T2" (Seed.quiet 2) Scenario.after_topup
    = (Ok response, Scenario.after_spend)
    /\ spend Cases.spend_one "T8" (Seed.quiet 8) Scenario.after_topup = (Ok response', db2)
    /\ TransactionResponse.balance response' = TransactionResponse.balance response
    /\ wallet_balances Scenario.after_spend = wallet_balances Scenario.after_topup.
Proof.
  let v := eval vm_compute in
             (fst (spend Scenario.spend_001 "T2" (Seed.quiet 2) Scenario.after_topup)) in
  let v' := eval vm_compute in
              (spend Cases.spend_one "T8" (Seed.quiet 8) Scenario.after_topup) in
  match v with
  | Ok ?r =>
      match v' with
      | (Ok ?r', ?d2) =>
          assert (E : spend Scenario.spend_001 "T2" (Seed.quiet 2) Scenario.after_topup
                      = (Ok r, Scenario.after_spend)) by (vm_compute; reflexivity);
          assert (E' : spend Cases.spend_one "T8" (Seed.quiet 8) Scenario.after_topup
                       = (Ok r', d2)) by (vm_compute; reflexivity);
          exists r, r', d2; split; [exact E|]; split; [exact E'|];
          exact (spend_balance_ignores_the_spend Scenario.spend_001 Cases.spend_one
                   "T2" "T8" (Seed.quiet 2) (Seed.quiet 8) Scenario.after_topup
                   Scenario.after_spend d2 r r' eq_refl eq_refl E E')
      end
  end.
Defined.

Lemma refreshed_view_reports_exact_balances_witness :
  exists response db',
    getBalance "user_alice" (Some "GOLD_COINS") (snd (refreshBalancesView Scenario.after_spend))
    = (Ok response, db')
    /\ forall item, In item (BalanceResponse.balances response) ->
         AssetBalance.asset_code item = "GOLD_COINS"
         /\ AssetBalance.balance item = 102500.
Proof.
  let v := eval vm_compute in
             (getBalance "user_alice" (Some "GOLD_COINS")
                (snd (refreshBalancesView Scenario.after_spend))) in
  match v with
  | (Ok ?r, ?d) =>
      assert (E : getBalance "user_alice" (Some "GOLD_COINS")
                    (snd (refreshBalancesView Scenario.after_spend)) = (Ok r, d))
        by (vm_compute; reflexivity);
      exists r, d; split; [exact E|];
      destruct (refreshed_view_reports_exact_balances _ _ _ _ _ E) as [Each _]
  end.
  intros item Hin. destruct (Each item Hin) as (Code & _).
  split; [exact Code|].
  simpl in Hin. destruct Hin as [<-|[]]. reflexivity.
Defined.

Lemma committed_transfer_is_found_by_its_key_witness :
  exists response,
    getTransactionDetails "topup_001" Scenario.after_topup
    = (Ok response, Scenario.after_topup)
    /\ TransactionDetailsResponse.transaction_id response = "T1"
    /\ TransactionDetailsResponse.amount response = 5000
    /\ map LedgerEntryDetail.entry_type (TransactionDetailsResponse.ledger_entries response)
       = [DEBIT; CREDIT].
Proof.
  assert (U : ~ reference_used
                (String.append (TransactionParams.referenceId Scenario.topup_001) "_credit")
                Seed.db) by (apply reference_unused_check; reflexivity).
  let v := eval vm_compute in
             (fst (createTransaction Scenario.topup_001 "T1" (Seed.quiet 1) Seed.db)) in
  match v with
  | Ok ?r =>
      assert (E : createTransaction Scenario.topup_001 "T1" (Seed.quiet 1) Seed.db
                  = (Ok r, Scenario.after_topup)) by (vm_compute; reflexivity);
      destruct (committed_transfer_is_found_by_its_key _ _ _ _ _ _
                  Seed_wallets_pk Seed_asset_types_pk U E)
        as (response & source & target & D & _ & _ & _ & _ & T & _ & _ & A & L & _)
  end.
  exists response. split; [exact D|]. split; [exact T|]. split; [exact A|].
  rewrite L. reflexivity.
Defined.

Lemma details_not_found_exactly_when_unused_witness :
  getTransactionDetails "order_7" Seed.db
  = (Throw (Service (TransactionNotFoundError "order_7")), Seed.db).
Proof.
  apply (details_not_found_exactly_when_unused "order_7" Seed.db Seed_ledger_constraints).
  split; apply reference_unused_check; reflexivity.
Defined.


Lemma newest_row_carries_the_balance_witness :
  exists row rest more,
    getTransactionHistoryWithBalance 6 1 1 0 Scenario.after_spend
    = (Ok (row :: rest, more), Scenario.after_spend)
    /\ TransactionHistoryRow.balance_after row = 102500.
Proof.
  destruct (newest_row_carries_the_balance 6 1 1 Scenario.after_spend)
    as (row & rest & more & E & B); [lia|vm_compute; discriminate|].
  exists row, rest, more. split; [exact E|]. rewrite B. vm_compute. reflexivity.
Defined.

Lemma transfer_key_longer_than_93_never_commits_witness :
  String.length Cases.key94 = 94%nat
  /\ exists e,
       fst (createTransaction Cases.long_key_topup "T7" (Seed.quiet 7) Seed.db) = Throw e.
Proof.
  split; [reflexivity|].
  apply transfer_key_longer_than_93_never_commits.
  change (String.length (TransactionParams.referenceId Cases.long_key_topup)) with 94%nat.
  lia.
Defined.

Lemma taken_credit_key_blocks_the_transfer_witness :
  reference_used "order_7_credit" Cases.after_shadow_bonus
  /\ ~ reference_used "order_7" Cases.after_shadow_bonus
  /\ exists e,
       fst (createTransaction Cases.order_7 "T8" (Seed.quiet 8) Cases.after_shadow_bonus)
       = Throw e.
Proof.
  split; [apply reference_used_check; reflexivity|].
  split; [apply reference_unused_check; reflexivity|].
  let v := eval vm_compute in (hd_error (rev (ledger_entries Cases.after_shadow_bonus))) in
  match v with
  | Some ?taken =>
      apply (taken_credit_key_blocks_the_transfer Cases.order_7 "T8" (Seed.quiet 8)
               Cases.after_shadow_bonus taken);
        [vm_compute; tauto|reflexivity|reflexivity]
  end.
Defined.

Lemma contended_lock_status_depends_on_the_operation_witness :
  (exists e,
     perform (Transfer Scenario.spend_002) "T5" (Scenario.contended 5) Seed.db
     = (Throw e, Seed.db)
     /\ errorHandler e
        = {| ErrorResponse.status := 409; ErrorResponse.code := "CONCURRENCY_ERROR" |})
  /\ (exists e,
        perform (CreditOnly 6 3 1000 BONUS "bonus_001" None None) "T6"
          (Scenario.contended 6) Seed.db
        = (Throw e, Seed.db)
        /\ errorHandler e
           = {| ErrorResponse.status := 503; ErrorResponse.code := "LOCK_NOT_AVAILABLE" |}).
Proof.
  split.
  - apply (contended_lock_status_depends_on_the_operation
             (Transfer Scenario.spend_002) "T5" (Scenario.contended 5) Seed.db
             (Seed.user_wallet 6 "user_alice" "Alice"));
      [apply reference_unused_check; reflexivity|vm_compute; tauto|now left].
  - apply (contended_lock_status_depends_on_the_operation
             (CreditOnly 6 3 1000 BONUS "bonus_001" None None) "T6"
             (Scenario.contended 6) Seed.db
             (Seed.user_wallet 6 "user_alice" "Alice"));
      [apply reference_unused_check; reflexivity|vm_compute; tauto|now left].
Defined.

Lemma bonus_heads_the_history_witness :
  exists response db' history item rest,
    bonus Cases.bonus_001 "T6" (Seed.quiet 6) Seed.db = (Ok response, db')
    /\ getTransactionHistory "user_alice" "LOYALTY_POINTS" 10 0 db' = (Ok history, db')
    /\ TransactionHistoryResponse.transactions history = item :: rest
    /\ TransactionHistoryItem.transaction_id item = "T6"
    /\ TransactionHistoryItem.amount item = 1000
    /\ TransactionHistoryItem.balance_after item = TransactionResponse.balance response.
Proof.
  let v := eval vm_compute in (bonus Cases.bonus_001 "T6" (Seed.quiet 6) Seed.db) in
  match v with
  | (Ok ?r, ?d) =>
      assert (E : bonus Cases.bonus_001 "T6" (Seed.quiet 6) Seed.db = (Ok r, d))
        by (vm_compute; reflexivity);
      assert (Past : Forall (fun e => LedgerEntry.created_at e <= now (Seed.quiet 6))
                            (ledger_entries Seed.db))
        by (repeat (constructor; [vm_compute; discriminate|]); constructor);
      destruct (bonus_heads_the_history Cases.bonus_001 "T6" (Seed.quiet 6) Seed.db d r 10
                  Seed_ledger_constraints Past ltac:(lia) E)
        as (history & item & rest & G & L & T & _ & A & _ & _ & _ & B);
      exists r, d, history, item, rest
  end.
  split; [exact E|]. split; [exact G|]. split; [exact L|]. split; [exact T|].
  split; [exact A|]. apply B.
  vm_compute in G. injection G as <-. injection L as <- _. vm_compute. split; discriminate.
Defined.
